(** * Mahalaxmi Tours and Travels: the eSewa payment-callback workflow

    A shallow embedding of the payment workflow of the booking backend
    ([Backend/system/url_utils.py], [esewa_utils.py], [esewa_v2_views.py],
    [nested_booking_serializers.py]) and the properties established about it.

    Conventions of the embedding.
    - A Python [str] is a Rocq [string] holding its UTF-8 bytes; every
      character the code inspects ('?', '&', '=', 'http', digits) is ASCII,
      and an ASCII byte never occurs inside a multi-byte UTF-8 sequence.
    - [print] calls are logging only and are left out.
    - A raised exception is a value of an error type; [None] is [None]. *)

From Stdlib Require Import ZArith List String Ascii Bool Lia Arith.
From Stdlib Require Import Numbers.DecimalString Numbers.DecimalZ Numbers.DecimalPos.
From Equations Require Import Equations.
Import ListNotations.

Open Scope string_scope.

(* ===================================================================== *)
(** * Python string primitives *)
(* ===================================================================== *)

Module PyStr.

(** [s.count(c)] for a one-character [c]. *)
Fixpoint count (c : ascii) (s : string) : nat :=
  match s with
  | EmptyString => 0
  | String a s' => (if Ascii.eqb a c then 1 else 0) + count c s'
  end.

(** [s.find(c, start)] for a one-character [c] and [0 <= start]; Python's
    [-1] is [None]. *)
Fixpoint find (c : ascii) (s : string) (start : nat) : option nat :=
  match s with
  | EmptyString => None
  | String a s' =>
      match start with
      | O => if Ascii.eqb a c then Some 0 else option_map S (find c s' 0)
      | S k => option_map S (find c s' k)
      end
  end.

(** [s[:n]] for [0 <= n]. *)
Fixpoint take (n : nat) (s : string) : string :=
  match n, s with
  | O, _ => EmptyString
  | S _, EmptyString => EmptyString
  | S k, String a s' => String a (take k s')
  end.

(** [s[n:]] for [0 <= n]. *)
Fixpoint drop (n : nat) (s : string) : string :=
  match n, s with
  | O, _ => s
  | S _, EmptyString => EmptyString
  | S k, String _ s' => drop k s'
  end.

(** [c in s]. *)
Definition contains (c : ascii) (s : string) : bool :=
  negb (Nat.eqb (count c s) 0).

(** [s.startswith(p)]. *)
Definition startswith (p s : string) : bool := String.prefix p s.

(** [not s]: the empty string is the only falsy string. *)
Definition falsy (s : string) : bool :=
  match s with EmptyString => true | _ => false end.

Definition truthy (s : string) : bool := negb (falsy s).

(** [str(z)] for an [int]. *)
Definition str_of_int (z : Z) : string := NilZero.string_of_int (Z.to_int z).

(** [int(s)] on a decimal literal: an optional '-' and ASCII digits.  This
    is the form of every string the payment-request builder converts back
    (they are all results of [str] on an [int], or the literal "0"); [None]
    is [ValueError]. *)
Definition int_of_str (s : string) : option Z :=
  option_map Z.of_int (NilZero.int_of_string s).

(** One-byte characters for which [str.isspace] holds. *)
Definition ascii_space (a : ascii) : bool :=
  let n := nat_of_ascii a in
  (Nat.leb 9 n && Nat.leb n 13) || (Nat.leb 28 n && Nat.leb n 32).

Definition two_byte_space (a b : ascii) : bool :=
  Nat.eqb (nat_of_ascii a) 194
  && (Nat.eqb (nat_of_ascii b) 133 || Nat.eqb (nat_of_ascii b) 160).

Definition three_byte_space (a b c : ascii) : bool :=
  let x := nat_of_ascii a in
  let y := nat_of_ascii b in
  let z := nat_of_ascii c in
  (Nat.eqb x 225 && Nat.eqb y 154 && Nat.eqb z 128)
  || (Nat.eqb x 226 && Nat.eqb y 128
      && (Nat.leb 128 z && Nat.leb z 138 || Nat.eqb z 168 || Nat.eqb z 169
          || Nat.eqb z 175))
  || (Nat.eqb x 226 && Nat.eqb y 129 && Nat.eqb z 159)
  || (Nat.eqb x 227 && Nat.eqb y 128 && Nat.eqb z 128).

(** [not s.strip()]: the string holds white space only (the code points
    U+0009..000D, 001C..0020, 0085, 00A0, 1680, 2000..200A, 2028, 2029, 202F,
    205F and 3000, in their UTF-8 form). *)
Fixpoint blank (s : string) : bool :=
  match s with
  | EmptyString => true
  | String a s1 =>
      if ascii_space a then blank s1
      else
        match s1 with
        | String b s2 =>
            if two_byte_space a b then blank s2
            else
              match s2 with
              | String c s3 => if three_byte_space a b c then blank s3 else false
              | EmptyString => false
              end
        | EmptyString => false
        end
  end.

(** [s.lower()] on the ASCII letters. *)
Definition lower_char (a : ascii) : ascii :=
  let n := nat_of_ascii a in
  if Nat.leb 65 n && Nat.leb n 90 then ascii_of_nat (n + 32) else a.

Fixpoint lower (s : string) : string :=
  match s with
  | EmptyString => EmptyString
  | String a s' => String (lower_char a) (lower s')
  end.

(** [sep.join(l)]. *)
Fixpoint join (sep : string) (l : list string) : string :=
  match l with
  | [] => EmptyString
  | [x] => x
  | x :: l' => x ++ sep ++ join sep l'
  end.

(** [s.split(c)]. *)
Fixpoint split_on (c : ascii) (s : string) : list string :=
  match s with
  | EmptyString => [EmptyString]
  | String a s' =>
      if Ascii.eqb a c then EmptyString :: split_on c s'
      else
        match split_on c s' with
        | h :: t => String a h :: t
        | [] => [String a EmptyString]
        end
  end.

(** [s.split(c, 1)]: the part before the first [c] and, when there is a
    [c], the part after it. *)
Fixpoint split_once (c : ascii) (s : string) : string * option string :=
  match s with
  | EmptyString => (EmptyString, None)
  | String a s' =>
      if Ascii.eqb a c then (EmptyString, Some s')
      else let (h, t) := split_once c s' in (String a h, t)
  end.

(** A [dict] with [str] keys, in insertion order. *)
Definition dict (V : Type) : Type := list (string * V).

Fixpoint lookup {V : Type} (k : string) (d : dict V) : option V :=
  match d with
  | [] => None
  | (k', v) :: d' => if String.eqb k k' then Some v else lookup k d'
  end.

(** [d[k] = v]: replaces the value of an existing key in place, appends a
    new one. *)
Fixpoint set {V : Type} (k : string) (v : V) (d : dict V) : dict V :=
  match d with
  | [] => [(k, v)]
  | (k', v') :: d' =>
      if String.eqb k k' then (k, v) :: d' else (k', v') :: set k v d'
  end.

Definition keys {V : Type} (d : dict V) : list string := map fst d.

(** ** Facts about the primitives *)

Lemma int_of_str_of_int z : int_of_str (str_of_int z) = Some z.
Proof.
  unfold int_of_str, str_of_int.
  rewrite NilZero.isi.
  - cbn. now rewrite DecimalZ.of_to.
  - destruct z; cbn; try discriminate.
    intros [= H]. now apply (DecimalPos.Unsigned.to_uint_nonnil p).
  - destruct z; cbn; try discriminate.
    intros [= H]. now apply (DecimalPos.Unsigned.to_uint_nonnil p).
Qed.

Lemma count_replace c c' s k p :
  Ascii.eqb c' c = false ->
  find c s k = Some p ->
  count c (take p s ++ String c' (drop (S p) s)) + 1 = count c s.
Proof.
  intros E. revert k p.
  induction s as [|a s IH]; intros k p H; cbn [find] in H; [discriminate|].
  destruct k.
  - destruct (Ascii.eqb a c) eqn:Ea.
    + injection H as <-. cbn [count take drop append]. rewrite E, Ea. lia.
    + destruct (find c s 0) eqn:F; cbn in H; [|discriminate].
      injection H as <-. specialize (IH _ _ F).
      cbn [count take drop append] in *. rewrite Ea. lia.
  - destruct (find c s k) eqn:F; cbn in H; [|discriminate].
    injection H as <-. specialize (IH _ _ F).
    cbn [count take drop append] in *. lia.
Qed.

Lemma count_app c a b : count c (a ++ b) = count c a + count c b.
Proof.
  induction a as [|x a IH]; [reflexivity|].
  cbn [append count]. rewrite IH. lia.
Qed.

Lemma split_on_none c a : count c a = 0 -> split_on c a = [a].
Proof.
  induction a as [|x a IH]; [reflexivity|].
  cbn [count split_on]. destruct (Ascii.eqb x c); [discriminate|].
  intros H. now rewrite IH.
Qed.

Lemma split_on_first c a b :
  count c a = 0 -> split_on c (a ++ String c b) = a :: split_on c b.
Proof.
  induction a as [|x a IH]; cbn [count split_on append].
  - now rewrite Ascii.eqb_refl.
  - destruct (Ascii.eqb x c); [discriminate|].
    intros H. now rewrite IH.
Qed.

Lemma split_once_first c a b :
  count c a = 0 -> split_once c (a ++ String c b) = (a, Some b).
Proof.
  induction a as [|x a IH]; cbn [count split_once append].
  - now rewrite Ascii.eqb_refl.
  - destruct (Ascii.eqb x c); [discriminate|].
    intros H. now rewrite IH.
Qed.

Lemma str_of_int_truthy z : falsy (str_of_int z) = false.
Proof.
  destruct (str_of_int z) eqn:E; [|reflexivity].
  pose proof (int_of_str_of_int z) as H. rewrite E in H. discriminate.
Qed.

Lemma uint_no_dot d : count "." (NilEmpty.string_of_uint d) = 0%nat.
Proof. induction d; cbn; auto. Qed.

Lemma str_of_int_no_dot z : count "." (str_of_int z) = 0%nat.
Proof.
  unfold str_of_int. destruct (Z.to_int z) as [d|d]; cbn [NilZero.string_of_int].
  - destruct d; try apply uint_no_dot. reflexivity.
  - cbn [count]. destruct d; try apply uint_no_dot. reflexivity.
Qed.

Lemma split_once_none c s : count c s = 0%nat -> split_once c s = (s, None).
Proof.
  induction s as [|a s IH]; [reflexivity|].
  cbn [count split_once]. destruct (Ascii.eqb a c); [discriminate|].
  intros H. now rewrite IH.
Qed.

End PyStr.

(* ===================================================================== *)
(** * [url_utils.py]: the callback URL normalizer *)
(* ===================================================================== *)

Module UrlUtils.
Import PyStr.

(** The values [fix_esewa_callback_url] may be handed: [None], a [str], or
    an object that is not a [str] (an integer stands for those). *)
Inductive PyValue : Type :=
| PyNone
| PyString (s : string)
| PyInt (z : Z).

Definition qmark : ascii := "?"%char.
Definition amp : ascii := "&"%char.

(** [url[:p] + '&' + url[p + 1:]]. *)
Definition replace_at (p : nat) (url : string) : string :=
  take p url ++ String amp (drop (S p) url).

(** [url.find('?', url.find('?') + 1)], the position of the second '?'. *)
Definition second_q_pos (url : string) : option nat :=
  match find qmark url 0 with
  | Some first_q_pos => find qmark url (first_q_pos + 1)
  | None => find qmark url 0
  end.

Definition inspect {A : Type} (a : A) : { b : A | a = b } := exist _ a eq_refl.

(** The body of [fix_esewa_callback_url] on a [str] argument.  The function
    calls itself on [fixed_url] while more than two '?' were counted; each
    call removes one '?', which is the termination measure.  (The interpreter's
    bound on the depth of the call stack is not part of the model.) *)
Equations? fix_url_str (url : string) : string by wf (count qmark url) lt :=
fix_url_str url with inspect (falsy url) := {
  | exist _ true _ => url
  | exist _ false _ with inspect (Nat.leb (count qmark url) 1) := {
    | exist _ true _ => url
    | exist _ false _ with inspect (second_q_pos url) := {
      | exist _ None _ => url
      | exist _ (Some second) Hsecond with inspect (Nat.ltb 2 (count qmark url)) := {
        | exist _ true _ => fix_url_str (replace_at second url)
        | exist _ false _ => replace_at second url } } } }.
Proof.
  unfold second_q_pos in Hsecond. unfold replace_at.
  assert (exists k, find qmark url k = Some second) as [k Hk].
  { destruct (find qmark url 0); [eauto | discriminate]. }
  pose proof (count_replace qmark amp url k second eq_refl Hk). lia.
Qed.

(** [fix_esewa_callback_url(url)]: [if not url or not isinstance(url, str):
    return url], then the string case. *)
Definition fix_esewa_callback_url (url : PyValue) : PyValue :=
  match url with
  | PyString s => PyString (fix_url_str s)
  | _ => url
  end.

(** The normalizer as the specification words it: the first '?' stays,
    every later '?' becomes '&'. *)
Fixpoint amp_all (s : string) : string :=
  match s with
  | EmptyString => EmptyString
  | String a s' => String (if Ascii.eqb a qmark then amp else a) (amp_all s')
  end.

Fixpoint normalize (s : string) : string :=
  match s with
  | EmptyString => EmptyString
  | String a s' =>
      if Ascii.eqb a qmark then String a (amp_all s') else String a (normalize s')
  end.

(** What the character at position [i] of the normalized URL must be: a
    '?' that has another '?' somewhere before it becomes '&', every other
    character stays. *)
Definition expected_char (s : string) (i : nat) : option ascii :=
  match String.get i s with
  | Some c =>
      if Ascii.eqb c qmark && negb (Nat.eqb (count qmark (take i s)) 0)
      then Some amp else Some c
  | None => None
  end.

Example fix_doc_example :
  fix_url_str "/verify-and-book/?param1=val1&param2=val2?data=BASE64"
  = "/verify-and-book/?param1=val1&param2=val2&data=BASE64".
Proof. reflexivity. Qed.

Example fix_three :
  fix_url_str "/v/?param1=val1?param2=val2?data=BASE64"
  = "/v/?param1=val1&param2=val2&data=BASE64".
Proof. reflexivity. Qed.


(** ** The normalizer computes the specified normal form *)

Lemma amp_all_no_q s : count qmark s = 0 -> amp_all s = s.
Proof.
  induction s as [|a s IH]; cbn [count amp_all]; [reflexivity|].
  destruct (Ascii.eqb a qmark); [discriminate|].
  intros H. now rewrite IH.
Qed.

Lemma count_amp_all s : count qmark (amp_all s) = 0.
Proof.
  induction s as [|a s IH]; cbn [count amp_all]; [reflexivity|].
  destruct (Ascii.eqb a qmark) eqn:E; [|rewrite E]; now rewrite IH.
Qed.

Lemma find_none_count c s : find c s 0 = None -> count c s = 0.
Proof.
  induction s as [|a s IH]; cbn [find count]; [reflexivity|].
  destruct (Ascii.eqb a c); [discriminate|].
  destruct (find c s 0); [discriminate|]. intros _. now rewrite IH.
Qed.

Lemma find_first_amp_all s q :
  find qmark s 0 = Some q -> amp_all (replace_at q s) = amp_all s.
Proof.
  unfold replace_at. revert q.
  induction s as [|a s IH]; intros q; cbn [find]; [discriminate|].
  destruct (Ascii.eqb a qmark) eqn:E.
  - intros [= <-]. cbn [take drop append amp_all]. now rewrite E.
  - destruct (find qmark s 0) as [q'|]; [|discriminate].
    intros [= <-]. cbn [take drop append amp_all]. now rewrite E, IH.
Qed.

Lemma find_first_only s q :
  find qmark s 0 = Some q -> count qmark s <= 1 -> replace_at q s = amp_all s.
Proof.
  unfold replace_at. revert q.
  induction s as [|a s IH]; intros q; cbn [find count]; [discriminate|].
  destruct (Ascii.eqb a qmark) eqn:E.
  - intros [= <-] Hc. cbn [take drop append amp_all]. rewrite E.
    f_equal. symmetry. apply amp_all_no_q. lia.
  - destruct (find qmark s 0) as [q'|]; [|discriminate].
    intros [= <-] Hc. cbn [take drop append amp_all]. rewrite E.
    f_equal. apply IH; [reflexivity | lia].
Qed.

Lemma second_q_pos_cons a s :
  second_q_pos (String a s) =
  if Ascii.eqb a qmark then option_map S (find qmark s 0)
  else option_map S (second_q_pos s).
Proof.
  unfold second_q_pos. cbn [find].
  destruct (Ascii.eqb a qmark) eqn:E.
  - cbn [Nat.add find]. reflexivity.
  - destruct (find qmark s 0) as [f|]; cbn [option_map]; [|reflexivity].
    cbn [Nat.add find]. reflexivity.
Qed.

Lemma normalize_unchanged s : count qmark s <= 1 -> normalize s = s.
Proof.
  induction s as [|a s IH]; cbn [count normalize]; [reflexivity|].
  destruct (Ascii.eqb a qmark) eqn:E; intros H.
  - f_equal. apply amp_all_no_q. lia.
  - f_equal. apply IH. lia.
Qed.

Lemma second_none_count s : second_q_pos s = None -> count qmark s <= 1.
Proof.
  induction s as [|a s IH]; [cbn; lia|].
  rewrite second_q_pos_cons. cbn [count].
  destruct (Ascii.eqb a qmark).
  - destruct (find qmark s 0) eqn:F; [discriminate|].
    intros _. rewrite (find_none_count _ _ F). lia.
  - destruct (second_q_pos s); [discriminate|]. intros _. specialize (IH eq_refl). lia.
Qed.

Lemma replace_second_normalize s p :
  second_q_pos s = Some p -> normalize (replace_at p s) = normalize s.
Proof.
  revert p. induction s as [|a s IH]; intros p; [discriminate|].
  rewrite second_q_pos_cons.
  destruct (Ascii.eqb a qmark) eqn:E.
  - destruct (find qmark s 0) as [q|] eqn:F; [|discriminate].
    intros [= <-]. change (replace_at (S q) (String a s)) with (String a (replace_at q s)).
    cbn [normalize]. rewrite E. f_equal. now apply find_first_amp_all.
  - destruct (second_q_pos s) as [q|] eqn:F; [|discriminate].
    intros [= <-]. change (replace_at (S q) (String a s)) with (String a (replace_at q s)).
    cbn [normalize]. rewrite E. f_equal. now apply IH.
Qed.

Lemma replace_second_last s p :
  second_q_pos s = Some p -> count qmark s <= 2 -> replace_at p s = normalize s.
Proof.
  revert p. induction s as [|a s IH]; intros p; [discriminate|].
  rewrite second_q_pos_cons. cbn [count].
  destruct (Ascii.eqb a qmark) eqn:E.
  - destruct (find qmark s 0) as [q|] eqn:F; [|discriminate].
    intros [= <-] Hc. change (replace_at (S q) (String a s)) with (String a (replace_at q s)).
    cbn [normalize]. rewrite E. f_equal. apply find_first_only; [assumption | lia].
  - destruct (second_q_pos s) as [q|] eqn:F; [|discriminate].
    intros [= <-] Hc. change (replace_at (S q) (String a s)) with (String a (replace_at q s)).
    cbn [normalize]. rewrite E. f_equal. apply IH; [reflexivity | lia].
Qed.

(** The code computes the specified normal form. *)
Lemma fix_url_str_normalize url : fix_url_str url = normalize url.
Proof.
  funelim (fix_url_str url).
  - destruct url; [reflexivity | discriminate].
  - symmetry. apply normalize_unchanged. now apply Nat.leb_le.
  - symmetry. apply normalize_unchanged. now apply second_none_count.
  - match goal with IH : fix_url_str _ = normalize _ |- _ => rewrite IH end.
    now apply replace_second_normalize.
  - apply replace_second_last; [assumption|].
    apply Nat.ltb_ge. assumption.
Qed.

Lemma count_normalize s : count qmark (normalize s) = Nat.min 1 (count qmark s).
Proof.
  induction s as [|a s IH]; cbn [count normalize]; [reflexivity|].
  destruct (Ascii.eqb a qmark) eqn:E; cbn [count]; rewrite E.
  - rewrite count_amp_all. reflexivity.
  - rewrite IH. reflexivity.
Qed.

Lemma normalize_idempotent s : normalize (normalize s) = normalize s.
Proof.
  apply normalize_unchanged. rewrite count_normalize. lia.
Qed.

Lemma get_amp_all s i :
  String.get i (amp_all s) =
  option_map (fun c => if Ascii.eqb c qmark then amp else c) (String.get i s).
Proof.
  revert i. induction s as [|a s IH]; intros [|i]; cbn [String.get amp_all option_map];
    try reflexivity.
  apply IH.
Qed.

Lemma get_normalize s i : String.get i (normalize s) = expected_char s i.
Proof.
  unfold expected_char. revert i.
  induction s as [|a s IH]; intros i; [destruct i; reflexivity|].
  cbn [normalize]. destruct (Ascii.eqb a qmark) eqn:E.
  - destruct i as [|i]; cbn [String.get take count].
    + rewrite E. reflexivity.
    + rewrite get_amp_all, E. destruct (String.get i s) as [c|]; cbn [option_map]; [|reflexivity].
      destruct (Ascii.eqb c qmark); reflexivity.
  - destruct i as [|i]; cbn [String.get take count].
    + rewrite E. reflexivity.
    + rewrite E, IH. reflexivity.
Qed.

(** C8.  [fix_esewa_callback_url] leaves the first '?' where it is and turns
    every later '?' into '&' (it computes [normalize], character by character
    [expected_char]); a URL with more than one '?' comes out with exactly one;
    a URL with none or one, [None] and non-string arguments come back
    unchanged; and applying the function twice is the same as applying it
    once. *)
Theorem fix_esewa_callback_url_normalizes (url : PyValue) :
  match url with
  | PyString s =>
      fix_esewa_callback_url url = PyString (normalize s)
      /\ (forall i, String.get i (fix_url_str s) = expected_char s i)
      /\ (1 < count qmark s -> count qmark (fix_url_str s) = 1)
      /\ (count qmark s <= 1 -> fix_url_str s = s)
  | _ => fix_esewa_callback_url url = url
  end
  /\ fix_esewa_callback_url (fix_esewa_callback_url url)
     = fix_esewa_callback_url url.
Proof.
  destruct url as [|s|z]; cbn [fix_esewa_callback_url]; try (split; reflexivity).
  rewrite !fix_url_str_normalize. repeat split.
  - intros i. apply get_normalize.
  - intros H. rewrite count_normalize. lia.
  - apply normalize_unchanged.
  - now rewrite normalize_idempotent.
Qed.

(** The theorem at the doubly malformed URL of the module's own test list and
    at an already correct one. *)
Lemma fix_esewa_callback_url_normalizes_witness :
  count qmark (fix_url_str "/v/?param1=val1?param2=val2?data=BASE64") = 1
  /\ fix_url_str "/v/?param=value" = "/v/?param=value".
Proof.
  split.
  - apply (proj1 (fix_esewa_callback_url_normalizes
             (PyString "/v/?param1=val1?param2=val2?data=BASE64"))).
    cbn. lia.
  - apply (proj1 (fix_esewa_callback_url_normalizes (PyString "/v/?param=value"))).
    cbn. lia.
Defined.

End UrlUtils.

(* ===================================================================== *)
(** * The library primitives behind [generate_signature]

    [hashlib.sha256] (FIPS 180-4), [hmac.new(...).digest()] (RFC 2104) and
    [base64.b64encode] (RFC 4648), written out so that signatures can be
    computed and compared with published test vectors.  Bytes are integers in
    [0, 256), words are integers in [0, 2^32). *)
(* ===================================================================== *)

Module Crypto.
Local Open Scope list_scope.
Local Open Scope Z_scope.

Definition bytes : Type := list Z.

(** [s.encode('utf-8')] under the convention that a [string] already holds
    UTF-8 bytes, and its inverse on byte lists. *)
Fixpoint bytes_of_string (s : string) : bytes :=
  match s with
  | EmptyString => []
  | String a s' => Z.of_N (N_of_ascii a) :: bytes_of_string s'
  end.

Fixpoint string_of_bytes (b : bytes) : string :=
  match b with
  | [] => EmptyString
  | x :: b' => String (ascii_of_N (Z.to_N x)) (string_of_bytes b')
  end.

Definition wrap32 (x : Z) : Z := Z.land x 0xFFFFFFFF.
Definition add32 (x y : Z) : Z := wrap32 (x + y).
Definition rotr (n x : Z) : Z :=
  Z.lor (Z.shiftr x n) (wrap32 (Z.shiftl x (32 - n))).
Definition not32 (x : Z) : Z := Z.lxor x 0xFFFFFFFF.

Definition Ch (x y z : Z) : Z := Z.lxor (Z.land x y) (Z.land (not32 x) z).
Definition Maj (x y z : Z) : Z :=
  Z.lxor (Z.lxor (Z.land x y) (Z.land x z)) (Z.land y z).
Definition bsig0 (x : Z) : Z := Z.lxor (Z.lxor (rotr 2 x) (rotr 13 x)) (rotr 22 x).
Definition bsig1 (x : Z) : Z := Z.lxor (Z.lxor (rotr 6 x) (rotr 11 x)) (rotr 25 x).
Definition ssig0 (x : Z) : Z := Z.lxor (Z.lxor (rotr 7 x) (rotr 18 x)) (Z.shiftr x 3).
Definition ssig1 (x : Z) : Z := Z.lxor (Z.lxor (rotr 17 x) (rotr 19 x)) (Z.shiftr x 10).

(** The constants are defined the way FIPS 180-4 introduces them: the
    first 32 bits of the fractional parts of the cube roots (round constants)
    and of the square roots (initial hash value) of the first primes. *)
Definition is_prime (n : Z) : bool :=
  (1 <? n) && forallb (fun d => negb (n mod d =? 0))
                      (map Z.of_nat (seq 2 (Z.to_nat n - 2))).

Definition primes_below (n : nat) : list Z :=
  filter is_prime (map Z.of_nat (seq 0 n)).

(** The largest [r] below [2 ^ bits] with [r ^ 3 <= n]. *)
Fixpoint cube_root (bits : nat) (n r : Z) : Z :=
  match bits with
  | O => r
  | S k =>
      let r' := r + 2 ^ Z.of_nat k in
      cube_root k n (if r' * r' * r' <=? n then r' else r)
  end.

Definition fraction_of_cube_root (p : Z) : Z :=
  wrap32 (cube_root 40 (p * 2 ^ 96) 0).

Definition fraction_of_square_root (p : Z) : Z :=
  wrap32 (Z.sqrt (p * 2 ^ 64)).

Definition round_constants : list Z :=
  Eval vm_compute in map fraction_of_cube_root (primes_below 312).

Definition initial_hash : list Z :=
  Eval vm_compute in map fraction_of_square_root (primes_below 20).

(** Big-endian encodings. *)
Fixpoint be_bytes (n : nat) (x : Z) : bytes :=
  match n with
  | O => []
  | S k => Z.land (Z.shiftr x (8 * Z.of_nat k)) 0xFF :: be_bytes k x
  end.

Definition be_word (b : bytes) : Z :=
  fold_left (fun acc x => Z.lor (Z.shiftl acc 8) x) b 0.

(** Padding: a 1 bit, zeros up to 56 mod 64 bytes, the bit List.length on 64 bits. *)
Definition pad (msg : bytes) : bytes :=
  let len := Z.of_nat (List.length msg) in
  let zeros := Z.to_nat ((55 - len) mod 64) in
  msg ++ 0x80 :: repeat 0 zeros ++ be_bytes 8 (8 * len).

(** Cut into pieces of [n] elements; [fuel] bounds the number of pieces. *)
Fixpoint chunks {A : Type} (fuel n : nat) (l : list A) : list (list A) :=
  match fuel, l with
  | O, _ => []
  | _, [] => []
  | S f, _ => firstn n l :: chunks f n (skipn n l)
  end.

Definition block_words (block : bytes) : list Z :=
  map be_word (chunks 16 4 block).

(** The message schedule: 48 more words from the 16 of the block. *)
Fixpoint extend (n : nat) (w : list Z) : list Z :=
  match n with
  | O => w
  | S k =>
      let i := List.length w in
      let at_ j := nth (i - j) w 0 in
      extend k (w ++ [add32 (add32 (ssig1 (at_ 2%nat)) (at_ 7%nat))
                            (add32 (ssig0 (at_ 15%nat)) (at_ 16%nat))])
  end.

Record working : Type := Working {
  wa : Z; wb : Z; wc : Z; wd : Z; we : Z; wf : Z; wg : Z; wh : Z }.

Definition round (v : working) (kw : Z * Z) : working :=
  let t1 := add32 (add32 (add32 (wh v) (bsig1 (we v)))
                         (add32 (Ch (we v) (wf v) (wg v)) (fst kw))) (snd kw) in
  let t2 := add32 (bsig0 (wa v)) (Maj (wa v) (wb v) (wc v)) in
  Working (add32 t1 t2) (wa v) (wb v) (wc v) (add32 (wd v) t1) (we v) (wf v) (wg v).

Definition working_of (h : list Z) : working :=
  Working (nth 0 h 0) (nth 1 h 0) (nth 2 h 0) (nth 3 h 0)
          (nth 4 h 0) (nth 5 h 0) (nth 6 h 0) (nth 7 h 0).

Definition compress (h : list Z) (block : bytes) : list Z :=
  let w := extend 48 (block_words block) in
  let v := fold_left round (combine round_constants w) (working_of h) in
  map (fun p => add32 (fst p) (snd p))
      (combine h [wa v; wb v; wc v; wd v; we v; wf v; wg v; wh v]).

(** [hashlib.sha256(msg).digest()]. *)
Definition sha256 (msg : bytes) : bytes :=
  let padded := pad msg in
  let blocks := chunks (List.length padded) 64 padded in
  flat_map (be_bytes 4) (fold_left compress blocks initial_hash).

(** [hmac.new(key, msg, hashlib.sha256).digest()]. *)
Definition hmac_sha256 (key msg : bytes) : bytes :=
  let k := if (64 <? Z.of_nat (List.length key)) then sha256 key else key in
  let k := k ++ repeat 0 (64 - List.length k)%nat in
  let ipad := map (Z.lxor 0x36) k in
  let opad := map (Z.lxor 0x5c) k in
  sha256 (opad ++ sha256 (ipad ++ msg)).

Definition b64_alphabet : string :=
  "ABCDEFGHIJKLMNOPQRSTUVWXYZabcdefghijklmnopqrstuvwxyz0123456789+/".

Definition b64_char (i : Z) : ascii :=
  match String.get (Z.to_nat i) b64_alphabet with
  | Some c => c
  | None => "="%char
  end.

(** [base64.b64encode(b).decode('utf-8')]. *)
Fixpoint b64encode (b : bytes) : string :=
  match b with
  | [] => EmptyString
  | [x] =>
      String (b64_char (Z.shiftr x 2))
        (String (b64_char (Z.shiftl (Z.land x 3) 4)) "==")
  | [x; y] =>
      String (b64_char (Z.shiftr x 2))
        (String (b64_char (Z.lor (Z.shiftl (Z.land x 3) 4) (Z.shiftr y 4)))
           (String (b64_char (Z.shiftl (Z.land y 15) 2)) "="))
  | x :: y :: z :: rest =>
      String (b64_char (Z.shiftr x 2))
        (String (b64_char (Z.lor (Z.shiftl (Z.land x 3) 4) (Z.shiftr y 4)))
           (String (b64_char (Z.lor (Z.shiftl (Z.land y 15) 2) (Z.shiftr z 6)))
              (String (b64_char (Z.land z 63)) (b64encode rest))))
  end.

Fixpoint index_of (a : ascii) (s : string) : option Z :=
  match s with
  | EmptyString => None
  | String b s' =>
      if Ascii.eqb a b then Some 0
      else option_map Z.succ (index_of a s')
  end.

Definition b64_value (a : ascii) : option Z := index_of a b64_alphabet.

(** Base64 decoding of a canonical encoding (groups of four characters of
    the alphabet, '=' padding in the last group only); [None] elsewhere.
    [base64.b64decode] returns the same bytes on such inputs. *)
Fixpoint b64decode_strict (s : string) : option bytes :=
  match s with
  | EmptyString => Some []
  | String a (String b (String c (String d rest))) =>
      match b64_value a, b64_value b with
      | Some x, Some y =>
          let b1 := Z.lor (Z.shiftl x 2) (Z.shiftr y 4) in
          if Ascii.eqb c "=" then
            if Ascii.eqb d "=" && PyStr.falsy rest then Some [b1] else None
          else
            match b64_value c with
            | Some z =>
                let b2 := Z.lor (Z.shiftl (Z.land y 15) 4) (Z.shiftr z 2) in
                if Ascii.eqb d "=" then
                  if PyStr.falsy rest then Some [b1; b2] else None
                else
                  match b64_value d with
                  | Some w =>
                      let b3 := Z.lor (Z.shiftl (Z.land z 3) 6) w in
                      option_map (fun t => b1 :: b2 :: b3 :: t)
                                 (b64decode_strict rest)
                  | None => None
                  end
            | None => None
            end
      | _, _ => None
      end
  | _ => None
  end.

Definition hex_digit (i : Z) : ascii :=
  match String.get (Z.to_nat i) "0123456789abcdef" with
  | Some c => c
  | None => "?"%char
  end.

(** [bytes.hex()], for reading digests. *)
Fixpoint hex (b : bytes) : string :=
  match b with
  | [] => EmptyString
  | x :: b' => String (hex_digit (Z.shiftr x 4)) (String (hex_digit (Z.land x 15)) (hex b'))
  end.

(** The first and last constants, as FIPS 180-4 prints them. *)
Example constants_ends :
  List.length round_constants = 64%nat /\ List.length initial_hash = 8%nat
  /\ hd 0 round_constants = 0x428a2f98 /\ last round_constants 0 = 0xc67178f2
  /\ hd 0 initial_hash = 0x6a09e667 /\ last initial_hash 0 = 0x5be0cd19.
Proof. vm_compute. repeat split. Qed.

(** FIPS 180-4 and RFC 4231 / RFC 4648 test vectors. *)
Example sha256_abc :
  hex (sha256 (bytes_of_string "abc"))
  = "ba7816bf8f01cfea414140de5dae2223b00361a396177a9cb410ff61f20015ad".
Proof. vm_compute. reflexivity. Qed.

Example sha256_two_blocks :
  hex (sha256 (bytes_of_string
         "abcdbcdecdefdefgefghfghighijhijkijkljklmklmnlmnomnopnopq"))
  = "248d6a61d20638b8e5c026930c3e6039a33ce45964ff2167f6ecedd419db06c1".
Proof. vm_compute. reflexivity. Qed.

Example hmac_rfc4231_case2 :
  hex (hmac_sha256 (bytes_of_string "Jefe")
         (bytes_of_string "what do ya want for nothing?"))
  = "5bdcc146bf60754e6a042426089575c75a003f089d2739839dec58b964ec3843".
Proof. vm_compute. reflexivity. Qed.

Example b64_rfc4648 :
  b64encode (bytes_of_string "foobar") = "Zm9vYmFy"
  /\ b64encode (bytes_of_string "fooba") = "Zm9vYmE="
  /\ b64encode (bytes_of_string "foob") = "Zm9vYg==".
Proof. vm_compute. repeat split. Qed.

Example b64decode_rfc4648 :
  option_map string_of_bytes (b64decode_strict "Zm9vYmE=") = Some "fooba"
  /\ option_map string_of_bytes (b64decode_strict "Zm9vYmFy") = Some "foobar"
  /\ b64decode_strict "Zm9" = None.
Proof. vm_compute. repeat split. Qed.

End Crypto.

(* ===================================================================== *)
(** * [esewa_utils.py]: the payment gateway client *)
(* ===================================================================== *)

Module EsewaUtils.
Import PyStr.

(** The state of an [EsewaPayment] object: what [__init__] reads from the
    settings. *)
Record EsewaPayment : Type := {
  merchant_id : string;
  secret_key : string }.

(** The defaults [__init__] falls back to. *)
Definition default_esewa : EsewaPayment :=
  {| merchant_id := "EPAYTEST"; secret_key := "8gBm/:&EnhH.1/q" |}.

(** [generate_signature(self, message)]. *)
Definition generate_signature (self : EsewaPayment) (message : string) : string :=
  let secret := Crypto.bytes_of_string (secret_key self) in
  let message := Crypto.bytes_of_string message in
  let signature := Crypto.hmac_sha256 secret message in
  let signature_b64 := Crypto.b64encode signature in
  signature_b64.

(** The exceptions [create_payment_request] raises. *)
Inductive Error : Type :=
| ConversionError                          (* [int(float(x))] raised *)
| InvalidSuccessUrl (got : string)         (* ValueError *)
| InvalidFailureUrl (got : string)         (* ValueError *)
| MissingRequiredFields (l : list string)  (* ValueError *)
| EmptyRequiredFields (l : list string)    (* ValueError *)
| InvalidTotalAmount (expected : Z) (got : string). (* ValueError *)

Inductive Result (A : Type) : Type :=
| Return (a : A)
| Raise (e : Error).
Arguments Return {A} a.
Arguments Raise {A} e.

Definition bind {A B : Type} (r : Result A) (k : A -> Result B) : Result B :=
  match r with
  | Return a => k a
  | Raise e => Raise e
  end.

Notation "x <- r ;; k" := (bind r (fun x => k))
  (at level 61, r at next level, right associativity).

(** A conversion that may raise. *)
Definition converted {A : Type} (o : option A) : Result A :=
  match o with
  | Some a => Return a
  | None => Raise ConversionError
  end.

Definition required_fields : list string :=
  [ "amount"; "tax_amount"; "total_amount"; "transaction_uuid";
    "product_code"; "product_service_charge"; "product_delivery_charge";
    "success_url"; "failure_url"; "signature"; "signed_field_names" ].

Definition signed_field_names : string :=
  "total_amount,transaction_uuid,product_code".

(** The canonical message of a payment request, as the specification
    words it. *)
Definition canonical_message (total_amount transaction_uuid product_code : string)
  : string :=
  "total_amount=" ++ total_amount ++ ",transaction_uuid=" ++ transaction_uuid
    ++ ",product_code=" ++ product_code.

(** [int(total_amount) == int(amount) + int(tax_amount)
     + int(product_service_charge) + int(product_delivery_charge)] on the
    fields of a request, with the three charges being "0". *)
Definition total_identity (pd : dict string) : bool :=
  match lookup "amount" pd, lookup "tax_amount" pd,
        lookup "product_service_charge" pd,
        lookup "product_delivery_charge" pd, lookup "total_amount" pd with
  | Some amount, Some tax, Some service, Some delivery, Some total =>
      match int_of_str amount, int_of_str tax, int_of_str service,
            int_of_str delivery, int_of_str total with
      | Some a, Some t, Some sc, Some dc, Some tot =>
          Z.eqb tot (a + t + sc + dc)
          && String.eqb tax "0" && String.eqb service "0"
          && String.eqb delivery "0"
      | _, _, _, _, _ => false
      end
  | _, _, _, _, _ => false
  end.

Section Builder.

(** The numeric arguments are whatever the callers pass ([int], [Decimal]);
    [int_float x] is the value of [int(float(x))], [None] when that raises. *)
Variable Number : Type.
Variable int_float : Number -> option Z.

(** [create_payment_request(self, amount, product_code, total_amount,
    success_url, failure_url, transaction_uuid=None)].  [uuid4] is the
    string [str(uuid.uuid4())] would produce at this call. *)
Definition create_payment_request (self : EsewaPayment) (uuid4 : string)
    (amount : Number) (product_code : string) (total_amount : Number)
    (success_url failure_url : string) (transaction_uuid : option string)
  : Result (dict string) :=
  let transaction_uuid :=
    match transaction_uuid with None => uuid4 | Some u => u end in
  amount_int <- converted (int_float amount) ;;
  total_amount_int <- converted (int_float total_amount) ;;
  let tax_amount := "0" in
  let product_service_charge := "0" in
  let product_delivery_charge := "0" in
  tax <- converted (int_of_str tax_amount) ;;
  service <- converted (int_of_str product_service_charge) ;;
  delivery <- converted (int_of_str product_delivery_charge) ;;
  let calculated_total := (amount_int + tax + service + delivery)%Z in
  let total_amount_int :=
    if negb (Z.eqb calculated_total total_amount_int)
    then calculated_total          (* "Fix the total to match calculation" *)
    else total_amount_int in
  let amount_str := str_of_int amount_int in
  let total_amount_str := str_of_int total_amount_int in
  let actual_product_code := merchant_id self in
  let signature_message :=
    "total_amount=" ++ total_amount_str ++ ",transaction_uuid="
      ++ transaction_uuid ++ ",product_code=" ++ actual_product_code in
  let signature := generate_signature self signature_message in
  if falsy success_url || negb (startswith "http" success_url)
  then Raise (InvalidSuccessUrl success_url)
  else if falsy failure_url || negb (startswith "http" failure_url)
  then Raise (InvalidFailureUrl failure_url)
  else
  let payment_data : dict string :=
    [ ("amount", amount_str);
      ("tax_amount", tax_amount);
      ("total_amount", total_amount_str);
      ("transaction_uuid", transaction_uuid);
      ("product_code", actual_product_code);
      ("product_service_charge", product_service_charge);
      ("product_delivery_charge", product_delivery_charge);
      ("success_url", success_url);
      ("failure_url", failure_url);
      ("signed_field_names", signed_field_names);
      ("signature", signature) ] in
  let missing_fields :=
    filter (fun field =>
              match lookup field payment_data with None => true | Some _ => false end)
           required_fields in
  let empty_fields :=
    filter (fun field =>
              match lookup field payment_data with
              | None => false
              | Some v => blank v
              end)
           required_fields in
  if negb (Nat.eqb (List.length missing_fields) 0)
  then Raise (MissingRequiredFields missing_fields)
  else if negb (Nat.eqb (List.length empty_fields) 0)
  then Raise (EmptyRequiredFields empty_fields)
  else
  a <- converted (int_of_str amount_str) ;;
  t <- converted (int_of_str tax_amount) ;;
  sc <- converted (int_of_str product_service_charge) ;;
  dc <- converted (int_of_str product_delivery_charge) ;;
  let total_check := (a + t + sc + dc)%Z in
  total <- converted (int_of_str total_amount_str) ;;
  if negb (Z.eqb total_check total)
  then Raise (InvalidTotalAmount total_check total_amount_str)
  else Return payment_data.

End Builder.

Section Decoder.

(** [base64.b64decode(x).decode('utf-8')]: the decoded text, or the text of
    the exception either step raised. *)
Variable b64decode_utf8 : string -> string + string.

(** [decode_payment_response(self, encoded_response)]. *)
Definition decode_payment_response (encoded_response : string) : dict string :=
  match b64decode_utf8 encoded_response with
  | inr decoded_str =>
      fold_left
        (fun params param =>
           if contains "=" param then
             match split_once "=" param with
             | (key, Some value) => set key value params
             | (_, None) => params
             end
           else params)
        (split_on "&" decoded_str) []
  | inl e =>
      [("error", e); ("message", "Failed to decode eSewa response")]
  end.

End Decoder.

(** The decoder on canonical base64 text. *)
Definition b64decode_utf8_strict (x : string) : string + string :=
  match Crypto.b64decode_strict x with
  | Some b => inr (Crypto.string_of_bytes b)
  | None => inl "Incorrect padding"
  end.

(** The dictionary the builder returns when it returns. *)
Definition built_request (self : EsewaPayment) (transaction_uuid : string)
    (amount_int : Z) (success_url failure_url : string) : dict string :=
  let total := str_of_int amount_int in
  [ ("amount", str_of_int amount_int);
    ("tax_amount", "0");
    ("total_amount", total);
    ("transaction_uuid", transaction_uuid);
    ("product_code", merchant_id self);
    ("product_service_charge", "0");
    ("product_delivery_charge", "0");
    ("success_url", success_url);
    ("failure_url", failure_url);
    ("signed_field_names", signed_field_names);
    ("signature",
     generate_signature self
       ("total_amount=" ++ total ++ ",transaction_uuid=" ++ transaction_uuid
          ++ ",product_code=" ++ merchant_id self)) ].

(** The builder as [NestedBookingWithEsewaSerializer] calls it: with [int]
    amounts, which [int(float(.))] returns as they are (below 2^53). *)
Definition create_payment_request_int :=
  create_payment_request Z (fun z => Some z).


(** A call with amount 100 and total 150 (the sum would be 100). *)
Definition mismatched_call : Result (dict string) :=
  create_payment_request_int default_esewa "7d2c1a39-0f5e-4c8b-9a61-3e5f0b7c2d14"
    100%Z "BK80AEBE1D39" 150%Z
    "http://localhost:8000/api/esewa/v2/success/?package_id=8"
    "http://localhost:8000/api/esewa/v2/failure/" (Some "241028").

(** ** Facts about the gateway client *)

(** The gateway's documented example signature for the test key. *)
Example generate_signature_documented :
  generate_signature default_esewa
    "total_amount=110,transaction_uuid=241028,product_code=EPAYTEST"
  = "i94zsd3oXF6ZsSr/kGqT4sSzYQzjj1W/waxjWyRwaME=".
Proof. vm_compute. reflexivity. Qed.

Example decode_payment_response_example :
  decode_payment_response b64decode_utf8_strict
    "dHJhbnNhY3Rpb25fY29kZT0wMDA3WU1NJnN0YXR1cz1DT01QTEVURQ=="
  = [("transaction_code", "0007YMM"); ("status", "COMPLETE")].
Proof. vm_compute. reflexivity. Qed.

Lemma fixed_total (a t : Z) :
  (if negb (Z.eqb (a + 0 + 0 + 0) t) then (a + 0 + 0 + 0)%Z else t) = a.
Proof.
  destruct (Z.eqb_spec (a + 0 + 0 + 0) t); cbn [negb]; lia.
Qed.

Lemma bind_return {A B : Type} (r : Result A) (k : A -> Result B) (b : B) :
  bind r k = Return b -> exists a, r = Return a /\ k a = Return b.
Proof.
  destruct r as [a|e]; cbn [bind]; [eauto | discriminate].
Qed.

Lemma converted_return {A : Type} (o : option A) (a : A) :
  converted o = Return a -> o = Some a.
Proof.
  destruct o; cbn [converted]; [now intros [= ->] | discriminate].
Qed.

Lemma bind_Return {A B : Type} (a : A) (k : A -> Result B) :
  bind (Return a) k = k a.
Proof. reflexivity. Qed.

Lemma converted_Some {A : Type} (a : A) : converted (Some a) = Return a.
Proof. reflexivity. Qed.

Lemma int_of_str_zero : int_of_str "0" = Some 0%Z.
Proof. reflexivity. Qed.

Lemma bind_Raise {A B : Type} (e : Error) (k : A -> Result B) :
  bind (Raise e) k = Raise e.
Proof. reflexivity. Qed.

Lemma converted_None {A : Type} : converted (@None A) = Raise ConversionError.
Proof. reflexivity. Qed.

(** Rewriting with the equations of the error monad, one step at a time. *)
Ltac step_result :=
  repeat (rewrite ?int_of_str_zero, ?converted_Some, ?converted_None,
            ?bind_Return, ?bind_Raise; cbv beta).

Ltac step_result_in H :=
  repeat (rewrite ?int_of_str_zero, ?converted_Some, ?converted_None,
            ?bind_Return, ?bind_Raise in H; cbv beta in H).

Section BuilderFacts.

Variable Number : Type.
Variable int_float : Number -> option Z.

(** Whatever the provided total, the builder continues with the calculated
    one: its outcome is that of the same call with any other total that
    converts. *)
Lemma create_payment_request_total_irrelevant self uuid4 amount pc1 pc2
    total1 total2 s f tu t1 t2 :
  int_float total1 = Some t1 -> int_float total2 = Some t2 ->
  create_payment_request Number int_float self uuid4 amount pc1 total1 s f tu
  = create_payment_request Number int_float self uuid4 amount pc2 total2 s f tu.
Proof.
  intros H1 H2. unfold create_payment_request. rewrite H1, H2.
  destruct (int_float amount) as [a|]; step_result; [|reflexivity].
  cbv zeta. rewrite !fixed_total. reflexivity.
Qed.

Lemma create_payment_request_returns self uuid4 amount pc total s f tu pd :
  create_payment_request Number int_float self uuid4 amount pc total s f tu = Return pd ->
  exists a,
    int_float amount = Some a /\
    pd = built_request self (match tu with None => uuid4 | Some u => u end) a s f.
Proof.
  unfold create_payment_request. intros H.
  destruct (int_float amount) as [a|]; step_result_in H; [|discriminate].
  destruct (int_float total) as [t|]; step_result_in H; [|discriminate].
  cbv zeta in H. rewrite !fixed_total in H.
  exists a. split; [reflexivity|].
  repeat match type of H with
         | (if ?c then _ else _) = _ => destruct c; [discriminate|]
         end.
  rewrite int_of_str_of_int in H. step_result_in H.
  match type of H with
  | (if ?c then _ else _) = _ => destruct c; [discriminate|]
  end.
  now injection H as <-.
Qed.

Lemma total_identity_built self u a s f :
  total_identity (built_request self u a s f) = true.
Proof.
  unfold total_identity, built_request. cbn [lookup String.eqb Ascii.eqb Bool.eqb].
  rewrite int_of_str_of_int, int_of_str_zero.
  replace (a + 0 + 0 + 0)%Z with a by lia.
  now rewrite Z.eqb_refl.
Qed.

(** C5, as the code has it.  A provided [total_amount] that differs from
    amount + tax + service charge + delivery charge is not an error: the
    builder replaces it by the calculated sum and goes on, so the outcome of
    the call is the outcome of the same call with a matching total; and every
    request that is returned satisfies the arithmetic identity, its
    [total_amount] being the (truncated) amount. *)
Theorem create_payment_request_total_recovered self uuid4 amount pc total s f tu a t :
  int_float amount = Some a -> int_float total = Some t ->
  create_payment_request Number int_float self uuid4 amount pc total s f tu
  = create_payment_request Number int_float self uuid4 amount pc amount s f tu
  /\ forall pd,
       create_payment_request Number int_float self uuid4 amount pc total s f tu = Return pd ->
       lookup "total_amount" pd = Some (str_of_int a)
       /\ total_identity pd = true.
Proof.
  intros Ha Ht. split.
  - now apply (create_payment_request_total_irrelevant _ _ _ _ _ _ _ _ _ _ t a).
  - intros pd H. apply create_payment_request_returns in H as (a' & Ha' & ->).
    rewrite Ha in Ha'. injection Ha' as <-.
    split; [reflexivity | apply total_identity_built].
Qed.

(** C9.  [generate_signature] is the base64 encoding of the HMAC-SHA256 of
    the message under the configured secret key, and the signature of every
    returned payment request is that of the canonical message
    total_amount=<T>,transaction_uuid=<U>,product_code=<P>, in this order,
    built from the request's own fields; the request declares the same order
    in [signed_field_names]. *)
Theorem generate_signature_canonical self :
  (forall message,
     generate_signature self message
     = Crypto.b64encode
         (Crypto.hmac_sha256 (Crypto.bytes_of_string (secret_key self))
                             (Crypto.bytes_of_string message)))
  /\ forall uuid4 amount pc total s f tu pd,
       create_payment_request Number int_float self uuid4 amount pc total s f tu = Return pd ->
       exists T U P,
         lookup "total_amount" pd = Some T
         /\ lookup "transaction_uuid" pd = Some U
         /\ lookup "product_code" pd = Some P
         /\ lookup "signature" pd
            = Some (generate_signature self (canonical_message T U P))
         /\ lookup "signed_field_names" pd
            = Some "total_amount,transaction_uuid,product_code".
Proof.
  split; [reflexivity|].
  intros uuid4 amount pc total s f tu pd H.
  apply create_payment_request_returns in H as (a & _ & ->).
  eexists _, _, _. repeat split.
Qed.

(** C10.  The [product_code] argument plays no part: two calls that differ
    in it only have the same outcome, and the [product_code] of a returned
    request is the configured merchant id. *)
Theorem create_payment_request_ignores_product_code
    self uuid4 amount pc1 pc2 total s f tu :
  create_payment_request Number int_float self uuid4 amount pc1 total s f tu
  = create_payment_request Number int_float self uuid4 amount pc2 total s f tu
  /\ forall pd,
       create_payment_request Number int_float self uuid4 amount pc1 total s f tu = Return pd ->
       lookup "product_code" pd = Some (merchant_id self).
Proof.
  split; [reflexivity|].
  intros pd H. now apply create_payment_request_returns in H as (a & _ & ->).
Qed.

End BuilderFacts.

(** C5 as stated fails: with a total that does not match, the builder does
    not fail but returns a request (with the total replaced). *)
Lemma create_payment_request_mismatch_not_fatal :
  150%Z <> (100 + 0 + 0 + 0)%Z
  /\ exists pd, mismatched_call = Return pd
                /\ lookup "total_amount" pd = Some "100".
Proof.
  split; [lia|].
  eexists. split; [vm_compute; reflexivity | reflexivity].
Qed.

Lemma create_payment_request_total_recovered_witness :
  create_payment_request Z (fun z => Some z) default_esewa "unused"
    100%Z "BK80AEBE1D39" 150%Z "http://s/?a=1" "http://f/" (Some "241028")
  = create_payment_request Z (fun z => Some z) default_esewa "unused"
      100%Z "BK80AEBE1D39" 100%Z "http://s/?a=1" "http://f/" (Some "241028")
  /\ forall pd,
       create_payment_request Z (fun z => Some z) default_esewa "unused"
         100%Z "BK80AEBE1D39" 150%Z "http://s/?a=1" "http://f/" (Some "241028")
       = Return pd ->
       lookup "total_amount" pd = Some (str_of_int 100)
       /\ total_identity pd = true.
Proof.
  exact (create_payment_request_total_recovered Z (fun z => Some z)
           default_esewa "unused" 100%Z "BK80AEBE1D39" 150%Z
           "http://s/?a=1" "http://f/" (Some "241028") 100%Z 150%Z
           eq_refl eq_refl).
Defined.

Lemma generate_signature_canonical_witness :
  exists T U P,
    lookup "total_amount" (built_request default_esewa "241028" 110 "http://s/?a=1" "http://f/") = Some T
    /\ lookup "transaction_uuid" (built_request default_esewa "241028" 110 "http://s/?a=1" "http://f/") = Some U
    /\ lookup "product_code" (built_request default_esewa "241028" 110 "http://s/?a=1" "http://f/") = Some P
    /\ lookup "signature" (built_request default_esewa "241028" 110 "http://s/?a=1" "http://f/")
       = Some (generate_signature default_esewa (canonical_message T U P))
    /\ lookup "signed_field_names" (built_request default_esewa "241028" 110 "http://s/?a=1" "http://f/")
       = Some "total_amount,transaction_uuid,product_code".
Proof.
  apply (proj2 (generate_signature_canonical Z (fun z => Some z) default_esewa)
           "unused" 110%Z "BK80AEBE1D39" 110%Z "http://s/?a=1" "http://f/"
           (Some "241028")).
  vm_compute. reflexivity.
Defined.

Lemma create_payment_request_ignores_product_code_witness :
  lookup "product_code"
         (built_request default_esewa "241028" 110 "http://s/?a=1" "http://f/")
  = Some "EPAYTEST".
Proof.
  apply (proj2 (create_payment_request_ignores_product_code Z (fun z => Some z)
                  default_esewa "unused" 110%Z "BK80AEBE1D39" "OTHER" 110%Z
                  "http://s/?a=1" "http://f/" (Some "241028"))).
  vm_compute. reflexivity.
Defined.

End EsewaUtils.

(* ===================================================================== *)
(** * [urllib.parse]: the query-string functions the workflow calls

    [urlencode(params, safe='')] on the sending side, [urlparse(url).query]
    and [parse_qs(query, keep_blank_values=True)] on the receiving side, on
    strings of UTF-8 bytes (percent-decoding gives back the bytes). *)
(* ===================================================================== *)

Module UrlLib.
Import PyStr.

Definition between (lo hi : nat) (a : ascii) : bool :=
  Nat.leb lo (nat_of_ascii a) && Nat.leb (nat_of_ascii a) hi.

(** The characters [quote] never escapes: letters, digits and "_.-~". *)
Definition always_safe (a : ascii) : bool :=
  between 65 90 a || between 97 122 a || between 48 57 a
  || Ascii.eqb a "_" || Ascii.eqb a "." || Ascii.eqb a "-" || Ascii.eqb a "~".

Definition hex_upper (n : nat) : ascii :=
  match String.get n "0123456789ABCDEF" with
  | Some c => c
  | None => "0"%char
  end.

Definition hex_value (a : ascii) : option nat :=
  if between 48 57 a then Some (nat_of_ascii a - 48)
  else if between 65 70 a then Some (nat_of_ascii a - 55)
  else if between 97 102 a then Some (nat_of_ascii a - 87)
  else None.

Definition quote_char (a : ascii) : string :=
  if always_safe a then String a EmptyString
  else if Ascii.eqb a " " then "+"
  else String "%" (String (hex_upper (nat_of_ascii a / 16))
                     (String (hex_upper (nat_of_ascii a mod 16)) EmptyString)).

(** [quote_plus(s, safe='')]. *)
Fixpoint quote_plus (s : string) : string :=
  match s with
  | EmptyString => EmptyString
  | String a s' => quote_char a ++ quote_plus s'
  end.

(** [unquote_plus(s)]: '+' is a space, [%XX] is the byte, a '%' that is not
    followed by two hexadecimal digits stays.  The bytes are returned as they
    are escaped, which is what urllib returns when they are UTF-8, as the
    bytes [quote_plus] escapes are; where they are not, urllib puts U+FFFD in
    their place, and such escapes are outside this model. *)
Fixpoint unquote_plus (s : string) : string :=
  match s with
  | EmptyString => EmptyString
  | String a s1 =>
      if Ascii.eqb a "%" then
        match s1 with
        | String h (String l s3) =>
            match hex_value h, hex_value l with
            | Some x, Some y => String (ascii_of_nat (16 * x + y)) (unquote_plus s3)
            | _, _ => String a (unquote_plus s1)
            end
        | _ => String a (unquote_plus s1)
        end
      else String (if Ascii.eqb a "+" then " "%char else a) (unquote_plus s1)
  end.

(** [urlencode(params, safe='')] for a [dict] of strings. *)
Definition urlencode (params : dict string) : string :=
  join "&" (map (fun kv => quote_plus (fst kv) ++ "=" ++ quote_plus (snd kv)) params).

(** [parse_qsl(qs, keep_blank_values=True)]. *)
Definition parse_qsl (qs : string) : list (string * string) :=
  if falsy qs then []
  else
    flat_map
      (fun name_value =>
         if falsy name_value then []
         else
           let (name, value) := split_once "=" name_value in
           [(unquote_plus name,
             unquote_plus (match value with Some v => v | None => EmptyString end))])
      (split_on "&" qs).

(** [parsed_result[name].append(value)] or [parsed_result[name] = [value]]. *)
Fixpoint add_value (name value : string) (d : dict (list string))
  : dict (list string) :=
  match d with
  | [] => [(name, [value])]
  | (k, l) :: d' =>
      if String.eqb name k then (k, (l ++ [value])%list) :: d'
      else (k, l) :: add_value name value d'
  end.

(** [parse_qs(qs, keep_blank_values=True)]. *)
Definition parse_qs (qs : string) : dict (list string) :=
  fold_left (fun d nv => add_value (fst nv) (snd nv) d) (parse_qsl qs) [].

(** [urlparse(url).query]: what follows the first '?' of the part of the URL
    that precedes the first '#'. *)
Definition url_query (url : string) : string :=
  let (before_fragment, _) := split_once "#" url in
  match split_once "?" before_fragment with
  | (_, Some query) => query
  | (_, None) => EmptyString
  end.

(** One encoded pair, as a piece of a query string. *)
Definition encoded_pair (kv : string * string) : string :=
  quote_plus (fst kv) ++ "=" ++ quote_plus (snd kv).

Example urlencode_example :
  urlencode [("booking_reference", "BK80AEBE1D39"); ("package_id", "8");
             ("traveler_name", "Ayush shahi");
             ("traveler_email", "ayush.shahi.147@gmail.com")]
  = "booking_reference=BK80AEBE1D39&package_id=8&traveler_name=Ayush+shahi&traveler_email=ayush.shahi.147%40gmail.com".
Proof. reflexivity. Qed.

Example parse_qs_example :
  parse_qs "package_id=8&traveler_name=Ayush+shahi&traveler_email=a%40b.c&x=1&x=2&blank="
  = [("package_id", ["8"]); ("traveler_name", ["Ayush shahi"]);
     ("traveler_email", ["a@b.c"]); ("x", ["1"; "2"]); ("blank", [""])].
Proof. reflexivity. Qed.

Example parse_qs_odd_pieces :
  parse_qs "a=1&a=2&b=&c&&d=x=y%zz+%41"
  = [("a", ["1"; "2"]); ("b", [""]); ("c", [""]); ("d", ["x=y%zz A"])].
Proof. reflexivity. Qed.

Example url_query_example : url_query "http://h/p?x=1?y=2#f?z" = "x=1?y=2".
Proof. reflexivity. Qed.

(** ** Decoding undoes encoding *)

Lemma unquote_quote_char a rest :
  unquote_plus (quote_char a ++ rest) = String a (unquote_plus rest).
Proof.
  destruct a as [[] [] [] [] [] [] [] []]; reflexivity.
Qed.

Lemma unquote_quote_plus s : unquote_plus (quote_plus s) = s.
Proof.
  induction s as [|a s IH]; [reflexivity|].
  cbn [quote_plus]. now rewrite unquote_quote_char, IH.
Qed.

Lemma count_quote_char c a rest :
  c = "&"%char \/ c = "="%char ->
  count c (quote_char a ++ rest) = count c rest.
Proof.
  intros [-> | ->]; destruct a as [[] [] [] [] [] [] [] []]; reflexivity.
Qed.

Lemma count_quote_plus c s :
  c = "&"%char \/ c = "="%char -> count c (quote_plus s) = 0.
Proof.
  intros Hc. induction s as [|a s IH]; [reflexivity|].
  cbn [quote_plus]. now rewrite count_quote_char.
Qed.

Lemma encoded_pair_no_amp kv : count "&" (encoded_pair kv) = 0.
Proof.
  unfold encoded_pair. rewrite !count_app, !count_quote_plus by auto. reflexivity.
Qed.

Lemma encoded_pair_truthy kv : falsy (encoded_pair kv) = false.
Proof.
  unfold encoded_pair. destruct (quote_plus (fst kv)); reflexivity.
Qed.

Lemma split_once_encoded_pair kv :
  split_once "=" (encoded_pair kv) = (quote_plus (fst kv), Some (quote_plus (snd kv))).
Proof.
  unfold encoded_pair. apply split_once_first. apply count_quote_plus. auto.
Qed.

Lemma split_on_urlencode params :
  params <> [] -> split_on "&" (urlencode params) = map encoded_pair params.
Proof.
  unfold urlencode. fold encoded_pair.
  induction params as [|kv params IH]; [congruence|]. intros _.
  destruct params as [|kv' params].
  - cbn [map join]. apply split_on_none, encoded_pair_no_amp.
  - change (join "&" (map encoded_pair (kv :: kv' :: params)))
      with (encoded_pair kv ++ String "&" (join "&" (map encoded_pair (kv' :: params)))).
    rewrite split_on_first by apply encoded_pair_no_amp.
    rewrite IH by discriminate. reflexivity.
Qed.

(** Parsing an encoded dictionary gives back its items, in order. *)
Lemma parse_qsl_urlencode params : parse_qsl (urlencode params) = params.
Proof.
  destruct params as [|kv0 params0] eqn:E; [reflexivity|]. rewrite <- E.
  assert (Hne : params <> []) by (rewrite E; discriminate). clear E.
  unfold parse_qsl. rewrite (split_on_urlencode _ Hne).
  replace (falsy (urlencode params)) with false.
  2:{ destruct params as [|kv [|kv' ps]]; [congruence| |].
      - unfold urlencode. cbn [map join]. symmetry. apply encoded_pair_truthy.
      - unfold urlencode. cbn [map join]. fold (encoded_pair kv).
        destruct (encoded_pair kv) eqn:Ep; [|reflexivity].
        pose proof (encoded_pair_truthy kv) as F. rewrite Ep in F. discriminate. }
  clear Hne. induction params as [|[k v] params IH]; [reflexivity|].
  cbn [map flat_map]. rewrite encoded_pair_truthy, split_once_encoded_pair.
  cbn [fst snd]. rewrite !unquote_quote_plus, IH. reflexivity.
Qed.

End UrlLib.

(* ===================================================================== *)
(** * [models.py]: the persistent store *)
(* ===================================================================== *)

Module Models.
Import PyStr.
Local Open Scope Z_scope.

Record Traveler : Type := mkTraveler {
  traveler_id : Z;
  name : string;
  email : string;
  phone_number : string;
  address : string }.

(** The columns of [Package] the workflow reads. *)
Record Package : Type := mkPackage {
  id : Z;
  package_id : string;
  title : string;
  price : Z;
  duration : Z }.

Record Ticket : Type := mkTicket {
  ticket_id : Z;
  ticket_package : Z;     (* foreign key: Package.id *)
  ticket_traveler : Z }.  (* foreign key: Traveler.traveler_id *)

(** A value of a JSON object as far as the workflow looks at it. *)
Inductive JsonValue : Type :=
| JString (s : string)
| JNumber (z : Z)
| JBool (b : bool)
| JNull
| JCompound.

(** What [esewa_raw_response] serializes. *)
Record RawResponse : Type := mkRawResponse {
  raw_decoded_data : dict string;
  raw_verification_response : dict JsonValue;
  raw_query_params : dict (list string) }.

Record Payment : Type := mkPayment {
  payment_id : Z;
  amount : string;
  date : string;
  payment_traveler : Z;
  payment_ticket : Z;
  payment_package : Z;
  esewa_transaction_uuid : option string;
  esewa_transaction_code : option string;
  esewa_status : option string;
  esewa_signature : option string;
  esewa_raw_response : RawResponse;
  payment_method : string }.

Record Store : Type := mkStore {
  travelers : list Traveler;
  packages : list Package;
  tickets : list Ticket;
  payments : list Payment }.

(** The exceptions of the booking step. *)
Inductive Exception : Type :=
| TravelerDoesNotExist
| ValueError (message : string)
| TypeError
| DatabaseError.

(** Which of the three inserts the database refuses during one request. *)
Record DbFaults : Type := mkDbFaults {
  traveler_insert_raises : bool;
  ticket_insert_raises : bool;
  payment_insert_raises : bool }.

Definition no_faults : DbFaults := mkDbFaults false false false.

(** Database code: it may raise, and what it wrote before raising is in the
    store it leaves. *)
Definition Tx (A : Type) : Type := Store -> (Exception + A) * Store.

Definition ret {A : Type} (a : A) : Tx A := fun db => (inr a, db).
Definition raise {A : Type} (e : Exception) : Tx A := fun db => (inl e, db).
Definition bind {A B : Type} (m : Tx A) (k : A -> Tx B) : Tx B :=
  fun db =>
    match m db with
    | (inr a, db') => k a db'
    | (inl e, db') => (inl e, db')
    end.

(** [with transaction.atomic(): body]: the writes of a body that raises are
    rolled back. *)
Definition atomic {A : Type} (body : Tx A) : Tx A :=
  fun db =>
    match body db with
    | (inr a, db') => (inr a, db')
    | (inl e, _) => (inl e, db)
    end.

(** The next value of an [AutoField]. *)
Definition next_id (ids : list Z) : Z := 1 + fold_left Z.max ids 0.

(** [Traveler.objects.get(traveler_id=tid)]. *)
Definition get_traveler (tid : Z) : Tx Traveler :=
  fun db =>
    match List.find (fun t => Z.eqb (traveler_id t) tid) (travelers db) with
    | Some t => (inr t, db)
    | None => (inl TravelerDoesNotExist, db)
    end.

(** The row with the least primary key: [QuerySet.first()] orders an
    unordered query set by primary key. *)
Fixpoint least_pk (l : list Traveler) : option Traveler :=
  match l with
  | [] => None
  | t :: l' =>
      match least_pk l' with
      | Some u => if Z.leb (traveler_id t) (traveler_id u) then Some t else Some u
      | None => Some t
      end
  end.

(** [Traveler.objects.filter(Q(email=e) | Q(phone_number=p)).first()]. *)
Definition first_traveler_by_email_or_phone (e p : string) (db : Store)
  : option Traveler :=
  least_pk (filter (fun t => String.eqb (email t) e || String.eqb (phone_number t) p)
                   (travelers db)).

(** [Traveler.objects.create(...)]. *)
Definition create_traveler (f : DbFaults) (n e p a : string) : Tx Traveler :=
  fun db =>
    if traveler_insert_raises f then (inl DatabaseError, db)
    else
      let t := mkTraveler (next_id (map traveler_id (travelers db))) n e p a in
      (inr t, mkStore (travelers db ++ [t]) (packages db) (tickets db) (payments db)).

(** [Package.objects.get(id=pid)], [None] for [Package.DoesNotExist]. *)
Definition get_package (pid : Z) (db : Store) : option Package :=
  List.find (fun pk => Z.eqb (id pk) pid) (packages db).

(** [Ticket.objects.create(traveler=t, package=pk)]. *)
Definition create_ticket (f : DbFaults) (t : Traveler) (pk : Package) : Tx Ticket :=
  fun db =>
    if ticket_insert_raises f then (inl DatabaseError, db)
    else
      let tk := mkTicket (next_id (map ticket_id (tickets db))) (id pk) (traveler_id t) in
      (inr tk, mkStore (travelers db) (packages db) (tickets db ++ [tk]) (payments db)).

(** [Payment.objects.create(...)]; [row] is the payment but for its key.
    The row keeps the amount as the text handed to it.  What the column
    [DecimalField(max_digits=10, decimal_places=2)] makes of that text, the
    number with two decimals, or an exception before the insert for a text
    that is no decimal number or has too many digits, is outside this
    model. *)
Definition create_payment (f : DbFaults) (row : Z -> Payment) : Tx Payment :=
  fun db =>
    if payment_insert_raises f then (inl DatabaseError, db)
    else
      let pay := row (next_id (map payment_id (payments db))) in
      (inr pay, mkStore (travelers db) (packages db) (tickets db) (payments db ++ [pay])).

(** How many payments, and how many tickets paid by them, carry a
    transaction UUID. *)
Definition has_uuid (u : option string) (pay : Payment) : bool :=
  match u, esewa_transaction_uuid pay with
  | Some x, Some y => String.eqb x y
  | None, None => true
  | _, _ => false
  end.

Definition payments_with_uuid (u : option string) (db : Store) : list Payment :=
  filter (has_uuid u) (payments db).

End Models.

(* ===================================================================== *)
(** * [esewa_v2_views.py]: [EsewaV2VerifyAndBookView.get] *)
(* ===================================================================== *)

Module EsewaV2Views.
Import PyStr Models.
Import EsewaUtils (EsewaPayment, merchant_id, secret_key, decode_payment_response).

(** [request.GET]: Django's [QueryDict], or the [FixedQueryDict] the view
    puts in its place after repairing the URL. *)
Inductive QueryParams : Type :=
| DjangoQueryDict (d : dict (list string))
| FixedQueryDict (_params : dict string).

(** [request.GET.get(key)]: a [QueryDict] gives the last value of the key. *)
Definition qget (q : QueryParams) (key : string) : option string :=
  match q with
  | DjangoQueryDict d =>
      match lookup key d with
      | Some l => List.last (map Some l) None
      | None => None
      end
  | FixedQueryDict d => lookup key d
  end.

(** [request.GET.get(key, default)]. *)
Definition qget_or (q : QueryParams) (key default : string) : string :=
  match qget q key with
  | Some v => v
  | None => default
  end.

(** [list(request.GET.keys())]. *)
Definition qkeys (q : QueryParams) : list string :=
  match q with
  | DjangoQueryDict d => keys d
  | FixedQueryDict d => keys d
  end.

(** [dict(request.GET)].  [FixedQueryDict] has [keys] but no [__getitem__]:
    [dict] raises [TypeError] when it reads the value of the first key. *)
Definition qdict (q : QueryParams) : Exception + dict (list string) :=
  match q with
  | DjangoQueryDict d => inr d
  | FixedQueryDict [] => inr []
  | FixedQueryDict (_ :: _) => inl TypeError
  end.

(** What the framework hands over: [request.build_absolute_uri()] and
    [request.GET]. *)
Record Request : Type := mkRequest {
  absolute_uri : string;
  GET : dict (list string) }.

(** The JSON payload posted to the verification endpoint. *)
Record VerifyPayload : Type := mkVerifyPayload {
  vp_product_code : string;
  vp_transaction_uuid : option string;
  vp_total_amount : option string;
  vp_signature : option string }.

Inductive Body : Type :=
| NotJson (text : string)                 (* [.json()] raises ValueError *)
| JsonObject (o : dict JsonValue)
| JsonOther.                              (* JSON that is not an object *)

(** What [requests.post] does. *)
Inductive RemoteReply : Type :=
| RequestException (text : string)
| HttpReply (status_code : Z) (body : Body).

(** The calls to the outside that one request makes. *)
Inductive Event : Type :=
| VerifyPost (payload : VerifyPayload).

(** Everything outside the view and the store: the settings behind
    [EsewaPayment()], the gateway, the database's failures, the clock. *)
Record World : Type := mkWorld {
  esewa : EsewaPayment;
  remote : VerifyPayload -> RemoteReply;
  db_faults : DbFaults;
  now : string }.

(** The responses of the view, by kind, with their machine-readable fields. *)
Inductive Response : Type :=
| MissingData                                                  (* 400 *)
| InvalidBase64 (details : string)                             (* 400 *)
| VerificationNotFound                                         (* 400 *)
| VerificationInvalidResponse (api_status_code : Z) (api_response : string) (* 400 *)
| VerificationRequestFailed (details : string)                 (* 400 *)
| TransactionNotComplete (transaction_status : option JsonValue) (* 400 *)
| AmountMismatch (expected received : Z)                       (* 400 *)
| MissingBookingInformation (missing_fields received_params : list string) (* 400 *)
| TravelerNotFound (details : string)                          (* 404 *)
| BookingCreationFailure (details : string)                    (* 400 *)
| BookingCreationError (e : Exception)                         (* 500 *)
| RedirectToFrontend (frontend_params : dict string)           (* 302 *)
| Unhandled.                       (* an exception leaves [get] *)

(** The locals of step 1. *)
Record BookingParams : Type := mkBookingParams {
  encoded_data : option string;
  booking_reference : string;
  traveler_id : string;
  traveler_name : string;
  traveler_email : string;
  traveler_phone : string;
  traveler_address : string;
  package_id : string;
  payment_amount : string }.

(** Step 1: extract query parameters. *)
Definition extract_params (q : QueryParams) : BookingParams :=
  {| encoded_data := qget q "data";
     booking_reference := qget_or q "booking_reference" "";
     traveler_id := qget_or q "traveler_id" "";
     traveler_name := qget_or q "traveler_name" "";
     traveler_email := qget_or q "traveler_email" "";
     traveler_phone := qget_or q "traveler_phone" "";
     traveler_address := qget_or q "traveler_address" "";
     package_id := qget_or q "package_id" "";
     payment_amount := qget_or q "payment_amount" "" |}.

(** Step 8: the required booking fields that are missing. *)
Definition missing_booking_fields (p : BookingParams) : list string :=
  ((if falsy (traveler_name p) then ["traveler_name"] else [])
   ++ (if falsy (traveler_email p) then ["traveler_email"] else [])
   ++ (if falsy (traveler_phone p) then ["traveler_phone"] else [])
   ++ (if falsy (traveler_address p) then ["traveler_address"] else [])
   ++ (if falsy (package_id p) then ["package_id"] else [])
   ++ (if falsy (payment_amount p) then ["payment_amount"] else []))%list.

(** The first lines of [get]: the parameters the rest of it reads. *)
Definition request_params (request : Request) : QueryParams :=
  let original_url := absolute_uri request in
  let fixed_url := UrlUtils.fix_url_str original_url in
  if negb (String.eqb original_url fixed_url) then
    let query_params := UrlLib.parse_qs (UrlLib.url_query fixed_url) in
    FixedQueryDict (map (fun kv => (fst kv, List.hd "" (snd kv))) query_params)
  else DjangoQueryDict (GET request).

(** [skip_verification = request.GET.get('skip_verification', '').lower() == 'true']. *)
Definition skip_verification (q : QueryParams) : bool :=
  String.eqb (lower (qget_or q "skip_verification" "")) "true".

Definition opt_truthy (o : option string) : bool :=
  match o with
  | Some v => truthy v
  | None => false
  end.

(** A value that may be [None], as a JSON value and as [str] renders it. *)
Definition json_of_opt (o : option string) : JsonValue :=
  match o with
  | Some v => JString v
  | None => JNull
  end.

Definition str_of_opt (o : option string) : string :=
  match o with
  | Some v => v
  | None => "None"
  end.

(** Step 5: the verification result, or the response that ends the request. *)
Definition verify (w : World) (q : QueryParams) (verify_payload : VerifyPayload)
    (transaction_code total_amount : option string)
  : (Response + dict JsonValue) * list Event :=
  if skip_verification q then
    (inr [ ("status", JString "COMPLETE");
           ("transaction_code", json_of_opt transaction_code);
           ("total_amount", json_of_opt total_amount);
           ("skipped", JBool true) ],
     [])
  else
    let trace := [VerifyPost verify_payload] in
    match remote w verify_payload with
    | RequestException text => (inl (VerificationRequestFailed text), trace)
    | HttpReply status_code body =>
        if Z.eqb status_code 404 then (inl VerificationNotFound, trace)
        else
          match body with
          | NotJson text =>
              (inl (VerificationInvalidResponse status_code (take 500 text)), trace)
          | JsonObject o => (inr o, trace)
          | JsonOther => (inl Unhandled, trace)
          end
    end.

(** [v != 'COMPLETE'] for the value [verification_result.get('status')]. *)
Definition not_complete (v : option JsonValue) : bool :=
  match v with
  | Some (JString st) => negb (String.eqb st "COMPLETE")
  | _ => true
  end.

(** Decoding the booking intent from the query parameters: what steps 1
    and 8 of [get] make of them. *)
Inductive Decoded : Type :=
| Accepted (p : BookingParams)
| Rejected (missing_fields : list string).

Definition decode_intent (q : QueryParams) : Decoded :=
  let p := extract_params q in
  if negb (Nat.eqb (List.length (missing_booking_fields p)) 0)
  then Rejected (missing_booking_fields p)
  else Accepted p.

Inductive AmountCheck : Type :=
| AmountAccepted
| AmountDiffers (expected received : Z)
| AmountRaises.

Section View.

(** The conversions applied to text that comes from the request:
    [base64.b64decode(x).decode('utf-8')], [int(x)] and [int(float(x))],
    with [None] (or the exception's text) where Python raises. *)
Variable b64decode_utf8 : string -> string + string.
Variable py_int : string -> option Z.
Variable int_float : string -> option Z.

(** Step 7: validate that the amounts match. *)
Definition check_amount (payment_amount : string) (total_amount : option string)
  : AmountCheck :=
  match total_amount with
  | Some total =>
      if truthy payment_amount && truthy total then
        match int_float payment_amount, int_float total with
        | Some expected_amount, Some received_amount =>
            if negb (Z.eqb expected_amount received_amount)
            then AmountDiffers expected_amount received_amount
            else AmountAccepted
        | _, _ => AmountRaises
        end
      else AmountAccepted
  | None => AmountAccepted
  end.

Notation "x <- m ;; k" := (Models.bind m (fun x => k))
  (at level 61, m at next level, right associativity).

(** Step 9, "Get or create traveler". *)
Definition resolve_traveler (w : World) (p : BookingParams) : Tx Traveler :=
  if truthy (traveler_id p) then
    match py_int (traveler_id p) with
    | Some tid => get_traveler tid
    | None => raise (ValueError "invalid literal for int()")
    end
  else
    fun db =>
      match first_traveler_by_email_or_phone
              (traveler_email p) (traveler_phone p) db with
      | Some t => ret t db
      | None =>
          create_traveler (db_faults w) (traveler_name p) (traveler_email p)
            (traveler_phone p) (traveler_address p) db
      end.

(** Step 9, "Get package": a package that does not exist and an id that is
    not a number both end in the same [ValueError]. *)
Definition resolve_package (p : BookingParams) : Tx Package :=
  fun db =>
    match option_map (fun pid => get_package pid db) (py_int (package_id p)) with
    | Some (Some pk) => ret pk db
    | _ => raise (ValueError ("Package with ID " ++ package_id p ++ " not found")) db
    end.

(** The payment row of step 9, but for its key. *)
Definition payment_row (w : World) (p : BookingParams)
    (decoded_data : dict string) (verification_result : dict JsonValue)
    (query_params : dict (list string))
    (traveler : Traveler) (ticket : Ticket) (package : Package) (amount : string)
    (pk : Z) : Payment :=
  {| payment_id := pk;
     Models.amount := amount;
     date := now w;
     payment_traveler := Models.traveler_id traveler;
     payment_ticket := ticket_id ticket;
     payment_package := id package;
     esewa_transaction_uuid := lookup "transaction_uuid" decoded_data;
     esewa_transaction_code := lookup "transaction_code" decoded_data;
     esewa_status := lookup "status" decoded_data;
     esewa_signature := lookup "signature" decoded_data;
     esewa_raw_response :=
       mkRawResponse decoded_data verification_result query_params;
     payment_method := "esewa" |}.

(** The parameters of the redirect to the front end. *)
Definition frontend_params (p : BookingParams) (decoded_data : dict string)
    (traveler : Traveler) (ticket : Ticket) (package : Package)
    (payment : Payment) : dict string :=
  let transaction_code := lookup "transaction_code" decoded_data in
  let transaction_uuid := lookup "transaction_uuid" decoded_data in
  [ ("ticket_id", str_of_int (ticket_id ticket));
    ("traveler_id", str_of_int (Models.traveler_id traveler));
    ("traveler_name", name traveler);
    ("traveler_email", email traveler);
    ("package_id", str_of_int (id package));
    ("package_title", title package);
    ("package_price", str_of_int (price package));
    ("payment_amount", Models.amount payment);
    ("payment_date", date payment);
    ("payment_id", str_of_int (payment_id payment));
    ("esewa_ref_id", str_of_opt transaction_code);
    ("transaction_code", str_of_opt transaction_code);
    ("transaction_uuid", str_of_opt transaction_uuid);
    ("booking_reference",
     if truthy (booking_reference p) then booking_reference p
     else str_of_opt transaction_uuid) ].

(** Step 9, the body of [with db_transaction.atomic():]. *)
Definition create_booking (w : World) (q : QueryParams) (p : BookingParams)
    (decoded_data : dict string) (verification_result : dict JsonValue)
  : Tx (dict string) :=
  traveler <- resolve_traveler w p ;;
  package <- resolve_package p ;;
  ticket <- create_ticket (db_faults w) traveler package ;;
  query_params <-
    (match qdict q with
     | inr d => ret d
     | inl e => raise e
     end) ;;
  payment <-
    (match (if truthy (payment_amount p) then Some (payment_amount p)
            else lookup "total_amount" decoded_data) with
     | Some amount =>
         create_payment (db_faults w)
           (payment_row w p decoded_data verification_result query_params
                        traveler ticket package amount)
     | None => raise DatabaseError
     end) ;;
  ret (frontend_params p decoded_data traveler ticket package payment).

(** The [except] clauses that follow the atomic block. *)
Definition booking_error (p : BookingParams) (e : Exception) : Response :=
  match e with
  | TravelerDoesNotExist =>
      TravelerNotFound ("Traveler not found: ID " ++ traveler_id p)
  | ValueError message => BookingCreationFailure message
  | _ => BookingCreationError e
  end.

(** [EsewaV2VerifyAndBookView.get(self, request)] on the store [db]: the
    response, the store it leaves, and the outside calls it made. *)
Definition get (w : World) (request : Request) (db : Store)
  : Response * Store * list Event :=
  let q := request_params request in
  let p := extract_params q in
  if negb (opt_truthy (encoded_data p)) then (MissingData, db, [])
  else
  let decoded_data :=
    decode_payment_response b64decode_utf8 (str_of_opt (encoded_data p)) in
  match lookup "error" decoded_data with
  | Some _ =>
      (InvalidBase64 (match lookup "message" decoded_data with
                      | Some m => m
                      | None => "Failed to decode eSewa response"
                      end), db, [])
  | None =>
  let transaction_code := lookup "transaction_code" decoded_data in
  let transaction_uuid := lookup "transaction_uuid" decoded_data in
  let total_amount := lookup "total_amount" decoded_data in
  let product_code := lookup "product_code" decoded_data in
  let esewa_signature := lookup "signature" decoded_data in
  let verify_payload :=
    {| vp_product_code :=
         if opt_truthy product_code then str_of_opt product_code
         else merchant_id (esewa w);
       vp_transaction_uuid := transaction_uuid;
       vp_total_amount := total_amount;
       vp_signature := esewa_signature |} in
  match verify w q verify_payload transaction_code total_amount with
  | (inl response, trace) => (response, db, trace)
  | (inr verification_result, trace) =>
  if not_complete (lookup "status" verification_result) then
    (TransactionNotComplete (lookup "status" verification_result), db, trace)
  else
  match check_amount (payment_amount p) total_amount with
  | AmountRaises => (Unhandled, db, trace)
  | AmountDiffers expected received => (AmountMismatch expected received, db, trace)
  | AmountAccepted =>
  if negb (Nat.eqb (List.length (missing_booking_fields p)) 0) then
    (MissingBookingInformation (missing_booking_fields p) (qkeys q), db, trace)
  else
  match atomic (create_booking w q p decoded_data verification_result) db with
  | (inr frontend_params, db') => (RedirectToFrontend frontend_params, db', trace)
  | (inl e, db') => (booking_error p e, db', trace)
  end end end end.

(** The payload decoded from the request's [data] parameter, and the
    transaction UUID it carries. *)
Definition callback_data (request : Request) : dict string :=
  decode_payment_response b64decode_utf8
    (str_of_opt (encoded_data (extract_params (request_params request)))).

Definition callback_uuid (request : Request) : option string :=
  lookup "transaction_uuid" (callback_data request).

(** The payload [get] posts to the verification endpoint. *)
Definition callback_verify_payload (w : World) (request : Request) : VerifyPayload :=
  let decoded_data := callback_data request in
  {| vp_product_code :=
       if opt_truthy (lookup "product_code" decoded_data)
       then str_of_opt (lookup "product_code" decoded_data)
       else merchant_id (esewa w);
     vp_transaction_uuid := lookup "transaction_uuid" decoded_data;
     vp_total_amount := lookup "total_amount" decoded_data;
     vp_signature := lookup "signature" decoded_data |}.

(** The status on which step 6 decides: that of the endpoint's response,
    or COMPLETE by construction when the request asks to skip the call. *)
Definition verification_status (w : World) (request : Request) : option JsonValue :=
  if skip_verification (request_params request) then Some (JString "COMPLETE")
  else
    match remote w (callback_verify_payload w request) with
    | HttpReply status_code (JsonObject o) =>
        if Z.eqb status_code 404 then None else lookup "status" o
    | _ => None
    end.

End View.

Definition is_redirect (r : Response) : bool :=
  match r with
  | RedirectToFrontend _ => true
  | _ => false
  end.

(** The responses of step 5 and step 6: the verification did not answer, or
    did not say COMPLETE. *)
Definition verification_refused (r : Response) : bool :=
  match r with
  | VerificationNotFound | VerificationInvalidResponse _ _
  | VerificationRequestFailed _ | TransactionNotComplete _ => true
  | _ => false
  end.

(** The responses of step 9: the commit step was entered, and returned or
    raised. *)
Definition commit_reached (r : Response) : bool :=
  match r with
  | RedirectToFrontend _ | TravelerNotFound _ | BookingCreationFailure _
  | BookingCreationError _ => true
  | _ => false
  end.

(** The verification result the view makes up when the call is skipped. *)
Definition skipped_result (decoded_data : dict string) : dict JsonValue :=
  [ ("status", JString "COMPLETE");
    ("transaction_code", json_of_opt (lookup "transaction_code" decoded_data));
    ("total_amount", json_of_opt (lookup "total_amount" decoded_data));
    ("skipped", JBool true) ].

(** ** The view on concrete callbacks *)

(** The conversions on the texts that occur below: canonical base64, and
    whole numbers written in decimal digits. *)
Definition get_py : World -> Request -> Store -> Response * Store * list Event :=
  get EsewaUtils.b64decode_utf8_strict int_of_str int_of_str.

(** The request Django builds for a URL: [request.GET] is parsed from the
    query string, that is from what follows the first '?'. *)
Definition django_request (url : string) : Request :=
  mkRequest url
    (UrlLib.parse_qs
       (match split_once "?" url with
        | (_, Some query_string) => query_string
        | (_, None) => EmptyString
        end)).

Definition demo_store : Store :=
  mkStore [] [mkPackage 8 "everest-base-camp" "Everest Base Camp Trek" 1800 14] [] [].

(** What the gateway sends back in [data], before base64. *)
Definition gateway_payload (status : string) : string :=
  "transaction_code=0007YMM&status=" ++ status
    ++ "&total_amount=1800&transaction_uuid=241028"
    ++ "&product_code=EPAYTEST&signature=abc".

(** A callback URL for a new traveler; [extra] is spliced into the query. *)
Definition callback_url (status extra : string) : string :=
  "http://localhost:8000/api/system/esewa/v2/success/"
    ++ "?booking_reference=BK80AEBE1D39&package_id=8&payment_amount=1800"
    ++ "&traveler_name=Ayush+shahi&traveler_email=ayush%40example.com"
    ++ "&traveler_phone=9861291159&traveler_address=Kathmandu"
    ++ extra ++ "&data="
    ++ Crypto.b64encode (Crypto.bytes_of_string (gateway_payload status)).

Definition gateway_says (status : string) (_ : VerifyPayload) : RemoteReply :=
  HttpReply 200 (JsonObject [("status", JString status);
                             ("ref_id", JString "0007YMM")]).

Definition gateway_unreachable (_ : VerifyPayload) : RemoteReply :=
  RequestException "Connection timed out".

(** Settings with a merchant's own credentials in place of the test
    defaults; the settings hold nothing else. *)
Definition live_esewa : EsewaPayment :=
  {| merchant_id := "NP-ES-MAHALAXMI"; secret_key := "kR7#pL2vQ9xT4mB8" |}.

Definition test_world : World :=
  mkWorld EsewaUtils.default_esewa (gateway_says "COMPLETE") no_faults
          "2025-01-15T10:30:00".

Definition live_world_gateway_down : World :=
  mkWorld live_esewa gateway_unreachable no_faults "2025-01-15T10:30:00".

Definition first_run : Response * Store * list Event :=
  get_py test_world (django_request (callback_url "COMPLETE" "")) demo_store.

Definition redirect_params (r : Response) : dict string :=
  match r with
  | RedirectToFrontend fp => fp
  | _ => []
  end.

Definition bypass_request : Request :=
  django_request (callback_url "COMPLETE" "&skip_verification=TRUE").

Definition bypass_run : Response * Store * list Event :=
  get_py live_world_gateway_down
    (django_request (callback_url "COMPLETE" "&skip_verification=TRUE"))
    demo_store.

Definition pending_world : World :=
  mkWorld EsewaUtils.default_esewa (gateway_says "PENDING") no_faults
          "2025-01-15T10:30:00".

Definition pending_run : Response * Store * list Event :=
  get_py pending_world (django_request (callback_url "COMPLETE" "")) demo_store.

(** A database that refuses the insert of the ticket. *)
Definition ticket_fault_world : World :=
  mkWorld EsewaUtils.default_esewa (gateway_says "COMPLETE")
          (mkDbFaults false true false) "2025-01-15T10:30:00".

Definition ticket_fault_run : Response * Store * list Event :=
  get_py ticket_fault_world (django_request (callback_url "COMPLETE" "")) demo_store.

(** ** What one request does to the store *)

Ltac destruct_head H :=
  match type of H with
  | (if ?c then _ else _) = _ => destruct c eqn:?
  | (match ?c with _ => _ end) = _ => destruct c eqn:?
  | (if ?c then _ else _) _ = _ => destruct c eqn:?; cbv beta in H
  | (match ?c with _ => _ end) _ = _ => destruct c eqn:?; cbv beta in H
  end.

Lemma run_eta {A B C : Type} (x : A * B * C) :
  x = (fst (fst x), snd (fst x), snd x).
Proof. now destruct x as [[a b] c]. Qed.

Lemma has_uuid_refl u pay : esewa_transaction_uuid pay = u -> has_uuid u pay = true.
Proof.
  intros <-. unfold has_uuid. destruct (esewa_transaction_uuid pay); [|reflexivity].
  apply String.eqb_refl.
Qed.

Lemma not_complete_false v : not_complete v = false -> v = Some (JString "COMPLETE").
Proof.
  destruct v as [[st| | | |]|]; cbn; try discriminate.
  intros H. apply negb_false_iff, String.eqb_eq in H. now subst.
Qed.

Lemma create_ticket_returns f t pk db tk db' :
  create_ticket f t pk db = (inr tk, db') ->
  tickets db' = (tickets db ++ [tk])%list /\ payments db' = payments db.
Proof.
  unfold create_ticket. intros H. destruct_head H; [discriminate|].
  injection H as <- <-. auto.
Qed.

Lemma create_payment_returns f row db pay db' :
  create_payment f row db = (inr pay, db') ->
  tickets db' = tickets db /\ payments db' = (payments db ++ [pay])%list
  /\ exists pk, pay = row pk.
Proof.
  unfold create_payment. intros H. destruct_head H; [discriminate|].
  injection H as <- <-. eauto.
Qed.

Section ViewFacts.

Variable b64decode_utf8 : string -> string + string.
Variable py_int : string -> option Z.
Variable int_float : string -> option Z.

Lemma resolve_traveler_frame w p db r db' :
  resolve_traveler py_int w p db = (r, db') ->
  packages db' = packages db /\ tickets db' = tickets db
  /\ payments db' = payments db.
Proof.
  unfold resolve_traveler, get_traveler, raise, ret, create_traveler.
  intros H. repeat destruct_head H; injection H as <- <-; auto.
Qed.

Lemma resolve_package_frame p db r db' :
  resolve_package py_int p db = (r, db') -> db' = db.
Proof.
  unfold resolve_package, raise, ret.
  intros H. repeat destruct_head H; now injection H as <- <-.
Qed.

(** A booking step that returns has appended one ticket and one payment,
    and the payment carries the transaction UUID of the decoded payload. *)
Lemma create_booking_returns w q p dd vr db fp db' :
  create_booking py_int w q p dd vr db = (inr fp, db') ->
  exists tk pay,
    tickets db' = (tickets db ++ [tk])%list
    /\ payments db' = (payments db ++ [pay])%list
    /\ esewa_transaction_uuid pay = lookup "transaction_uuid" dd
    /\ payment_ticket pay = ticket_id tk.
Proof.
  unfold create_booking, Models.bind. intros H.
  destruct (resolve_traveler py_int w p db) as [[e|t] db1] eqn:Ht; [discriminate|].
  apply resolve_traveler_frame in Ht as (_ & Ht1 & Ht2).
  destruct (resolve_package py_int p db1) as [[e|pk] db2] eqn:Hp; [discriminate|].
  apply resolve_package_frame in Hp as ->.
  destruct (create_ticket (db_faults w) t pk db1) as [[e|tk] db3] eqn:Hk;
    [discriminate|].
  apply create_ticket_returns in Hk as (Hk1 & Hk2).
  destruct (qdict q) as [e|d]; [discriminate|]. unfold ret at 1 in H.
  destruct (if truthy (payment_amount p) then Some (payment_amount p)
            else lookup "total_amount" dd) as [amount|]; [|discriminate].
  destruct (create_payment _ _ db3) as [[e|pay] db4] eqn:Hy; [discriminate|].
  apply create_payment_returns in Hy as (Hy1 & Hy2 & pk' & ->).
  unfold ret in H. injection H as <- <-.
  eexists _, _. repeat split.
  - now rewrite Hy1, Hk1, Ht1.
  - now rewrite Hy2, Hk2, Ht2.
  - reflexivity.
  - reflexivity.
Qed.

(** A booking step that returns was refused neither the ticket nor the
    payment. *)
Lemma create_booking_returns_no_fault w q p dd vr db fp db' :
  create_booking py_int w q p dd vr db = (inr fp, db') ->
  ticket_insert_raises (db_faults w) = false
  /\ payment_insert_raises (db_faults w) = false.
Proof.
  unfold create_booking, Models.bind. intros H.
  destruct (resolve_traveler py_int w p db) as [[e|t] db1]; [discriminate|].
  destruct (resolve_package py_int p db1) as [[e|pk] db2]; [discriminate|].
  unfold create_ticket at 1 in H.
  destruct (ticket_insert_raises (db_faults w)); [discriminate|].
  destruct (qdict q) as [e|d]; [discriminate|]. unfold ret at 1 in H.
  destruct (if truthy (payment_amount p) then Some (payment_amount p)
            else lookup "total_amount" dd) as [amount|]; [|discriminate].
  unfold create_payment in H.
  destruct (payment_insert_raises (db_faults w)); [discriminate|].
  split; reflexivity.
Qed.

(** [get] answers with the redirect only through the booking step, and
    only on a verification result whose status is COMPLETE. *)
Lemma get_redirect w request db fp db' trace :
  get b64decode_utf8 py_int int_float w request db = (RedirectToFrontend fp, db', trace) ->
  exists vr,
    verify w (request_params request) (callback_verify_payload b64decode_utf8 w request)
           (lookup "transaction_code" (callback_data b64decode_utf8 request))
           (lookup "total_amount" (callback_data b64decode_utf8 request))
    = (inr vr, trace)
    /\ not_complete (lookup "status" vr) = false
    /\ missing_booking_fields (extract_params (request_params request)) = []
    /\ create_booking py_int w (request_params request)
         (extract_params (request_params request)) (callback_data b64decode_utf8 request) vr db
       = (inr fp, db').
Proof.
  unfold get. fold (callback_data b64decode_utf8 request). fold (callback_verify_payload b64decode_utf8 w request).
  intros H.
  destruct_head H; [discriminate|].
  destruct_head H; [discriminate|].
  destruct (verify _ _ _ _ _) as [[resp|vr] tr] eqn:Hv.
  { injection H as -> <- <-. exfalso.
    unfold verify in Hv. repeat destruct_head Hv; discriminate. }
  destruct_head H; [discriminate|].
  destruct_head H; try discriminate.
  destruct_head H; [discriminate|].
  destruct (atomic _ db) as [[e|fp'] db''] eqn:Ha.
  { destruct e; discriminate. }
  injection H as <- <- <-.
  exists vr. repeat split; try assumption.
  - destruct (missing_booking_fields _); [reflexivity|discriminate].
  - unfold atomic in Ha. destruct_head Ha. destruct_head Ha; [discriminate|].
    now injection Ha as <- <-.
Qed.

(** Every other answer leaves the store as it was. *)
Lemma get_no_redirect w request db resp db' trace :
  get b64decode_utf8 py_int int_float w request db = (resp, db', trace) ->
  is_redirect resp = false -> db' = db.
Proof.
  unfold get. intros H Hr.
  destruct_head H; [now injection H as <- <- <-|].
  destruct_head H; [now injection H as <- <- <-|].
  destruct (verify _ _ _ _ _) as [[r|vr] tr]; [now injection H as <- <- <-|].
  destruct_head H; [now injection H as <- <- <-|].
  destruct_head H; try (now injection H as <- <- <-).
  destruct_head H; [now injection H as <- <- <-|].
  unfold atomic in H.
  destruct (create_booking _ _ _ _ _ _ db) as [[e|fp] db''].
  - now injection H as <- <- <-.
  - injection H as <- <- <-. discriminate.
Qed.

Lemma get_trace w request db resp db' trace :
  get b64decode_utf8 py_int int_float w request db = (resp, db', trace) ->
  trace = []
  \/ skip_verification (request_params request) = false
     /\ trace = [VerifyPost (callback_verify_payload b64decode_utf8 w request)].
Proof.
  unfold get. fold (callback_data b64decode_utf8 request). fold (callback_verify_payload b64decode_utf8 w request).
  intros H.
  destruct_head H; [injection H as <- <- <-; now left|].
  destruct_head H; [injection H as <- <- <-; now left|].
  destruct (verify _ _ _ _ _) as [r tr] eqn:Hv.
  assert (Htr : trace = tr).
  { repeat (destruct_head H; try (now injection H as <- <- <-)). }
  subst tr. unfold verify in Hv.
  destruct (skip_verification (request_params request)).
  - injection Hv as <- <-. now left.
  - right. split; [reflexivity|].
    repeat destruct_head Hv; now injection Hv as <- <-.
Qed.

Lemma get_redirect_status w request db fp db' trace :
  get b64decode_utf8 py_int int_float w request db = (RedirectToFrontend fp, db', trace) ->
  verification_status b64decode_utf8 w request = Some (JString "COMPLETE").
Proof.
  intros H. apply get_redirect in H as (vr & Hv & Hc & _).
  apply not_complete_false in Hc. unfold verification_status.
  unfold verify in Hv. destruct (skip_verification (request_params request)).
  - reflexivity.
  - repeat destruct_head Hv; try discriminate. now injection Hv as <- <-.
Qed.

(** C1, as the code has it.  Every callback that ends in the redirect has
    appended exactly one Ticket and exactly one Payment; the Payment pays
    that Ticket and carries the transaction UUID of the callback's payload.
    Nothing looks for an earlier Payment with the same UUID: the number of
    Payments carrying it grows by one with each such callback. *)
Theorem successful_callback_appends_one w request db fp db' trace :
  get b64decode_utf8 py_int int_float w request db = (RedirectToFrontend fp, db', trace) ->
  exists tk pay,
    tickets db' = (tickets db ++ [tk])%list
    /\ payments db' = (payments db ++ [pay])%list
    /\ esewa_transaction_uuid pay = callback_uuid b64decode_utf8 request
    /\ payment_ticket pay = ticket_id tk
    /\ List.length (payments_with_uuid (callback_uuid b64decode_utf8 request) db')
       = S (List.length (payments_with_uuid (callback_uuid b64decode_utf8 request) db)).
Proof.
  intros H. apply get_redirect in H as (vr & _ & _ & _ & H).
  apply create_booking_returns in H as (tk & pay & Ht & Hp & Hu & Hk).
  exists tk, pay. unfold callback_uuid. repeat split; try assumption.
  unfold payments_with_uuid. rewrite Hp, filter_app, length_app.
  cbn [filter]. rewrite (has_uuid_refl _ _ Hu). cbn. lia.
Qed.

(** A response of the commit step comes after a verification result whose
    status is COMPLETE. *)
Lemma get_commit_reached w request db resp db' trace :
  get b64decode_utf8 py_int int_float w request db = (resp, db', trace) ->
  commit_reached resp = true ->
  exists vr,
    verify w (request_params request) (callback_verify_payload b64decode_utf8 w request)
           (lookup "transaction_code" (callback_data b64decode_utf8 request))
           (lookup "total_amount" (callback_data b64decode_utf8 request))
    = (inr vr, trace)
    /\ not_complete (lookup "status" vr) = false.
Proof.
  unfold get. fold (callback_data b64decode_utf8 request).
  fold (callback_verify_payload b64decode_utf8 w request).
  intros H Hr.
  destruct_head H; [injection H as <- <- <-; discriminate|].
  destruct_head H; [injection H as <- <- <-; discriminate|].
  destruct (verify _ _ _ _ _) as [[r|vr] tr] eqn:Hv.
  { injection H as <- <- <-. exfalso.
    unfold verify in Hv.
    repeat destruct_head Hv; try discriminate; inversion Hv; subst; discriminate. }
  destruct (not_complete (lookup "status" vr)) eqn:Hn;
    [injection H as <- <- <-; discriminate|].
  assert (trace = tr)
    by (repeat (destruct_head H; try (now injection H as <- <- <-))).
  subst tr. eauto.
Qed.

(** Under the skip flag no response is one of the verification. *)
Lemma get_skipped_not_refused w request db resp db' trace :
  get b64decode_utf8 py_int int_float w request db = (resp, db', trace) ->
  skip_verification (request_params request) = true ->
  verification_refused resp = false.
Proof.
  unfold get, verify. intros H Hs. rewrite Hs in H.
  cbn [not_complete lookup String.eqb Ascii.eqb Bool.eqb negb] in H.
  destruct_head H; [now injection H as <- <- <-|].
  destruct_head H; [now injection H as <- <- <-|].
  destruct_head H; try (now injection H as <- <- <-).
  destruct_head H; [now injection H as <- <- <-|].
  destruct (atomic _ db) as [[e|fp] db''].
  - injection H as <- <- <-. destruct e; reflexivity.
  - now injection H as <- <- <-.
Qed.

(** C2, as the code has it.  Whether the verification call is skipped is
    decided by the request alone, whatever the configuration.  With
    [skip_verification=true] among its parameters (in any letter case) no
    call is made and the verification result is taken to be COMPLETE: no
    response is one of the verification, and a callback that passes the
    checks on its data, its amounts and its fields gets the outcome of the
    commit step run on the made-up COMPLETE result.  Without the flag, a
    callback whose payload decodes calls the endpoint once, with the payload
    of the callback; and the commit step is reached, or the store changed,
    only after that call was answered with a JSON object of status
    COMPLETE. *)
Theorem verification_skipped_on_request w request db resp db' trace :
  get b64decode_utf8 py_int int_float w request db = (resp, db', trace) ->
  let q := request_params request in
  let p := extract_params q in
  let dd := callback_data b64decode_utf8 request in
  (skip_verification q = true ->
   trace = []
   /\ verification_refused resp = false
   /\ (opt_truthy (encoded_data p) = true -> lookup "error" dd = None ->
       check_amount int_float (payment_amount p) (lookup "total_amount" dd)
       = AmountAccepted ->
       missing_booking_fields p = [] ->
       (resp, db')
       = match atomic (create_booking py_int w q p dd (skipped_result dd)) db with
         | (inr fp, db'') => (RedirectToFrontend fp, db'')
         | (inl e, db'') => (booking_error p e, db'')
         end))
  /\ (skip_verification q = false ->
      (opt_truthy (encoded_data p) = true -> lookup "error" dd = None ->
       trace = [VerifyPost (callback_verify_payload b64decode_utf8 w request)])
      /\ (commit_reached resp = true \/ db' <> db ->
          exists status_code o,
            trace = [VerifyPost (callback_verify_payload b64decode_utf8 w request)]
            /\ remote w (callback_verify_payload b64decode_utf8 w request)
               = HttpReply status_code (JsonObject o)
            /\ status_code <> 404%Z
            /\ lookup "status" o = Some (JString "COMPLETE"))).
Proof.
  intros H q p dd. split.
  - intros Hs. split; [|split].
    + destruct (get_trace _ _ _ _ _ _ H) as [Ht | [Hs' _]];
        [assumption | unfold q in Hs; congruence].
    + eapply get_skipped_not_refused; eassumption.
    + intros Hd He Hc Hm. revert H. unfold get, verify. cbv zeta.
      fold (callback_data b64decode_utf8 request). fold dd. fold q. fold p.
      rewrite Hs, Hd, He.
      cbn [negb not_complete lookup String.eqb Ascii.eqb Bool.eqb].
      rewrite Hc, Hm. cbn [List.length Nat.eqb negb].
      unfold skipped_result.
      destruct (atomic _ db) as [[e|fp] db'']; now intros [= <- <- <-].
  - intros Hs. split.
    + intros Hd He. revert H. unfold get. cbv zeta.
      fold (callback_data b64decode_utf8 request). fold dd. fold q. fold p.
      fold (callback_verify_payload b64decode_utf8 w request).
      rewrite Hd, He. cbn [negb].
      destruct (verify _ _ _ _ _) as [r tr] eqn:Hv. intros H.
      assert (Htr : trace = tr)
        by (repeat (destruct_head H; try (now injection H as <- <- <-))).
      subst tr. unfold verify in Hv. rewrite Hs in Hv.
      repeat destruct_head Hv; now injection Hv as <- <-.
    + intros Hr.
      assert (Hc : commit_reached resp = true).
      { destruct Hr as [Hr|Hr]; [assumption|].
        destruct (is_redirect resp) eqn:Hi.
        - destruct resp; try discriminate. reflexivity.
        - exfalso. apply Hr. eapply get_no_redirect; eassumption. }
      apply get_commit_reached in H as (vr & Hv & Hn); [|assumption].
      apply not_complete_false in Hn.
      unfold verify in Hv. fold q in Hv. rewrite Hs in Hv.
      destruct (remote w (callback_verify_payload b64decode_utf8 w request))
        as [text | status_code [text | o |]]; try discriminate;
        destruct (Z.eqb_spec status_code 404); try discriminate.
      injection Hv as <- <-. eauto 6.
Qed.


(** C4.  The booking step is atomic: when it raises (a refused insert, a
    traveler or package that does not exist, an id that is not a number, the
    audit record that cannot be built), whatever it wrote before raising is
    rolled back.  Every callback that does not end in the redirect leaves the
    store exactly as it found it; a callback during which the database
    refuses the ticket or the payment is among them. *)
Theorem failed_callback_leaves_store w request db resp db' trace :
  get b64decode_utf8 py_int int_float w request db = (resp, db', trace) ->
  (is_redirect resp = false -> db' = db)
  /\ (ticket_insert_raises (db_faults w) = true
      \/ payment_insert_raises (db_faults w) = true ->
      is_redirect resp = false /\ db' = db)
  /\ forall q p dd vr e db'',
       atomic (create_booking py_int w q p dd vr) db = (inl e, db'') -> db'' = db.
Proof.
  intros H.
  assert (Hn : is_redirect resp = false -> db' = db)
    by (intros Hr; eapply get_no_redirect; eassumption).
  split; [assumption|]. split.
  - intros Hf.
    assert (Hr : is_redirect resp = false).
    { destruct resp; try reflexivity. exfalso.
      apply get_redirect in H as (vr & _ & _ & _ & H).
      apply create_booking_returns_no_fault in H as [Ht Hp].
      destruct Hf; congruence. }
    auto.
  - intros q p dd vr e db'' Ha. unfold atomic in Ha.
    destruct (create_booking py_int w q p dd vr db) as [[e'|fp] db1];
      [|discriminate].
    now injection Ha as _ <-.
Qed.

End ViewFacts.

(** ** The view on the concrete callbacks *)

(** The four runs used below, evaluated. *)
Example first_run_outcome :
  exists fp db',
    first_run
    = (RedirectToFrontend fp, db',
       [VerifyPost (mkVerifyPayload "EPAYTEST" (Some "241028") (Some "1800")
                                    (Some "abc"))])
    /\ lookup "ticket_id" fp = Some "1"
    /\ lookup "traveler_name" fp = Some "Ayush shahi"
    /\ lookup "transaction_uuid" fp = Some "241028"
    /\ lookup "booking_reference" fp = Some "BK80AEBE1D39"
    /\ map name (travelers db') = ["Ayush shahi"]
    /\ map esewa_transaction_uuid (payments db') = [Some "241028"].
Proof. eexists _, _. vm_compute. repeat split. Qed.

Example bypass_run_outcome :
  is_redirect (fst (fst bypass_run)) = true /\ snd bypass_run = [].
Proof. vm_compute. split; reflexivity. Qed.

Example pending_run_outcome :
  pending_run
  = (TransactionNotComplete (Some (JString "PENDING")), demo_store,
     [VerifyPost (mkVerifyPayload "EPAYTEST" (Some "241028") (Some "1800")
                                  (Some "abc"))]).
Proof. vm_compute. reflexivity. Qed.

Example ticket_fault_run_outcome :
  ticket_fault_run
  = (BookingCreationError DatabaseError, demo_store,
     [VerifyPost (mkVerifyPayload "EPAYTEST" (Some "241028") (Some "1800")
                                  (Some "abc"))]).
Proof. vm_compute. reflexivity. Qed.

(** C1 as stated fails: the same callback (same transaction UUID, the
    gateway confirming COMPLETE both times) handled twice books twice. *)
Lemma duplicate_callback_books_twice :
  let request := django_request (callback_url "COMPLETE" "") in
  let '(response1, db1, _) := get_py test_world request demo_store in
  let '(response2, db2, _) := get_py test_world request db1 in
  is_redirect response1 = true /\ is_redirect response2 = true
  /\ callback_uuid EsewaUtils.b64decode_utf8_strict request = Some "241028"
  /\ List.length (payments_with_uuid (Some "241028") db2) = 2
  /\ List.length (tickets db2) = 2.
Proof. vm_compute. repeat split. Qed.

Lemma successful_callback_appends_one_witness :
  exists tk pay,
    tickets (snd (fst first_run)) = (tickets demo_store ++ [tk])%list
    /\ payments (snd (fst first_run)) = (payments demo_store ++ [pay])%list
    /\ esewa_transaction_uuid pay
       = callback_uuid EsewaUtils.b64decode_utf8_strict
           (django_request (callback_url "COMPLETE" ""))
    /\ payment_ticket pay = ticket_id tk
    /\ List.length (payments_with_uuid
                      (callback_uuid EsewaUtils.b64decode_utf8_strict
                         (django_request (callback_url "COMPLETE" "")))
                      (snd (fst first_run)))
       = S (List.length (payments_with_uuid
                           (callback_uuid EsewaUtils.b64decode_utf8_strict
                              (django_request (callback_url "COMPLETE" "")))
                           demo_store)).
Proof.
  apply (successful_callback_appends_one EsewaUtils.b64decode_utf8_strict
           int_of_str int_of_str test_world
           (django_request (callback_url "COMPLETE" "")) demo_store
           (redirect_params (fst (fst first_run))) (snd (fst first_run))
           (snd first_run)).
  vm_compute. reflexivity.
Defined.

(** C2 as stated fails: with a merchant's own credentials configured and
    the gateway unreachable, a callback that carries
    [skip_verification=true] is booked, and the endpoint is never called. *)
Lemma bypass_works_under_live_settings :
  let '(response, db', trace) :=
    get_py live_world_gateway_down
      (django_request (callback_url "COMPLETE" "&skip_verification=true"))
      demo_store in
  is_redirect response = true /\ trace = []
  /\ List.length (payments db') = 1%nat.
Proof. vm_compute. repeat split. Qed.

Lemma verification_skipped_on_request_witness :
  (snd bypass_run = []
   /\ verification_refused (fst (fst bypass_run)) = false
   /\ (fst (fst bypass_run), snd (fst bypass_run))
      = match atomic (create_booking int_of_str live_world_gateway_down
                        (request_params bypass_request)
                        (extract_params (request_params bypass_request))
                        (callback_data EsewaUtils.b64decode_utf8_strict bypass_request)
                        (skipped_result
                           (callback_data EsewaUtils.b64decode_utf8_strict
                              bypass_request)))
                     demo_store with
        | (inr fp, db'') => (RedirectToFrontend fp, db'')
        | (inl e, db'') =>
            (booking_error (extract_params (request_params bypass_request)) e, db'')
        end)
  /\ exists status_code o,
       snd first_run
       = [VerifyPost (callback_verify_payload EsewaUtils.b64decode_utf8_strict
                        test_world (django_request (callback_url "COMPLETE" "")))]
       /\ remote test_world
            (callback_verify_payload EsewaUtils.b64decode_utf8_strict
               test_world (django_request (callback_url "COMPLETE" "")))
          = HttpReply status_code (JsonObject o)
       /\ status_code <> 404%Z
       /\ lookup "status" o = Some (JString "COMPLETE").
Proof.
  split.
  - pose proof (proj1 (verification_skipped_on_request
                         EsewaUtils.b64decode_utf8_strict int_of_str int_of_str
                         live_world_gateway_down bypass_request
                         demo_store (fst (fst bypass_run)) (snd (fst bypass_run))
                         (snd bypass_run) (run_eta bypass_run)))
      as H.
    destruct H as (Ht & Hr & Hb); [vm_compute; reflexivity|].
    split; [exact Ht|]. split; [exact Hr|].
    apply Hb; vm_compute; reflexivity.
  - apply (proj2 (proj2 (verification_skipped_on_request
                    EsewaUtils.b64decode_utf8_strict int_of_str int_of_str
                    test_world (django_request (callback_url "COMPLETE" ""))
                    demo_store (fst (fst first_run)) (snd (fst first_run))
                    (snd first_run) (run_eta first_run))
                  ltac:(vm_compute; reflexivity))).
    left. vm_compute. reflexivity.
Defined.



(** Without the atomic block the traveler written before the failure would
    stay: the body of the block leaves it in the store. *)
Example booking_body_writes_before_failing :
  let request := django_request (callback_url "COMPLETE" "") in
  let q := request_params request in
  let '(outcome, db') :=
    create_booking int_of_str ticket_fault_world q (extract_params q)
      (callback_data EsewaUtils.b64decode_utf8_strict request) [] demo_store in
  outcome = inl DatabaseError /\ map name (travelers db') = ["Ayush shahi"].
Proof. vm_compute. split; reflexivity. Qed.

(** The callback of the module's own malformed-URL example ('?data=' in
    place of '&data='): the URL is repaired and the fields are read, but the
    audit record cannot be built from the repaired parameters, so the booking
    step raises after the traveler and the ticket were written, and both are
    rolled back. *)
Example repaired_callback_rolls_back :
  let url :=
    "http://localhost:8000/api/system/esewa/verify-and-book/"
      ++ "?booking_reference=BK80AEBE1D39&package_id=8&payment_amount=1800"
      ++ "&traveler_name=Ayush+shahi&traveler_email=ayush%40example.com"
      ++ "&traveler_phone=9861291159&traveler_address=Kathmandu"
      ++ "?data="
      ++ Crypto.b64encode (Crypto.bytes_of_string (gateway_payload "COMPLETE")) in
  get_py test_world (django_request url) demo_store
  = (BookingCreationError TypeError, demo_store,
     [VerifyPost (mkVerifyPayload "EPAYTEST" (Some "241028") (Some "1800")
                                  (Some "abc"))]).
Proof. vm_compute. reflexivity. Qed.

Lemma failed_callback_leaves_store_witness :
  is_redirect (fst (fst ticket_fault_run)) = false
  /\ snd (fst ticket_fault_run) = demo_store.
Proof.
  apply (proj1 (proj2 (failed_callback_leaves_store
           EsewaUtils.b64decode_utf8_strict int_of_str int_of_str
           ticket_fault_world (django_request (callback_url "COMPLETE" ""))
           demo_store (fst (fst ticket_fault_run)) (snd (fst ticket_fault_run))
           (snd ticket_fault_run) (run_eta ticket_fault_run)))).
  left. reflexivity.
Defined.

End EsewaV2Views.

(* ===================================================================== *)
(** * [nested_booking_serializers.py]: [NestedBookingWithEsewaSerializer] *)
(* ===================================================================== *)

Module NestedBookingSerializers.
Import PyStr Models.
Local Open Scope Z_scope.

(** A value of [DecimalField(max_digits=10, decimal_places=2)]: a whole
    number of hundredths. *)
Record Decimal : Type := mkDecimal { hundredths : Z }.

(** [int(float(d))]: the conversion to [float] keeps a decimal of this size
    on its side of every whole number, and [int] truncates toward zero. *)
Definition int_float_decimal (d : Decimal) : Z := Z.quot (hundredths d) 100.

(** The data of the serializer after field validation: the optional fields
    may be absent ([None]) and, for the texts, blank. *)
Record BookingData : Type := mkBookingData {
  traveler_id : option Z;
  traveler_name : option string;
  traveler_email : option string;
  traveler_phone : option string;
  traveler_address : option string;
  package_id : Z;
  payment_amount : Decimal }.

Inductive ValidationError : Type :=
| EitherTravelerIdOrDetails   (* "Either provide traveler_id or all traveler details ..." *)
| NotBoth                     (* "Provide either traveler_id or new traveler details, not both" *)
| PackageNotFound             (* {"package_id": "Package not found"} *)
| TravelerNotFound.           (* {"traveler_id": "Traveler not found"} *)

(** [data.get('traveler_id')] as a truth value: [None] and 0 are falsy. *)
Definition has_traveler_id (data : BookingData) : bool :=
  match traveler_id data with
  | Some z => negb (Z.eqb z 0)
  | None => false
  end.

Definition given (o : option string) : bool :=
  match o with
  | Some v => truthy v
  | None => false
  end.

Definition has_traveler_details (data : BookingData) : bool :=
  forallb given [traveler_name data; traveler_email data;
                 traveler_phone data; traveler_address data].

(** [validate(self, data)]. *)
Definition validate (db : Store) (data : BookingData)
  : ValidationError + BookingData :=
  if negb (has_traveler_id data) && negb (has_traveler_details data)
  then inl EitherTravelerIdOrDetails
  else if has_traveler_id data && has_traveler_details data
  then inl NotBoth
  else
    match get_package (package_id data) db with
    | None => inl PackageNotFound
    | Some _ =>
        if has_traveler_id data then
          match traveler_id data with
          | Some tid =>
              match List.find (fun t => Z.eqb (Models.traveler_id t) tid)
                              (travelers db) with
              | Some _ => inr data
              | None => inl TravelerNotFound
              end
          | None => inr data
          end
        else inr data
    end.

Definition optional_param (key : string) (o : option string) : dict string :=
  match o with
  | Some v => if truthy v then [(key, v)] else []
  | None => []
  end.

(** [booking_params] of [initiate_esewa_payment]: the intent as it travels
    in the success URL. *)
Definition booking_params (data : BookingData) (booking_reference : string)
  : dict string :=
  ([ ("booking_reference", booking_reference);
     ("package_id", str_of_int (package_id data));
     ("payment_amount", str_of_int (int_float_decimal (payment_amount data))) ]
   ++ (if has_traveler_id data then
         match traveler_id data with
         | Some tid => [("traveler_id", str_of_int tid)]
         | None => []
         end
       else
         optional_param "traveler_name" (traveler_name data)
         ++ optional_param "traveler_email" (traveler_email data)
         ++ optional_param "traveler_phone" (traveler_phone data)
         ++ optional_param "traveler_address" (traveler_address data)))%list.

(** [query_string = urlencode(booking_params, safe='')]. *)
Definition query_string (data : BookingData) (booking_reference : string) : string :=
  UrlLib.urlencode (booking_params data booking_reference).

(** [initiate_esewa_payment(self)] up to the payment form data:
    [booking_reference] is "BK" and ten hexadecimal digits of a fresh UUID,
    [transaction_uuid] a second fresh UUID. *)
Definition initiate_esewa_payment (esewa : EsewaUtils.EsewaPayment)
    (data : BookingData) (booking_reference transaction_uuid : string)
  : EsewaUtils.Result (dict string) :=
  let base_url := "http://localhost:8000" in
  let success_url :=
    (base_url ++ "/api/esewa/v2/success/?" ++ query_string data booking_reference)%string in
  let failure_url := (base_url ++ "/api/esewa/v2/failure/")%string in
  let amount_int := int_float_decimal (payment_amount data) in
  EsewaUtils.create_payment_request_int esewa transaction_uuid amount_int
    booking_reference amount_int success_url failure_url (Some transaction_uuid).

(** The intent on the receiving side: [request.GET] as the framework parses
    the query string, then steps 1 and 8 of the callback. *)
Definition decode (query : string) : EsewaV2Views.Decoded :=
  EsewaV2Views.decode_intent (EsewaV2Views.DjangoQueryDict (UrlLib.parse_qs query)).

(** [Decimal(s)] for a text with at most two decimals. *)
Definition decimal_of_str (s : string) : option Decimal :=
  match split_once "." s with
  | (whole, None) => option_map (fun w => mkDecimal (100 * w)) (int_of_str whole)
  | (whole, Some fraction) =>
      let negative := startswith "-" whole in
      match int_of_str (if negative then drop 1 whole else whole),
            int_of_str (take 2 (fraction ++ "00")%string) with
      | Some w, Some f =>
          if Nat.leb (String.length fraction) 2 && Z.leb 0 w && Z.leb 0 f
          then Some (mkDecimal ((if negative then (-1) else 1) * (100 * w + f)))
          else None
      | _, _ => None
      end
  end.

Definition text_of_opt (o : option string) : string :=
  match o with
  | Some v => v
  | None => EmptyString
  end.

(** The decoded parameters denote the intent they were encoded from. *)
Definition same_intent (data : BookingData) (booking_reference : string)
    (p : EsewaV2Views.BookingParams) : Prop :=
  EsewaV2Views.booking_reference p = booking_reference
  /\ (if has_traveler_id data
      then option_map Some (int_of_str (EsewaV2Views.traveler_id p))
           = Some (traveler_id data)
      else EsewaV2Views.traveler_id p = EmptyString
           /\ EsewaV2Views.traveler_name p = text_of_opt (traveler_name data)
           /\ EsewaV2Views.traveler_email p = text_of_opt (traveler_email data)
           /\ EsewaV2Views.traveler_phone p = text_of_opt (traveler_phone data)
           /\ EsewaV2Views.traveler_address p = text_of_opt (traveler_address data))
  /\ int_of_str (EsewaV2Views.package_id p) = Some (package_id data)
  /\ decimal_of_str (EsewaV2Views.payment_amount p) = Some (payment_amount data).

(** A valid intent of each variant, and an amount with a fraction. *)
Definition new_traveler_intent (amount : Decimal) : BookingData :=
  mkBookingData None (Some "Ayush shahi") (Some "ayush@example.com")
                (Some "9861291159") (Some "Kathmandu") 8 amount.

Definition store_with_traveler : Store :=
  mkStore [mkTraveler 5 "Ayush shahi" "ayush@example.com" "9861291159" "Kathmandu"]
          (packages EsewaV2Views.demo_store) [] [].

Definition existing_traveler_intent : BookingData :=
  mkBookingData (Some 5) None None None None 8 (mkDecimal 180000).

(** ** The intent through the redirect *)

Import EsewaV2Views (Accepted, Rejected, mkBookingParams).

Example decimal_of_str_examples :
  decimal_of_str "1800" = Some (mkDecimal 180000)
  /\ decimal_of_str "1800.50" = Some (mkDecimal 180050)
  /\ decimal_of_str "-0.5" = Some (mkDecimal (-50))
  /\ decimal_of_str "12.345" = None.
Proof. vm_compute. repeat split. Qed.

Lemma decimal_of_str_whole z : decimal_of_str (str_of_int z) = Some (mkDecimal (100 * z)).
Proof.
  unfold decimal_of_str.
  rewrite (split_once_none _ _ (str_of_int_no_dot z)), int_of_str_of_int.
  reflexivity.
Qed.

(** The parameters of a new traveler, decoded. *)
Lemma decode_new_traveler ref pid amt n e ph a :
  falsy pid = false -> falsy amt = false -> falsy n = false ->
  falsy e = false -> falsy ph = false -> falsy a = false ->
  decode (UrlLib.urlencode
            [("booking_reference", ref); ("package_id", pid);
             ("payment_amount", amt); ("traveler_name", n);
             ("traveler_email", e); ("traveler_phone", ph);
             ("traveler_address", a)])
  = Accepted (mkBookingParams None ref "" n e ph a pid amt).
Proof.
  intros Hpid Hamt Hn He Hph Ha.
  unfold decode, UrlLib.parse_qs. rewrite UrlLib.parse_qsl_urlencode.
  unfold EsewaV2Views.decode_intent, EsewaV2Views.missing_booking_fields.
  cbn. rewrite Hpid, Hamt, Hn, He, Hph, Ha. reflexivity.
Qed.

(** The parameters of an existing traveler, decoded. *)
Lemma decode_existing_traveler ref pid amt tid :
  falsy pid = false -> falsy amt = false ->
  decode (UrlLib.urlencode
            [("booking_reference", ref); ("package_id", pid);
             ("payment_amount", amt); ("traveler_id", tid)])
  = Rejected ["traveler_name"; "traveler_email"; "traveler_phone";
              "traveler_address"].
Proof.
  intros Hpid Hamt.
  unfold decode, UrlLib.parse_qs. rewrite UrlLib.parse_qsl_urlencode.
  unfold EsewaV2Views.decode_intent, EsewaV2Views.missing_booking_fields.
  cbn. rewrite Hpid, Hamt. reflexivity.
Qed.

Lemma valid_new_traveler db data :
  validate db data = inr data -> has_traveler_id data = false ->
  exists n e ph a,
    traveler_name data = Some n /\ traveler_email data = Some e
    /\ traveler_phone data = Some ph /\ traveler_address data = Some a
    /\ falsy n = false /\ falsy e = false /\ falsy ph = false /\ falsy a = false.
Proof.
  unfold validate. intros H Hid. rewrite Hid in H. cbn [negb andb] in H.
  destruct (has_traveler_details data) eqn:Hd; [|discriminate].
  unfold has_traveler_details in Hd. cbn [forallb] in Hd.
  repeat (apply andb_prop in Hd as [? Hd]).
  destruct (traveler_name data) as [n|]; [|discriminate].
  destruct (traveler_email data) as [e|]; [|discriminate].
  destruct (traveler_phone data) as [ph|]; [|discriminate].
  destruct (traveler_address data) as [a|]; [|discriminate].
  exists n, e, ph, a. unfold given, truthy in *.
  repeat split; try reflexivity; now apply negb_true_iff.
Qed.

Lemma booking_params_new db data ref n e ph a :
  validate db data = inr data -> has_traveler_id data = false ->
  traveler_name data = Some n -> traveler_email data = Some e ->
  traveler_phone data = Some ph -> traveler_address data = Some a ->
  falsy n = false -> falsy e = false -> falsy ph = false -> falsy a = false ->
  booking_params data ref
  = [ ("booking_reference", ref);
      ("package_id", str_of_int (package_id data));
      ("payment_amount", str_of_int (int_float_decimal (payment_amount data)));
      ("traveler_name", n); ("traveler_email", e);
      ("traveler_phone", ph); ("traveler_address", a) ].
Proof.
  intros _ Hid Hn He Hph Ha Fn Fe Fph Fa.
  unfold booking_params. rewrite Hid, Hn, He, Hph, Ha.
  unfold optional_param, truthy. rewrite Fn, Fe, Fph, Fa. reflexivity.
Qed.

(** C7, as the code has it.  For every valid intent of the new-traveler
    variant, decoding the query string produced by encoding it is accepted
    and gives back the booking reference, the four traveler fields and the
    package id, with the payment amount truncated to whole units; no optional
    field travels with an empty value; and when the amount is whole the
    decoded parameters denote the intent that was encoded. *)
Theorem new_traveler_intent_round_trip db data ref :
  validate db data = inr data -> has_traveler_id data = false ->
  decode (query_string data ref)
  = Accepted
      (mkBookingParams None ref ""
         (text_of_opt (traveler_name data)) (text_of_opt (traveler_email data))
         (text_of_opt (traveler_phone data)) (text_of_opt (traveler_address data))
         (str_of_int (package_id data))
         (str_of_int (int_float_decimal (payment_amount data))))
  /\ Forall (fun kv => fst kv = "booking_reference" \/ falsy (snd kv) = false)
            (booking_params data ref)
  /\ (hundredths (payment_amount data) mod 100 = 0 ->
      forall p, decode (query_string data ref) = Accepted p ->
                same_intent data ref p).
Proof.
  intros Hv Hid.
  destruct (valid_new_traveler _ _ Hv Hid)
    as (n & e & ph & a & Hn & He & Hph & Ha & Fn & Fe & Fph & Fa).
  pose proof (booking_params_new _ _ ref _ _ _ _ Hv Hid Hn He Hph Ha Fn Fe Fph Fa)
    as Hb.
  assert (Hd : decode (query_string data ref)
               = Accepted
                   (mkBookingParams None ref "" n e ph a
                      (str_of_int (package_id data))
                      (str_of_int (int_float_decimal (payment_amount data))))).
  { unfold query_string. rewrite Hb.
    apply decode_new_traveler; auto using str_of_int_truthy. }
  split; [|split].
  - rewrite Hd, Hn, He, Hph, Ha. reflexivity.
  - rewrite Hb.
    repeat (apply Forall_cons;
            [cbn [fst snd];
             first [left; reflexivity | right; auto using str_of_int_truthy]|]).
    apply Forall_nil.
  - intros Hw p Hp. rewrite Hd in Hp. injection Hp as <-.
    unfold same_intent. rewrite Hid, Hn, He, Hph, Ha. cbn.
    rewrite int_of_str_of_int, decimal_of_str_whole.
    repeat split. f_equal. unfold int_float_decimal.
    destruct (payment_amount data) as [h]. cbn [hundredths] in *. f_equal.
    apply Z.mod_divide in Hw; [|lia]. destruct Hw as [k ->].
    rewrite Z.quot_mul by lia. lia.
Qed.

(** C7 as stated fails: a valid new-traveler intent for 1800.50 comes back
    from the redirect as an intent for 1800. *)
Lemma fractional_amount_not_recovered :
  let data := new_traveler_intent (mkDecimal 180050) in
  validate EsewaV2Views.demo_store data = inr data
  /\ exists p, decode (query_string data "BK80AEBE1D39") = Accepted p
               /\ EsewaV2Views.payment_amount p = "1800"
               /\ ~ same_intent data "BK80AEBE1D39" p.
Proof.
  split; [reflexivity|].
  eexists. split; [vm_compute; reflexivity|]. split; [reflexivity|].
  unfold same_intent. intros (_ & _ & _ & H). vm_compute in H. discriminate.
Qed.

Lemma new_traveler_intent_round_trip_witness :
  decode (query_string (new_traveler_intent (mkDecimal 180000)) "BK80AEBE1D39")
  = Accepted
      (mkBookingParams None "BK80AEBE1D39" "" "Ayush shahi" "ayush@example.com"
                       "9861291159" "Kathmandu" (str_of_int 8)
                       (str_of_int (int_float_decimal (mkDecimal 180000))))
  /\ same_intent (new_traveler_intent (mkDecimal 180000)) "BK80AEBE1D39"
       (mkBookingParams None "BK80AEBE1D39" "" "Ayush shahi" "ayush@example.com"
                        "9861291159" "Kathmandu" (str_of_int 8)
                        (str_of_int (int_float_decimal (mkDecimal 180000)))).
Proof.
  pose proof (new_traveler_intent_round_trip EsewaV2Views.demo_store
                (new_traveler_intent (mkDecimal 180000)) "BK80AEBE1D39"
                eq_refl eq_refl) as (Hd & _ & Hs).
  split; [exact Hd|].
  apply Hs; [reflexivity | exact Hd].
Defined.

(** C6: what the callback does with the intent of an existing traveler.
    [validate] accepts the intent (a traveler id and no new-traveler
    details) and [booking_params] sends the id alone, but step 8 of the
    callback asks for the four new-traveler fields whatever the id: every
    such intent is rejected, naming those four fields.  The scenario of a
    request with a name and an email only is rejected with the phone and the
    address named, as specified; and a request with both an id and the four
    fields is accepted. *)
Theorem existing_traveler_intent_rejected :
  (forall db data ref,
     validate db data = inr data -> has_traveler_id data = true ->
     decode (query_string data ref)
     = Rejected ["traveler_name"; "traveler_email"; "traveler_phone";
                 "traveler_address"])
  /\ decode "booking_reference=BK1&package_id=8&payment_amount=1800&traveler_name=Ayush+shahi&traveler_email=ayush%40example.com"
     = Rejected ["traveler_phone"; "traveler_address"]
  /\ decode "booking_reference=BK1&package_id=8&payment_amount=1800&traveler_id=5&traveler_name=Ayush+shahi&traveler_email=ayush%40example.com&traveler_phone=9861291159&traveler_address=Kathmandu"
     = Accepted (mkBookingParams None "BK1" "5" "Ayush shahi" "ayush@example.com"
                                 "9861291159" "Kathmandu" "8" "1800").
Proof.
  split; [|split; reflexivity].
  intros db data ref Hv Hid. unfold query_string, booking_params.
  rewrite Hid. unfold has_traveler_id in Hid.
  destruct (traveler_id data) as [tid|]; [|discriminate].
  apply decode_existing_traveler; apply str_of_int_truthy.
Qed.

(** The intent of the existing traveler number 5, valid for the serializer,
    encoded by it, and rejected by the callback. *)
Lemma existing_traveler_intent_rejected_witness :
  validate store_with_traveler existing_traveler_intent = inr existing_traveler_intent
  /\ query_string existing_traveler_intent "BK80AEBE1D39"
     = "booking_reference=BK80AEBE1D39&package_id=8&payment_amount=1800&traveler_id=5"
  /\ decode (query_string existing_traveler_intent "BK80AEBE1D39")
     = Rejected ["traveler_name"; "traveler_email"; "traveler_phone";
                 "traveler_address"].
Proof.
  split; [reflexivity|]. split; [reflexivity|].
  apply (proj1 existing_traveler_intent_rejected store_with_traveler
           existing_traveler_intent "BK80AEBE1D39"); reflexivity.
Defined.

(** The same intent through the whole callback, the gateway having
    confirmed the payment: the booking is refused for missing fields. *)
Example existing_traveler_callback_refused :
  fst (fst (EsewaV2Views.get_py EsewaV2Views.test_world
              (EsewaV2Views.django_request
                 ("http://localhost:8000/api/esewa/v2/success/?"
                    ++ query_string existing_traveler_intent "BK80AEBE1D39"
                    ++ "&data="
                    ++ Crypto.b64encode
                         (Crypto.bytes_of_string
                            (EsewaV2Views.gateway_payload "COMPLETE"))))
              store_with_traveler))
  = EsewaV2Views.MissingBookingInformation
      ["traveler_name"; "traveler_email"; "traveler_phone"; "traveler_address"]
      ["booking_reference"; "package_id"; "payment_amount"; "traveler_id"; "data"].
Proof. vm_compute. reflexivity. Qed.


End NestedBookingSerializers.

(* ===================================================================== *)
(** * [url_utils.py], continued: reading the query string *)
(* ===================================================================== *)

Module UrlQueryUtils.
Import PyStr UrlUtils.

(** [get_query_string_from_url(url)] for a [str]: [fixed_url.split('?', 1)[1]]
    is the part after the first '?', which exists when '?' is in the URL. *)
Definition get_query_string_from_url (url : string) : string :=
  if falsy url || negb (contains qmark url) then EmptyString
  else
    let fixed_url := fix_url_str url in
    if contains qmark fixed_url then
      match split_once qmark fixed_url with
      | (_, Some query) => query
      | (_, None) => EmptyString
      end
    else EmptyString.

(** [parse_esewa_query_params(query_string)]: the first value of each key
    of [parse_qs], key and value passed through [unquote_plus] once more. *)
Definition parse_esewa_query_params (query_string : string) : dict string :=
  if falsy query_string then []
  else
    fold_left
      (fun result kv =>
         let decoded_key := UrlLib.unquote_plus (fst kv) in
         let decoded_value :=
           match snd kv with
           | v :: _ => UrlLib.unquote_plus v
           | [] => EmptyString
           end in
         set decoded_key decoded_value result)
      (UrlLib.parse_qs query_string) [].

(** A dictionary whose texts hold neither '%' nor '+': the second decoding
    leaves them alone. *)
Definition plain (s : string) : bool :=
  Nat.eqb (count "%" s) 0 && Nat.eqb (count "+" s) 0.

(** A dictionary whose keys and values a caller has percent-encoded before
    handing it to [urlencode]. *)
Definition encoded_once (d : dict string) : dict string :=
  map (fun kv => (UrlLib.quote_plus (fst kv), UrlLib.quote_plus (snd kv))) d.

(** ** Facts *)

Example get_query_string_examples :
  get_query_string_from_url "http://example.com/path?param1=val1&param2=val2"
  = "param1=val1&param2=val2"
  /\ get_query_string_from_url "http://example.com/path" = ""
  /\ get_query_string_from_url "/v/?a=1?data=B?x" = "a=1&data=B&x".
Proof. repeat split. Qed.

Lemma normalize_first_q base rest :
  count qmark base = 0 ->
  normalize (base ++ String qmark rest) = base ++ String qmark (amp_all rest).
Proof.
  induction base as [|a base IH]; cbn [count append normalize].
  - intros _. reflexivity.
  - destruct (Ascii.eqb a qmark); [discriminate|].
    intros H. now rewrite IH.
Qed.

Lemma split_once_cases c s :
  match split_once c s with
  | (h, Some r) => s = h ++ String c r /\ count c h = 0
  | (h, None) => s = h /\ count c s = 0
  end.
Proof.
  induction s as [|a s IH]; cbn [split_once count]; [auto|].
  destruct (Ascii.eqb a c) eqn:E.
  - apply Ascii.eqb_eq in E. subst. auto.
  - destruct (split_once c s) as [h [r|]]; cbn [append count]; rewrite ?E.
    + destruct IH as [-> Hc]. auto.
    + destruct IH as [-> Hc]. auto.
Qed.

Lemma contains_count c s : contains c s = negb (Nat.eqb (count c s) 0).
Proof. reflexivity. Qed.

Lemma amp_all_app a b : amp_all (a ++ b) = amp_all a ++ amp_all b.
Proof.
  induction a as [|x a IH]; [reflexivity|].
  cbn [append amp_all]. now rewrite IH.
Qed.

(** X2.  On a URL whose first '?' comes after [base], the normalizer keeps
    [base] and that '?', and turns every '?' of what follows into '&'; in
    particular the gateway's [...?query?data=...] becomes [...?query&data=...]. *)
Theorem fix_url_str_after_first_q base rest :
  count qmark base = 0 ->
  fix_url_str (base ++ String qmark rest) = base ++ String qmark (amp_all rest)
  /\ forall query data,
       rest = query ++ String qmark data ->
       count qmark query = 0 -> count qmark data = 0 ->
       fix_url_str (base ++ String qmark rest)
       = base ++ String qmark (query ++ String amp data).
Proof.
  intros Hb. rewrite fix_url_str_normalize, normalize_first_q by assumption.
  split; [reflexivity|].
  intros query data -> Hq Hd.
  rewrite amp_all_app. cbn [amp_all]. rewrite Ascii.eqb_refl.
  now rewrite !amp_all_no_q by assumption.
Qed.

Lemma fix_url_str_after_first_q_witness :
  fix_url_str ("/verify-and-book/" ++ String qmark "p=8?data=BASE64")
  = "/verify-and-book/" ++ String qmark ("p=8" ++ String amp "data=BASE64").
Proof.
  apply (proj2 (fix_url_str_after_first_q "/verify-and-book/" "p=8?data=BASE64"
                  eq_refl) "p=8" "data=BASE64"); reflexivity.
Defined.

Lemma get_query_string_amp_all url :
  get_query_string_from_url url
  = match split_once qmark url with
    | (_, Some rest) => amp_all rest
    | (_, None) => EmptyString
    end.
Proof.
  unfold get_query_string_from_url.
  pose proof (split_once_cases qmark url) as Hs.
  destruct (split_once qmark url) as [h [r|]].
  - destruct Hs as [-> Hh].
    replace (falsy (h ++ String qmark r)) with false by (now destruct h).
    rewrite !contains_count, count_app. cbn [count]. rewrite Ascii.eqb_refl.
    replace (Nat.eqb (count qmark h + (1 + count qmark r)) 0) with false
      by (symmetry; apply Nat.eqb_neq; lia).
    cbn [negb orb].
    rewrite fix_url_str_normalize, normalize_first_q by assumption.
    rewrite count_app. cbn [count]. rewrite Ascii.eqb_refl.
    replace (Nat.eqb (count qmark h + (1 + count qmark (amp_all r))) 0) with false
      by (symmetry; apply Nat.eqb_neq; lia).
    cbn [negb]. now rewrite split_once_first.
  - destruct Hs as [_ Hc]. rewrite contains_count, Hc. cbn.
    now rewrite orb_true_r.
Qed.

(** X1.  [get_query_string_from_url] gives what follows the first '?' of the
    URL with every further '?' turned into '&' (nothing when there is no
    '?'); the query string it returns holds no '?'. *)
Theorem get_query_string_from_url_spec url :
  get_query_string_from_url url
  = match split_once qmark url with
    | (_, Some rest) => amp_all rest
    | (_, None) => EmptyString
    end
  /\ count qmark (get_query_string_from_url url) = 0.
Proof.
  split; [apply get_query_string_amp_all|]. rewrite get_query_string_amp_all.
  destruct (split_once qmark url) as [h [r|]]; [apply count_amp_all | reflexivity].
Qed.

Lemma add_value_fresh k v (acc : dict (list string)) :
  ~ In k (keys acc) -> UrlLib.add_value k v acc = (acc ++ [(k, [v])])%list.
Proof.
  induction acc as [|[k' l] acc IH]; cbn [UrlLib.add_value keys map In app fst];
    [reflexivity|].
  intros H. destruct (String.eqb_spec k k') as [->|Hk]; [tauto|].
  rewrite IH; [reflexivity|]. unfold keys. tauto.
Qed.

Lemma set_fresh {V : Type} k (v : V) (acc : dict V) :
  ~ In k (keys acc) -> set k v acc = (acc ++ [(k, v)])%list.
Proof.
  induction acc as [|[k' l] acc IH]; cbn [set keys map In app fst]; [reflexivity|].
  intros H. destruct (String.eqb_spec k k') as [->|Hk]; [tauto|].
  rewrite IH; [reflexivity|]. unfold keys. tauto.
Qed.

(** Grouping pairs with distinct names gives one single-valued entry each. *)
Lemma group_distinct (d : dict string) (acc : dict (list string)) :
  NoDup (keys acc ++ keys d) ->
  fold_left (fun r nv => UrlLib.add_value (fst nv) (snd nv) r) d acc
  = (acc ++ map (fun kv => (fst kv, [snd kv])) d)%list.
Proof.
  revert acc. induction d as [|[k v] d IH]; intros acc H; cbn [fold_left map fst snd].
  - now rewrite app_nil_r.
  - rewrite add_value_fresh.
    + rewrite IH.
      * now rewrite <- app_assoc.
      * unfold keys in *. rewrite map_app. cbn [map fst]. rewrite <- app_assoc. exact H.
    + apply NoDup_remove_2 in H. intros Hin. apply H. apply in_or_app. now left.
Qed.

Lemma parse_qs_urlencode (d : dict string) :
  NoDup (keys d) ->
  UrlLib.parse_qs (UrlLib.urlencode d) = map (fun kv => (fst kv, [snd kv])) d.
Proof.
  intros H. unfold UrlLib.parse_qs. rewrite UrlLib.parse_qsl_urlencode.
  now rewrite group_distinct.
Qed.

Lemma urlencode_truthy (d : dict string) :
  d <> [] -> falsy (UrlLib.urlencode d) = false.
Proof.
  unfold UrlLib.urlencode. fold UrlLib.encoded_pair.
  destruct d as [|kv [|kv' d]]; [congruence| |]; intros _; cbn [map join].
  - apply UrlLib.encoded_pair_truthy.
  - pose proof (UrlLib.encoded_pair_truthy kv) as F.
    destruct (UrlLib.encoded_pair kv); [discriminate | reflexivity].
Qed.

Lemma unquote_plus_plain s : plain s = true -> UrlLib.unquote_plus s = s.
Proof.
  unfold plain. induction s as [|a s IH]; [reflexivity|].
  cbn [count UrlLib.unquote_plus].
  destruct (Ascii.eqb a "%"); [discriminate|].
  destruct (Ascii.eqb a "+"); [rewrite andb_false_r; discriminate|].
  intros H. now rewrite IH.
Qed.

Lemma decode_distinct (d : dict string) (acc : dict string) :
  NoDup (keys acc ++ map (fun kv => UrlLib.unquote_plus (fst kv)) d) ->
  fold_left
    (fun result (kv : string * list string) =>
       set (UrlLib.unquote_plus (fst kv))
           match snd kv with
           | v :: _ => UrlLib.unquote_plus v
           | [] => EmptyString
           end result)
    (map (fun kv => (fst kv, [snd kv])) d) acc
  = (acc ++ map (fun kv => (UrlLib.unquote_plus (fst kv),
                            UrlLib.unquote_plus (snd kv))) d)%list.
Proof.
  revert acc. induction d as [|[k v] d IH]; intros acc H; cbn [fold_left map fst snd].
  - now rewrite app_nil_r.
  - rewrite set_fresh.
    + rewrite IH.
      * now rewrite <- app_assoc.
      * unfold keys in *. rewrite map_app. cbn [map fst]. rewrite <- app_assoc. exact H.
    + apply NoDup_remove_2 in H. intros Hin. apply H. apply in_or_app. now left.
Qed.

Lemma keys_encoded_once (d : dict string) :
  map (fun kv => UrlLib.unquote_plus (fst kv)) (encoded_once d) = keys d.
Proof.
  unfold encoded_once, keys. rewrite map_map. apply map_ext. intros kv.
  cbn [fst]. apply UrlLib.unquote_quote_plus.
Qed.

Lemma NoDup_encoded_once (d : dict string) :
  NoDup (keys d) -> NoDup (keys (encoded_once d)).
Proof.
  intros H. apply (NoDup_map_inv UrlLib.unquote_plus).
  unfold keys at 1. rewrite map_map.
  change (NoDup (map (fun kv => UrlLib.unquote_plus (fst kv)) (encoded_once d))).
  now rewrite keys_encoded_once.
Qed.

(** X3.  [parse_esewa_query_params] decodes once more than [parse_qs]
    does.  A dictionary (with distinct keys) whose keys and values were
    percent-encoded before [urlencode] encoded them again comes back decoded,
    in order; and a dictionary (with distinct keys) that holds neither '%' nor
    '+' in its keys and values, encoded by [urlencode] alone, comes back as it
    was. *)
Theorem parse_esewa_query_params_urlencode (d : dict string) :
  NoDup (keys d) ->
  parse_esewa_query_params (UrlLib.urlencode (encoded_once d)) = d
  /\ (forallb (fun kv => plain (fst kv) && plain (snd kv)) d = true ->
      parse_esewa_query_params (UrlLib.urlencode d) = d).
Proof.
  intros Hk.
  assert (H : forall e : dict string,
             NoDup (keys e) ->
             NoDup (map (fun kv => UrlLib.unquote_plus (fst kv)) e) ->
             parse_esewa_query_params (UrlLib.urlencode e)
             = map (fun kv => (UrlLib.unquote_plus (fst kv),
                               UrlLib.unquote_plus (snd kv))) e).
  { intros e He Hd. destruct e as [|kv e'] eqn:E; [reflexivity|]. rewrite <- E in *.
    unfold parse_esewa_query_params.
    rewrite urlencode_truthy by (rewrite E; discriminate).
    rewrite parse_qs_urlencode by assumption.
    now rewrite decode_distinct. }
  split.
  - rewrite H.
    + unfold encoded_once. rewrite map_map. cbn [fst snd].
      rewrite <- (map_id d) at 2. apply map_ext. intros [k v]. cbn [fst snd].
      now rewrite !UrlLib.unquote_quote_plus.
    + now apply NoDup_encoded_once.
    + now rewrite keys_encoded_once.
  - intros Hp.
    assert (Hm : map (fun kv : string * string =>
                        (UrlLib.unquote_plus (fst kv), UrlLib.unquote_plus (snd kv))) d
                 = d).
    { clear - Hp. induction d as [|[k v] d IH]; [reflexivity|].
      cbn [forallb fst snd] in Hp. apply andb_prop in Hp as [Hkv Hp].
      apply andb_prop in Hkv as [Hk Hv].
      cbn [map fst snd]. now rewrite !unquote_plus_plain, IH. }
    rewrite H, Hm; [reflexivity | assumption|].
    replace (map (fun kv : string * string => UrlLib.unquote_plus (fst kv)) d)
      with (keys d); [assumption|].
    unfold keys. rewrite <- Hm at 1. rewrite map_map. reflexivity.
Qed.

(** A note and a phone number, percent-encoded before [urlencode]: they come
    back decoded, so the '%25' and the '%2B' meant to be kept are gone. *)
Lemma parse_esewa_query_params_urlencode_witness :
  parse_esewa_query_params
    (UrlLib.urlencode [("note", "50%25+off"); ("phone", "%2B977")])
  = [("note", "50% off"); ("phone", "+977")]
  /\ parse_esewa_query_params
       (UrlLib.urlencode [("package_id", "8"); ("traveler_name", "Ayush shahi")])
     = [("package_id", "8"); ("traveler_name", "Ayush shahi")].
Proof.
  split.
  - apply (proj1 (parse_esewa_query_params_urlencode
                    [("note", "50% off"); ("phone", "+977")]
                    ltac:(repeat constructor; cbn; intuition discriminate))).
  - apply (proj2 (parse_esewa_query_params_urlencode
                    [("package_id", "8"); ("traveler_name", "Ayush shahi")]
                    ltac:(repeat constructor; cbn; intuition discriminate))).
    reflexivity.
Defined.

Lemma split_on_nonempty c s : split_on c s <> [].
Proof.
  destruct s as [|a s]; cbn [split_on]; [discriminate|].
  destruct (Ascii.eqb a c); [discriminate|].
  destruct (split_on c s); discriminate.
Qed.

Lemma split_on_app c a b :
  split_on c (a ++ String c b) = (split_on c a ++ split_on c b)%list.
Proof.
  induction a as [|x a IH]; cbn [append split_on].
  - now rewrite Ascii.eqb_refl.
  - destruct (Ascii.eqb x c); [now rewrite IH|].
    rewrite IH. pose proof (split_on_nonempty c a) as Hn.
    destruct (split_on c a); [congruence | reflexivity].
Qed.

Lemma parse_qsl_flat qs :
  UrlLib.parse_qsl qs
  = flat_map
      (fun name_value =>
         if falsy name_value then []
         else
           let (name, value) := split_once "=" name_value in
           [(UrlLib.unquote_plus name,
             UrlLib.unquote_plus
               (match value with Some v => v | None => EmptyString end))])
      (split_on "&" qs).
Proof. unfold UrlLib.parse_qsl. destruct qs; reflexivity. Qed.

(** Parsing distributes over the '&' that joins two query strings. *)
Lemma parse_qsl_app a b :
  UrlLib.parse_qsl (a ++ String "&" b)
  = (UrlLib.parse_qsl a ++ UrlLib.parse_qsl b)%list.
Proof. now rewrite !parse_qsl_flat, split_on_app, flat_map_app. Qed.

Lemma parse_qsl_pair k v :
  count "=" k = 0 -> count "&" k = 0 -> count "&" v = 0 ->
  UrlLib.parse_qsl (k ++ String "=" v)
  = [(UrlLib.unquote_plus k, UrlLib.unquote_plus v)].
Proof.
  intros Hk Hka Hv. rewrite parse_qsl_flat, split_on_none.
  - cbn [flat_map]. replace (falsy (k ++ String "=" v)) with false by (now destruct k).
    now rewrite split_once_first.
  - rewrite count_app. cbn [count]. cbn [Ascii.eqb Bool.eqb]. lia.
Qed.

Lemma count_q_quote_char a rest :
  count qmark (UrlLib.quote_char a ++ rest) = count qmark rest
  /\ count "#" (UrlLib.quote_char a ++ rest) = count "#" rest.
Proof. destruct a as [[] [] [] [] [] [] [] []]; split; reflexivity. Qed.

Lemma count_q_quote_plus s :
  count qmark (UrlLib.quote_plus s) = 0 /\ count "#" (UrlLib.quote_plus s) = 0.
Proof.
  induction s as [|a s [IH1 IH2]]; [split; reflexivity|].
  cbn [UrlLib.quote_plus]. destruct (count_q_quote_char a (UrlLib.quote_plus s)) as [-> ->].
  now split.
Qed.

(** An encoded dictionary holds neither '?' nor '#'. *)
Lemma count_q_urlencode (d : dict string) :
  count qmark (UrlLib.urlencode d) = 0 /\ count "#" (UrlLib.urlencode d) = 0.
Proof.
  unfold UrlLib.urlencode.
  assert (Hp : forall kv : string * string,
             count qmark (UrlLib.quote_plus (fst kv) ++ "=" ++ UrlLib.quote_plus (snd kv)) = 0
             /\ count "#" (UrlLib.quote_plus (fst kv) ++ "=" ++ UrlLib.quote_plus (snd kv)) = 0).
  { intros kv. rewrite !count_app.
    destruct (count_q_quote_plus (fst kv)) as [-> ->].
    destruct (count_q_quote_plus (snd kv)) as [-> ->]. split; reflexivity. }
  induction d as [|kv d [IH1 IH2]]; [split; reflexivity|].
  destruct d as [|kv' d]; cbn [map join]; [apply Hp|].
  cbn [map join] in IH1, IH2.
  rewrite (count_app qmark), (count_app "#"). destruct (Hp kv) as [-> ->].
  rewrite (count_app qmark), (count_app "#"), IH1, IH2. split; reflexivity.
Qed.

(** X4.  The callback URL as the gateway builds it, with the [data]
    parameter appended after a second '?' or, well-formed, after an '&':
    [get_query_string_from_url] followed by [parse_esewa_query_params] gives
    in both cases the parameters that were encoded, then [data] (keys
    distinct; no '%' or '+' in the keys and values, no '?' in the part before
    the query, no '?' or '&' in the data). *)
Theorem parse_callback_url base (d : dict string) data sep :
  sep = qmark \/ sep = amp ->
  count qmark base = 0 ->
  NoDup (keys d ++ ["data"]) ->
  forallb (fun kv => plain (fst kv) && plain (snd kv)) d = true ->
  plain data = true -> count qmark data = 0 -> count amp data = 0 ->
  parse_esewa_query_params
    (get_query_string_from_url
       (base ++ String qmark (UrlLib.urlencode d ++ String sep ("data=" ++ data))))
  = (d ++ [("data", data)])%list.
Proof.
  intros Hsep Hb Hnd Hp Hpd Hqd Had.
  rewrite get_query_string_amp_all.
  rewrite split_once_first by assumption.
  rewrite amp_all_app. cbn [amp_all].
  replace (if Ascii.eqb sep qmark then amp else sep) with amp
    by (destruct Hsep; subst; reflexivity).
  rewrite (amp_all_no_q (UrlLib.urlencode d)) by apply count_q_urlencode.
  rewrite (amp_all_no_q ("data=" ++ data)) by (cbn; assumption).
  unfold parse_esewa_query_params.
  replace (falsy (UrlLib.urlencode d ++ String amp ("data=" ++ data))) with false
    by (now destruct (UrlLib.urlencode d)).
  unfold UrlLib.parse_qs.
  change amp with "&"%char. rewrite parse_qsl_app, UrlLib.parse_qsl_urlencode.
  change ("data=" ++ data) with ("data" ++ String "=" data).
  rewrite parse_qsl_pair by (assumption || reflexivity).
  rewrite (unquote_plus_plain data) by assumption. cbn [UrlLib.unquote_plus Ascii.eqb Bool.eqb].
  change (UrlLib.unquote_plus "data") with "data".
  assert (Hk : keys (d ++ [("data", data)])%list = (keys d ++ ["data"])%list)
    by (unfold keys; now rewrite map_app).
  rewrite (group_distinct (d ++ [("data", data)])%list [])
    by (cbn [keys map app]; fold (keys (d ++ [("data", data)])%list); now rewrite Hk).
  cbn [app]. rewrite (decode_distinct (d ++ [("data", data)])%list []).
  - cbn [app]. rewrite map_app. cbn [map fst snd].
    rewrite (unquote_plus_plain data) by assumption.
    change (UrlLib.unquote_plus "data") with "data".
    f_equal. clear - Hp. induction d as [|[k v] d IH]; [reflexivity|].
    cbn [forallb fst snd] in Hp. apply andb_prop in Hp as [Hkv Hp].
    apply andb_prop in Hkv as [Hk Hv].
    cbn [map fst snd]. now rewrite !unquote_plus_plain, IH.
  - cbn [keys map app]. rewrite map_app. cbn [map fst].
    change (UrlLib.unquote_plus "data") with "data".
    replace (map (fun kv : string * string => UrlLib.unquote_plus (fst kv)) d)
      with (keys d); [exact Hnd|].
    clear - Hp. unfold keys. induction d as [|[k v] d IH]; [reflexivity|].
    cbn [forallb fst snd] in Hp. apply andb_prop in Hp as [Hkv Hp].
    apply andb_prop in Hkv as [Hk Hv].
    cbn [map fst]. now rewrite unquote_plus_plain, <- IH.
Qed.

Lemma parse_callback_url_witness :
  parse_esewa_query_params
    (get_query_string_from_url
       ("http://localhost:8000/api/system/esewa/verify-and-book/"
          ++ String qmark
               (UrlLib.urlencode [("booking_reference", "BK80AEBE1D39");
                                  ("package_id", "8");
                                  ("traveler_name", "Ayush shahi")]
                  ++ String qmark ("data=" ++ "dHJhbnNhY3Rpb25fY29kZT0wMDA3WU1N"))))
  = [("booking_reference", "BK80AEBE1D39"); ("package_id", "8");
     ("traveler_name", "Ayush shahi");
     ("data", "dHJhbnNhY3Rpb25fY29kZT0wMDA3WU1N")].
Proof.
  apply (parse_callback_url
           "http://localhost:8000/api/system/esewa/verify-and-book/"
           [("booking_reference", "BK80AEBE1D39"); ("package_id", "8");
            ("traveler_name", "Ayush shahi")]
           "dHJhbnNhY3Rpb25fY29kZT0wMDA3WU1N" qmark);
    try reflexivity.
  - left. reflexivity.
  - repeat constructor; cbn; intuition discriminate.
Defined.

End UrlQueryUtils.

(* ===================================================================== *)
(** * [esewa_utils.py], continued: which checks of the builder can fail *)
(* ===================================================================== *)

Module EsewaRequestChecks.
Import PyStr EsewaUtils.

(** A one-byte character that [str.strip] keeps and that starts no
    multi-byte white space. *)
Definition visible (a : ascii) : bool :=
  negb (ascii_space a) && Nat.ltb (nat_of_ascii a) 194.

(** The required fields that [create_payment_request] can find empty: the
    two texts it takes from its caller and from the settings. *)
Definition empty_fields (self : EsewaPayment) (transaction_uuid : string)
  : list string :=
  ((if blank transaction_uuid then ["transaction_uuid"] else [])
   ++ (if blank (merchant_id self) then ["product_code"] else []))%list.

(** The payload the gateway sends in [data], before base64: the pairs joined
    as [key=value] with '&' between them. *)
Definition payload_text (d : dict string) : string :=
  join "&" (map (fun kv => fst kv ++ String "=" (snd kv)) d).

Definition payload_pair (kv : string * string) : string :=
  fst kv ++ String "=" (snd kv).

(** A key holds neither '=' nor '&', a value no '&'. *)
Definition payload_item (kv : string * string) : Prop :=
  count "=" (fst kv) = 0 /\ count "&" (fst kv) = 0 /\ count "&" (snd kv) = 0.

(** The [data] parameter that carries a payload. *)
Definition encoded_payload (d : dict string) : string :=
  Crypto.b64encode (Crypto.bytes_of_string (payload_text d)).

(** ** Facts *)

Lemma blank_visible a s : visible a = true -> blank (String a s) = false.
Proof.
  unfold visible. intros H. apply andb_prop in H as [Hs Hn].
  apply negb_true_iff in Hs. apply Nat.ltb_lt in Hn.
  cbn [blank]. rewrite Hs.
  destruct s as [|b s]; [reflexivity|].
  replace (two_byte_space a b) with false
    by (unfold two_byte_space; destruct (Nat.eqb_spec (nat_of_ascii a) 194);
        [lia | reflexivity]).
  destruct s as [|c s]; [reflexivity|].
  replace (three_byte_space a b c) with false; [reflexivity|].
  unfold three_byte_space.
  destruct (Nat.eqb_spec (nat_of_ascii a) 225); [lia|].
  destruct (Nat.eqb_spec (nat_of_ascii a) 226); [lia|].
  destruct (Nat.eqb_spec (nat_of_ascii a) 227); [lia|].
  reflexivity.
Qed.

Lemma blank_str_of_int z : blank (str_of_int z) = false.
Proof.
  unfold str_of_int.
  destruct (Z.to_int z) as [d|d]; cbn [NilZero.string_of_int NilZero.string_of_uint].
  - destruct d; cbn [NilEmpty.string_of_uint]; apply blank_visible; reflexivity.
  - apply blank_visible. reflexivity.
Qed.

Lemma blank_http s : startswith "http" s = true -> blank s = false.
Proof.
  unfold startswith. destruct s as [|a s]; [discriminate|].
  cbn [String.prefix]. destruct (ascii_dec "h" a) as [<-|]; [|discriminate].
  intros _. apply blank_visible. reflexivity.
Qed.

Lemma startswith_truthy s : startswith "http" s = true -> falsy s = false.
Proof. destruct s; [discriminate | reflexivity]. Qed.

Lemma visible_b64_char i : visible (Crypto.b64_char i) = true.
Proof.
  unfold Crypto.b64_char. generalize (Z.to_nat i). intros n.
  do 64 (destruct n as [|n]; [reflexivity|]). reflexivity.
Qed.

Lemma blank_b64encode b : b <> [] -> blank (Crypto.b64encode b) = false.
Proof.
  destruct b as [|x [|y [|z rest]]]; [congruence| | |]; intros _;
    cbn [Crypto.b64encode]; apply blank_visible, visible_b64_char.
Qed.

Lemma length_compress h block :
  List.length h = 8 -> List.length (Crypto.compress h block) = 8.
Proof.
  intros H. unfold Crypto.compress.
  rewrite length_map, length_combine, H. reflexivity.
Qed.

Lemma length_fold_compress blocks h :
  List.length h = 8 -> List.length (fold_left Crypto.compress blocks h) = 8.
Proof.
  revert h. induction blocks as [|b blocks IH]; intros h H; [assumption|].
  cbn [fold_left]. apply IH, length_compress, H.
Qed.

(** A digest is never empty. *)
Lemma sha256_nonempty msg : Crypto.sha256 msg <> [].
Proof.
  unfold Crypto.sha256.
  pose proof (length_fold_compress
                (Crypto.chunks (List.length (Crypto.pad msg)) 64 (Crypto.pad msg))
                Crypto.initial_hash eq_refl) as H.
  destruct (fold_left _ _ _) as [|x l]; [discriminate|].
  cbn [flat_map Crypto.be_bytes app]. discriminate.
Qed.

Lemma blank_generate_signature self message :
  blank (generate_signature self message) = false.
Proof.
  unfold generate_signature. apply blank_b64encode.
  unfold Crypto.hmac_sha256. apply sha256_nonempty.
Qed.

Section Outcome.

Variable Number : Type.
Variable int_float : Number -> option Z.

(** The builder without the checks that cannot fail. *)
Lemma create_payment_request_normal_form self uuid4 amount pc total s f tu :
  create_payment_request Number int_float self uuid4 amount pc total s f tu
  = let u := match tu with None => uuid4 | Some u => u end in
    match int_float amount, int_float total with
    | Some a, Some _ =>
        if negb (startswith "http" s) then Raise (InvalidSuccessUrl s)
        else if negb (startswith "http" f) then Raise (InvalidFailureUrl f)
        else
          match empty_fields self u with
          | [] => Return (built_request self u a s f)
          | _ :: _ => Raise (EmptyRequiredFields (empty_fields self u))
          end
    | _, _ => Raise ConversionError
    end.
Proof.
  unfold create_payment_request. cbv zeta.
  destruct (int_float amount) as [a|]; step_result; [|reflexivity].
  destruct (int_float total) as [t|]; step_result; [|reflexivity].
  rewrite !fixed_total.
  destruct (startswith "http" s) eqn:Hs.
  2:{ rewrite orb_true_r. reflexivity. }
  rewrite (startswith_truthy _ Hs). cbn [negb orb].
  destruct (startswith "http" f) eqn:Hf.
  2:{ rewrite orb_true_r. reflexivity. }
  rewrite (startswith_truthy _ Hf). cbn [negb orb].
  set (sig := generate_signature _ _).
  assert (Hsig : blank sig = false) by apply blank_generate_signature.
  cbn [required_fields filter lookup String.eqb Ascii.eqb Bool.eqb List.length
       Nat.eqb negb].
  rewrite !blank_str_of_int, (blank_http _ Hs), (blank_http _ Hf), Hsig.
  unfold empty_fields, built_request.
  rewrite int_of_str_of_int. step_result.
  replace (a + 0 + 0 + 0)%Z with a by lia. rewrite Z.eqb_refl.
  fold sig.
  destruct (blank (match tu with None => uuid4 | Some u => u end));
    destruct (blank (merchant_id self)); reflexivity.
Qed.

(** X5.  Two of the builder's final validations can never fail: it never
    raises for a missing required field nor for a wrong total; and the only
    required fields it can find empty are the transaction UUID and the
    product code, that is the configured merchant id. *)
Theorem create_payment_request_dead_checks self uuid4 amount pc total s f tu :
  (forall l, create_payment_request Number int_float self uuid4 amount pc total s f tu
             <> Raise (MissingRequiredFields l))
  /\ (forall expected got,
        create_payment_request Number int_float self uuid4 amount pc total s f tu
        <> Raise (InvalidTotalAmount expected got))
  /\ (forall l,
        create_payment_request Number int_float self uuid4 amount pc total s f tu
        = Raise (EmptyRequiredFields l) ->
        l = empty_fields self (match tu with None => uuid4 | Some u => u end)
        /\ incl l ["transaction_uuid"; "product_code"]).
Proof.
  rewrite create_payment_request_normal_form. cbv zeta.
  set (u := match tu with None => uuid4 | Some u => u end).
  assert (Hi : incl (empty_fields self u) ["transaction_uuid"; "product_code"]).
  { unfold empty_fields.
    destruct (blank u); destruct (blank (merchant_id self));
      intros x Hx; cbn in *; tauto. }
  destruct (int_float amount) as [a|]; [|repeat split; intros; discriminate].
  destruct (int_float total) as [t|]; [|repeat split; intros; discriminate].
  destruct (negb (startswith "http" s)); [repeat split; intros; discriminate|].
  destruct (negb (startswith "http" f)); [repeat split; intros; discriminate|].
  destruct (empty_fields self u) as [|x l'] eqn:E.
  - repeat split; intros; discriminate.
  - split; [discriminate|]. split; [discriminate|].
    intros l [= <-]. split; [reflexivity | assumption].
Qed.

(** X6.  The builder returns exactly when both amounts convert, both URLs
    start with "http", and neither the transaction UUID nor the merchant id
    is blank; what it returns is then the request built from the truncated
    amount. *)
Theorem create_payment_request_returns_iff self uuid4 amount pc total s f tu pd :
  create_payment_request Number int_float self uuid4 amount pc total s f tu = Return pd
  <-> exists a t,
        int_float amount = Some a /\ int_float total = Some t
        /\ startswith "http" s = true /\ startswith "http" f = true
        /\ blank (match tu with None => uuid4 | Some u => u end) = false
        /\ blank (merchant_id self) = false
        /\ pd = built_request self (match tu with None => uuid4 | Some u => u end) a s f.
Proof.
  rewrite create_payment_request_normal_form. cbv zeta. unfold empty_fields.
  set (u := match tu with None => uuid4 | Some u => u end).
  split.
  - intros H.
    destruct (int_float amount) as [a|]; [|discriminate].
    destruct (int_float total) as [t|]; [|discriminate].
    destruct (startswith "http" s); [|discriminate].
    destruct (startswith "http" f); [|discriminate].
    destruct (blank u); [discriminate|].
    destruct (blank (merchant_id self)); [discriminate|].
    cbn in H. injection H as <-. exists a, t. repeat split.
  - intros (a & t & -> & -> & -> & -> & -> & -> & ->). reflexivity.
Qed.

End Outcome.

Lemma contains_count_pair k v : contains "=" (k ++ String "=" v) = true.
Proof.
  unfold contains. rewrite count_app. cbn [count Ascii.eqb Bool.eqb].
  apply negb_true_iff, Nat.eqb_neq. lia.
Qed.

Section Decoding.

Variable b64decode_utf8 : string -> string + string.

Lemma lookup_set {V : Type} k k' (v : V) d :
  lookup k (set k' v d) = if String.eqb k k' then Some v else lookup k d.
Proof.
  induction d as [|[k0 v0] d IH]; cbn [set lookup]; [reflexivity|].
  destruct (String.eqb_spec k' k0) as [->|Hn]; cbn [lookup].
  - destruct (String.eqb k k0); reflexivity.
  - rewrite IH. destruct (String.eqb_spec k k0) as [->|Hk]; [|reflexivity].
    destruct (String.eqb_spec k0 k'); [congruence | reflexivity].
Qed.

Lemma lookup_app {V : Type} k (a b : dict V) :
  lookup k (a ++ b)%list
  = match lookup k a with Some v => Some v | None => lookup k b end.
Proof.
  induction a as [|[k0 v0] a IH]; cbn [app lookup]; [reflexivity|].
  destruct (String.eqb k k0); [reflexivity | apply IH].
Qed.

(** Assigning the pairs in order: the last value of a key is the one that
    is found. *)
Lemma lookup_assigned k (d acc : dict string) :
  lookup k (fold_left (fun params kv => set (fst kv) (snd kv) params) d acc)
  = match lookup k (rev d) with Some v => Some v | None => lookup k acc end.
Proof.
  revert acc. induction d as [|[k0 v0] d IH]; intros acc; [reflexivity|].
  cbn [fold_left rev fst snd]. rewrite IH, lookup_app, lookup_set.
  cbn [lookup]. destruct (lookup k (rev d)); [reflexivity|].
  destruct (String.eqb k k0); reflexivity.
Qed.

Lemma assigned_distinct (d acc : dict string) :
  NoDup (keys acc ++ keys d) ->
  fold_left (fun params kv => set (fst kv) (snd kv) params) d acc = (acc ++ d)%list.
Proof.
  revert acc. induction d as [|[k v] d IH]; intros acc H; cbn [fold_left fst snd].
  - now rewrite app_nil_r.
  - rewrite UrlQueryUtils.set_fresh.
    + rewrite IH; [now rewrite <- app_assoc|].
      unfold keys in *. rewrite map_app. cbn [map fst]. rewrite <- app_assoc. exact H.
    + apply NoDup_remove_2 in H. intros Hin. apply H. apply in_or_app. now left.
Qed.

Lemma payload_pair_no_amp kv : payload_item kv -> count "&" (payload_pair kv) = 0.
Proof.
  intros (_ & Hk & Hv). unfold payload_pair. rewrite count_app. cbn [count].
  cbn [Ascii.eqb Bool.eqb]. lia.
Qed.

Lemma split_on_payload d :
  d <> [] -> Forall payload_item d ->
  split_on "&" (payload_text d) = map payload_pair d.
Proof.
  unfold payload_text. fold payload_pair.
  induction d as [|kv d IH]; [congruence|]. intros _ H.
  apply Forall_cons_iff in H as [Hkv H].
  destruct d as [|kv' d].
  - cbn [map join]. apply split_on_none, payload_pair_no_amp, Hkv.
  - change (join "&" (map payload_pair (kv :: kv' :: d)))
      with (payload_pair kv ++ String "&" (join "&" (map payload_pair (kv' :: d)))).
    rewrite split_on_first by apply payload_pair_no_amp, Hkv.
    rewrite IH by (discriminate || assumption). reflexivity.
Qed.

(** Decoding a payload assigns its pairs in order. *)
Lemma decode_payment_response_assigns x d :
  b64decode_utf8 x = inr (payload_text d) -> Forall payload_item d ->
  decode_payment_response b64decode_utf8 x
  = fold_left (fun params kv => set (fst kv) (snd kv) params) d [].
Proof.
  intros Hx Hd. unfold decode_payment_response. rewrite Hx.
  destruct d as [|kv0 d0] eqn:E; [reflexivity|]. rewrite <- E in *.
  rewrite split_on_payload by (assumption || (rewrite E; discriminate)).
  clear E Hx. generalize (@nil (string * string)) as acc.
  induction d as [|[k v] d IH]; intros acc; [reflexivity|].
  apply Forall_cons_iff in Hd as [(Hk & _ & _) Hd]. cbn [fst snd] in Hk.
  cbn [map fold_left]. change (payload_pair (k, v)) with (k ++ String "=" v).
  rewrite contains_count_pair, split_once_first by assumption.
  apply IH, Hd.
Qed.

(** X7.  [decode_payment_response] on a payload of [key=value] pairs joined
    by '&': every key is found with the last value the payload gives it, and
    a payload with distinct keys comes back as the dictionary of its pairs,
    in order.  The values are taken as they are; nothing is URL-decoded. *)
Theorem decode_payment_response_payload x d :
  b64decode_utf8 x = inr (payload_text d) -> Forall payload_item d ->
  (forall k, lookup k (decode_payment_response b64decode_utf8 x) = lookup k (rev d))
  /\ (NoDup (keys d) -> decode_payment_response b64decode_utf8 x = d).
Proof.
  intros Hx Hd. rewrite (decode_payment_response_assigns _ _ Hx Hd). split.
  - intros k. rewrite lookup_assigned. now destruct (lookup k (rev d)).
  - intros Hn. now rewrite assigned_distinct.
Qed.

End Decoding.

Lemma create_payment_request_dead_checks_witness :
  [ "transaction_uuid" ] = empty_fields default_esewa "  "
  /\ incl [ "transaction_uuid" ] ["transaction_uuid"; "product_code"].
Proof.
  apply (proj2 (proj2 (create_payment_request_dead_checks Z (fun z => Some z)
                         default_esewa "unused" 100%Z "BK80AEBE1D39" 100%Z
                         "http://localhost:8000/api/esewa/v2/success/?package_id=8"
                         "http://localhost:8000/api/esewa/v2/failure/" (Some "  ")))).
  vm_compute. reflexivity.
Defined.

Lemma create_payment_request_returns_iff_witness :
  create_payment_request Z (fun z => Some z) default_esewa "unused" 100%Z
    "BK80AEBE1D39" 150%Z "http://s/?a=1" "http://f/" (Some "241028")
  = Return (built_request default_esewa "241028" 100%Z "http://s/?a=1" "http://f/").
Proof.
  apply (proj2 (create_payment_request_returns_iff Z (fun z => Some z)
                  default_esewa "unused" 100%Z "BK80AEBE1D39" 150%Z
                  "http://s/?a=1" "http://f/" (Some "241028")
                  (built_request default_esewa "241028" 100%Z "http://s/?a=1" "http://f/"))).
  exists 100%Z, 150%Z. repeat split.
Defined.

(** A payload that gives [status] twice and holds an escaped character. *)
Lemma decode_payment_response_payload_witness :
  lookup "status"
    (decode_payment_response b64decode_utf8_strict
       (encoded_payload [("status", "PENDING"); ("note", "a%20b=c");
                         ("status", "COMPLETE")]))
  = Some "COMPLETE"
  /\ decode_payment_response b64decode_utf8_strict
       (encoded_payload [("transaction_code", "0007YMM"); ("note", "a%20b=c")])
     = [("transaction_code", "0007YMM"); ("note", "a%20b=c")].
Proof.
  split.
  - apply (proj1 (decode_payment_response_payload b64decode_utf8_strict
                    (encoded_payload [("status", "PENDING"); ("note", "a%20b=c");
                                      ("status", "COMPLETE")])
                    [("status", "PENDING"); ("note", "a%20b=c"); ("status", "COMPLETE")]
                    eq_refl
                    ltac:(repeat constructor)) "status").
  - apply (proj2 (decode_payment_response_payload b64decode_utf8_strict
                    (encoded_payload [("transaction_code", "0007YMM");
                                      ("note", "a%20b=c")])
                    [("transaction_code", "0007YMM"); ("note", "a%20b=c")]
                    eq_refl
                    ltac:(repeat constructor))).
    repeat constructor; cbn; intuition discriminate.
Defined.

End EsewaRequestChecks.

(* ===================================================================== *)
(** * [esewa_v2_views.py], continued: when a callback books, and what *)
(* ===================================================================== *)

Module EsewaV2Callback.
Import PyStr Models EsewaV2Views.

(** The travelers [Q(email=e) | Q(phone_number=p)] selects. *)
Definition matches (e p : string) (t : Traveler) : bool :=
  String.eqb (email t) e || String.eqb (phone_number t) p.

(** A ticket names a traveler and a package of the store; a payment names a
    ticket of the store, and the traveler and the package of that ticket. *)
Definition ticket_linked (db : Store) (tk : Ticket) : Prop :=
  (exists t, In t (travelers db) /\ Models.traveler_id t = ticket_traveler tk)
  /\ (exists pk, In pk (packages db) /\ id pk = ticket_package tk).

Definition payment_linked (db : Store) (pay : Payment) : Prop :=
  exists tk, In tk (tickets db) /\ ticket_id tk = payment_ticket pay
             /\ ticket_traveler tk = payment_traveler pay
             /\ ticket_package tk = payment_package pay.

Definition linked (db : Store) : Prop :=
  Forall (ticket_linked db) (tickets db)
  /\ Forall (payment_linked db) (payments db).

Definition redirects (l : list Response) : nat :=
  List.length (filter is_redirect l).

(** An amount that the column [DecimalField(max_digits=10, decimal_places=2)]
    of [Payment] stores as it reads: a whole number of at most eight digits,
    written as [str] writes an [int]. *)
Definition storable (amount : string) : Prop :=
  exists z, (Z.abs z < 10 ^ 8)%Z /\ amount = str_of_int z.

Section Callback.

Variable b64decode_utf8 : string -> string + string.
Variable py_int : string -> option Z.
Variable int_float : string -> option Z.

(** The traveler id of the request, when it has one, is a number and the
    id of a traveler; the package id is a number and the id of a package. *)
Definition traveler_resolvable (p : BookingParams) (db : Store) : Prop :=
  truthy (traveler_id p) = true ->
  exists tid t,
    py_int (traveler_id p) = Some tid
    /\ List.find (fun t => Z.eqb (Models.traveler_id t) tid) (travelers db) = Some t.

Definition package_resolvable (p : BookingParams) (db : Store) : Prop :=
  exists pid pk, py_int (package_id p) = Some pid /\ get_package pid db = Some pk.

(** The conditions on a callback under which it is booked. *)
Definition bookable (w : World) (request : Request) (db : Store) : Prop :=
  let p := extract_params (request_params request) in
  let decoded_data := callback_data b64decode_utf8 request in
  count UrlUtils.qmark (absolute_uri request) <= 1
  /\ opt_truthy (encoded_data p) = true
  /\ lookup "error" decoded_data = None
  /\ verification_status b64decode_utf8 w request = Some (JString "COMPLETE")
  /\ check_amount int_float (payment_amount p) (lookup "total_amount" decoded_data)
     = AmountAccepted
  /\ missing_booking_fields p = []
  /\ traveler_resolvable p db
  /\ package_resolvable p db.

(** Serving callbacks one after the other, each in the world of its time. *)
Fixpoint serve (callbacks : list (World * Request)) (db : Store)
  : list Response * Store :=
  match callbacks with
  | [] => ([], db)
  | (w, request) :: rest =>
      let '(response, db1, _) := get b64decode_utf8 py_int int_float w request db in
      let (responses, db2) := serve rest db1 in
      (response :: responses, db2)
  end.

End Callback.

(** The callback of [url_utils.py]'s own example, with '?data=' in place of
    '&data='. *)
Definition malformed_request : Request :=
  django_request
    ("http://localhost:8000/api/system/esewa/verify-and-book/"
       ++ "?booking_reference=BK80AEBE1D39&package_id=8&payment_amount=1800"
       ++ "&traveler_name=Ayush+shahi&traveler_email=ayush%40example.com"
       ++ "&traveler_phone=9861291159&traveler_address=Kathmandu"
       ++ "?data="
       ++ Crypto.b64encode (Crypto.bytes_of_string (gateway_payload "COMPLETE"))).

Definition malformed_run : Response * Store * list Event :=
  get_py test_world malformed_request demo_store.

(** A store that already holds the traveler of the callbacks above, under
    another name and address. *)
Definition store_with_same_phone : Store :=
  mkStore [mkTraveler 3 "A. Shahi" "a.shahi@example.org" "9861291159" "Pokhara"]
          (packages demo_store) [] [].

Definition reuse_run : Response * Store * list Event :=
  get_py test_world (django_request (callback_url "COMPLETE" "")) store_with_same_phone.

(** The well-formed callback of a new traveler. *)
Definition first_request : Request := django_request (callback_url "COMPLETE" "").

(** The test settings with another secret key. *)
Definition rekeyed_world : World :=
  mkWorld {| EsewaUtils.merchant_id := "EPAYTEST";
             EsewaUtils.secret_key := "kR7#pL2vQ9xT4mB8" |}
          (gateway_says "COMPLETE") no_faults "2025-01-15T10:30:00".

(** Three callbacks in a row: confirmed, pending at the gateway, confirmed. *)
Definition three_callbacks : list Response * Store :=
  serve EsewaUtils.b64decode_utf8_strict int_of_str int_of_str
    [(test_world, first_request); (pending_world, first_request);
     (test_world, first_request)]
    demo_store.

(** ** Facts *)

Lemma least_pk_some l t :
  least_pk l = Some t ->
  In t l /\ forall u, In u l -> (Models.traveler_id t <= Models.traveler_id u)%Z.
Proof.
  revert t. induction l as [|x l IH]; intros t; cbn [least_pk]; [discriminate|].
  destruct (least_pk l) as [u|] eqn:E.
  - destruct (IH u eq_refl) as [Hin Hle].
    destruct (Z.leb_spec (Models.traveler_id x) (Models.traveler_id u)); intros [= <-].
    + split; [now left|]. intros v [<-|Hv]; [lia|]. specialize (Hle v Hv). lia.
    + split; [now right|]. intros v [<-|Hv]; [lia|]. now apply Hle.
  - intros [= <-]. destruct l as [|y l]; [|cbn in E; destruct (least_pk l);
      [destruct (Z.leb _ _)|]; discriminate].
    split; [now left|]. intros v [<-|[]]. lia.
Qed.

Lemma least_pk_none l : least_pk l = None -> l = [].
Proof.
  destruct l as [|x l]; [reflexivity|]. cbn [least_pk].
  destruct (least_pk l); [destruct (Z.leb _ _)|]; discriminate.
Qed.

Lemma first_traveler_some e p db t :
  first_traveler_by_email_or_phone e p db = Some t ->
  In t (travelers db) /\ matches e p t = true
  /\ forall u, In u (travelers db) -> matches e p u = true ->
               (Models.traveler_id t <= Models.traveler_id u)%Z.
Proof.
  unfold first_traveler_by_email_or_phone. intros H.
  apply least_pk_some in H as [Hin Hle].
  apply filter_In in Hin as [Hin Hm]. repeat split; try assumption.
  intros u Hu Hmu. apply Hle, filter_In. split; assumption.
Qed.

Lemma first_traveler_none e p db :
  first_traveler_by_email_or_phone e p db = None ->
  forall u, In u (travelers db) -> matches e p u = false.
Proof.
  unfold first_traveler_by_email_or_phone. intros H u Hu.
  apply least_pk_none in H.
  destruct (matches e p u) eqn:Hm; [|reflexivity].
  assert (Hin : In u (filter (fun t => String.eqb (email t) e
                                       || String.eqb (phone_number t) p)
                             (travelers db)))
    by (apply filter_In; split; assumption).
  rewrite H in Hin. destruct Hin.
Qed.

Lemma missing_nil p :
  missing_booking_fields p = [] ->
  falsy (traveler_name p) = false /\ falsy (traveler_email p) = false
  /\ falsy (traveler_phone p) = false /\ falsy (traveler_address p) = false
  /\ falsy (package_id p) = false /\ falsy (payment_amount p) = false.
Proof.
  unfold missing_booking_fields.
  destruct (falsy (traveler_name p)); [discriminate|].
  destruct (falsy (traveler_email p)); [discriminate|].
  destruct (falsy (traveler_phone p)); [discriminate|].
  destruct (falsy (traveler_address p)); [discriminate|].
  destruct (falsy (package_id p)); [discriminate|].
  destruct (falsy (payment_amount p)); [discriminate|].
  repeat split.
Qed.

Lemma request_params_well_formed request :
  count UrlUtils.qmark (absolute_uri request) <= 1 ->
  request_params request = DjangoQueryDict (GET request).
Proof.
  intros H. unfold request_params.
  rewrite UrlUtils.fix_url_str_normalize, UrlUtils.normalize_unchanged by assumption.
  now rewrite String.eqb_refl.
Qed.

Lemma request_params_repaired request :
  1 < count UrlUtils.qmark (absolute_uri request) ->
  exists d, request_params request = FixedQueryDict d.
Proof.
  intros H. unfold request_params.
  destruct (String.eqb_spec (absolute_uri request)
              (UrlUtils.fix_url_str (absolute_uri request))) as [E|_];
    [|cbn [negb]; eauto].
  exfalso. rewrite UrlUtils.fix_url_str_normalize in E.
  pose proof (UrlUtils.count_normalize (absolute_uri request)) as Hc.
  rewrite <- E in Hc. lia.
Qed.

Section CallbackFacts.

Variable b64decode_utf8 : string -> string + string.
Variable py_int : string -> option Z.
Variable int_float : string -> option Z.

Lemma resolve_traveler_inversion w p db t db1 :
  resolve_traveler py_int w p db = (inr t, db1) ->
  (truthy (traveler_id p) = true /\ db1 = db
   /\ exists tid,
        py_int (traveler_id p) = Some tid
        /\ List.find (fun t => Z.eqb (Models.traveler_id t) tid) (travelers db)
           = Some t)
  \/ (truthy (traveler_id p) = false /\ db1 = db
      /\ first_traveler_by_email_or_phone (traveler_email p) (traveler_phone p) db
         = Some t)
  \/ (truthy (traveler_id p) = false
      /\ first_traveler_by_email_or_phone (traveler_email p) (traveler_phone p) db
         = None
      /\ traveler_insert_raises (db_faults w) = false
      /\ t = mkTraveler (next_id (map Models.traveler_id (travelers db)))
               (traveler_name p) (traveler_email p) (traveler_phone p)
               (traveler_address p)
      /\ db1 = mkStore (travelers db ++ [t]) (packages db) (tickets db)
                       (payments db)).
Proof.
  unfold resolve_traveler. destruct (truthy (traveler_id p)).
  - destruct (py_int (traveler_id p)) as [tid|]; [|discriminate].
    unfold get_traveler. destruct (List.find _ _) as [t'|] eqn:F; [|discriminate].
    intros [= <- <-]. left. eauto.
  - destruct (first_traveler_by_email_or_phone _ _ db) as [t'|] eqn:F.
    + intros [= <- <-]. right. left. auto.
    + unfold create_traveler.
      destruct (traveler_insert_raises (db_faults w)); [discriminate|].
      intros [= <- <-]. right. right. auto.
Qed.

(** What a booking step that returns has done. *)
Lemma create_booking_inversion w q p dd vr db fp db' :
  create_booking py_int w q p dd vr db = (inr fp, db') ->
  exists t db1 pid pk d amount,
    resolve_traveler py_int w p db = (inr t, db1)
    /\ py_int (package_id p) = Some pid /\ get_package pid db = Some pk
    /\ qdict q = inr d
    /\ (if truthy (payment_amount p) then Some (payment_amount p)
        else lookup "total_amount" dd) = Some amount
    /\ ticket_insert_raises (db_faults w) = false
    /\ payment_insert_raises (db_faults w) = false
    /\ let tk := mkTicket (next_id (map ticket_id (tickets db))) (id pk)
                          (Models.traveler_id t) in
       let pay := payment_row w p dd vr d t tk pk amount
                    (next_id (map payment_id (payments db))) in
       db' = mkStore (travelers db1) (packages db) (tickets db ++ [tk])
                     (payments db ++ [pay])
       /\ fp = frontend_params p dd t tk pk pay.
Proof.
  unfold create_booking, Models.bind. intros H.
  destruct (resolve_traveler py_int w p db) as [[e|t] db1] eqn:Ht; [discriminate|].
  pose proof (resolve_traveler_frame py_int _ _ _ _ _ Ht) as (Hpk & Htk & Hpay).
  unfold resolve_package in H.
  destruct (py_int (package_id p)) as [pid|] eqn:Hpid; cbn [option_map] in H;
    [|discriminate].
  destruct (get_package pid db1) as [pk|] eqn:Hg; [|discriminate].
  unfold ret at 1 in H. unfold create_ticket in H.
  destruct (ticket_insert_raises (db_faults w)) eqn:Hft; [discriminate|].
  destruct (qdict q) as [e|d] eqn:Hq; [discriminate|]. unfold ret at 1 in H.
  destruct (if truthy (payment_amount p) then Some (payment_amount p)
            else lookup "total_amount" dd) as [amount|] eqn:Ha; [|discriminate].
  unfold create_payment in H.
  destruct (payment_insert_raises (db_faults w)) eqn:Hfp; [discriminate|].
  unfold ret in H. cbn [travelers packages tickets payments] in H.
  injection H as <- <-.
  exists t, db1, pid, pk, d, amount.
  assert (Hg' : get_package pid db = Some pk)
    by (unfold get_package in *; now rewrite <- Hpk).
  rewrite Hpk, Htk, Hpay. repeat split; assumption.
Qed.

(** The booking step returns on a fault-free database when the traveler
    and the package can be resolved and the parameters are Django's. *)
Lemma create_booking_succeeds w q d p dd vr db :
  db_faults w = no_faults ->
  qdict q = inr d ->
  falsy (payment_amount p) = false ->
  traveler_resolvable py_int p db -> package_resolvable py_int p db ->
  exists fp db',
    create_booking py_int w q p dd vr db = (inr fp, db').
Proof.
  intros Hf Hq Ha Ht (pid & pk & Hpid & Hpk).
  unfold create_booking, Models.bind.
  assert (Hr : exists t db1, resolve_traveler py_int w p db = (inr t, db1)
                             /\ packages db1 = packages db).
  { unfold resolve_traveler. destruct (truthy (traveler_id p)) eqn:E.
    - destruct (Ht E) as (tid & t & -> & F). unfold get_traveler.
      rewrite F. eauto.
    - destruct (first_traveler_by_email_or_phone _ _ db) as [t|]; [unfold ret; eauto|].
      unfold create_traveler. rewrite Hf. cbn [traveler_insert_raises no_faults].
      eexists _, _. split; reflexivity. }
  destruct Hr as (t & db1 & -> & Hp1).
  unfold resolve_package. rewrite Hpid. cbn [option_map].
  replace (get_package pid db1) with (Some pk)
    by (unfold get_package in *; now rewrite Hp1).
  unfold ret at 1. unfold create_ticket. rewrite Hf, Hq.
  cbn [ticket_insert_raises no_faults]. unfold ret at 1.
  unfold truthy. rewrite Ha. cbn [negb]. unfold create_payment.
  cbn [payment_insert_raises no_faults]. unfold ret. eauto.
Qed.

Lemma verification_status_verify w request :
  verification_status b64decode_utf8 w request = Some (JString "COMPLETE") ->
  exists vr trace,
    verify w (request_params request) (callback_verify_payload b64decode_utf8 w request)
           (lookup "transaction_code" (callback_data b64decode_utf8 request))
           (lookup "total_amount" (callback_data b64decode_utf8 request))
    = (inr vr, trace)
    /\ not_complete (lookup "status" vr) = false.
Proof.
  unfold verification_status, verify.
  destruct (skip_verification (request_params request)).
  - intros _. eexists _, _. split; reflexivity.
  - destruct (remote w _) as [text | status_code [text | o |]]; try discriminate.
    destruct (Z.eqb status_code 404); [discriminate|].
    intros H. eexists _, _. split; [reflexivity|]. now rewrite H.
Qed.

(** Everything a callback that ends in the redirect has passed. *)
Lemma get_redirect_passed w request db fp db' trace :
  get b64decode_utf8 py_int int_float w request db
  = (RedirectToFrontend fp, db', trace) ->
  let p := extract_params (request_params request) in
  let dd := callback_data b64decode_utf8 request in
  opt_truthy (encoded_data p) = true
  /\ lookup "error" dd = None
  /\ check_amount int_float (payment_amount p) (lookup "total_amount" dd)
     = AmountAccepted.
Proof.
  unfold get. fold (callback_data b64decode_utf8 request).
  intros H.
  destruct (opt_truthy _) eqn:Hd; cbn [negb] in H; [|discriminate].
  destruct (lookup "error" _) eqn:He; [discriminate|].
  destruct (verify _ _ _ _ _) as [[resp|vr] tr] eqn:Hv.
  { injection H as -> <- <-. exfalso.
    unfold verify in Hv. repeat destruct_head Hv; discriminate. }
  destruct_head H; [discriminate|].
  destruct (check_amount _ _ _) eqn:Hc; try discriminate.
  repeat split; assumption.
Qed.

Lemma resolve_traveler_in w p db t db1 :
  resolve_traveler py_int w p db = (inr t, db1) ->
  In t (travelers db1)
  /\ (travelers db1 = travelers db \/ travelers db1 = (travelers db ++ [t])%list).
Proof.
  intros H. apply resolve_traveler_inversion in H
    as [(_ & -> & tid & _ & F) | [(_ & -> & F) | (_ & _ & _ & _ & ->)]].
  - apply find_some in F as [Hin _]. auto.
  - apply first_traveler_some in F as [Hin _]. auto.
  - cbn [travelers]. split; [apply in_or_app; right; now left | now right].
Qed.

(** A callback that ends in the redirect came with a well-formed URL: the
    parameters of a repaired URL cannot be turned into the audit record. *)
Lemma get_redirect_well_formed w request db fp db' trace :
  get b64decode_utf8 py_int int_float w request db
  = (RedirectToFrontend fp, db', trace) ->
  count UrlUtils.qmark (absolute_uri request) <= 1.
Proof.
  intros H. apply get_redirect in H as (vr & _ & _ & Hm & Hb).
  destruct (Nat.le_gt_cases (count UrlUtils.qmark (absolute_uri request)) 1)
    as [|Hq]; [assumption|]. exfalso.
  destruct (request_params_repaired _ Hq) as [d Hd]. rewrite Hd in *.
  apply create_booking_inversion in Hb
    as (t & db1 & pid & pk & d' & amount & _ & _ & _ & Hqd & _).
  destruct d as [|kv d]; [|discriminate].
  apply missing_nil in Hm as (_ & _ & _ & _ & Hp & _). discriminate.
Qed.

Lemma get_books w request db :
  db_faults w = no_faults ->
  bookable b64decode_utf8 py_int int_float w request db ->
  exists fp db' trace,
    get b64decode_utf8 py_int int_float w request db
    = (RedirectToFrontend fp, db', trace).
Proof.
  intros Hf (Hq & Hd & He & Hv & Hc & Hm & Ht & Hp).
  apply verification_status_verify in Hv as (vr & trace & Hv & Hn).
  pose proof (missing_nil _ Hm) as (_ & _ & _ & _ & _ & Ha).
  assert (Hqd : qdict (request_params request) = inr (GET request))
    by (now rewrite (request_params_well_formed _ Hq)).
  destruct (create_booking_succeeds w _ _ _ (callback_data b64decode_utf8 request)
              vr db Hf Hqd Ha Ht Hp) as (fp & db' & Hb).
  exists fp, db', trace. unfold get. cbv zeta.
  fold (callback_data b64decode_utf8 request).
  fold (callback_verify_payload b64decode_utf8 w request).
  rewrite Hd. cbn [negb]. rewrite He, Hv, Hn, Hc, Hm. cbn [List.length Nat.eqb negb].
  unfold atomic. rewrite Hb. reflexivity.
Qed.

Lemma get_bookable w request db fp db' trace :
  get b64decode_utf8 py_int int_float w request db
  = (RedirectToFrontend fp, db', trace) ->
  bookable b64decode_utf8 py_int int_float w request db.
Proof.
  intros H. unfold bookable.
  pose proof (get_redirect_well_formed _ _ _ _ _ _ H) as Hq.
  pose proof (get_redirect_passed _ _ _ _ _ _ H) as (Hd & He & Hc).
  pose proof (get_redirect_status b64decode_utf8 py_int int_float _ _ _ _ _ _ H) as Hv.
  apply get_redirect in H as (vr & _ & _ & Hm & Hb).
  apply create_booking_inversion in Hb
    as (t & db1 & pid & pk & d & amount & Ht & Hpid & Hpk & _).
  repeat split; try assumption.
  - intros Hid. apply resolve_traveler_inversion in Ht
      as [(_ & _ & tid & Htid & F) | [(Hn & _) | (Hn & _)]]; [eauto | congruence..].
  - exists pid, pk. auto.
Qed.

(** X8.  A callback whose URL had to be repaired (more than one '?') is
    never booked: whatever its parameters and the gateway's answer, the
    response is not the redirect and the store is left as it was. *)
Theorem repaired_url_never_books w request db resp db' trace :
  1 < count UrlUtils.qmark (absolute_uri request) ->
  get b64decode_utf8 py_int int_float w request db = (resp, db', trace) ->
  is_redirect resp = false /\ db' = db.
Proof.
  intros Hq H.
  assert (Hr : is_redirect resp = false).
  { destruct resp; try reflexivity.
    apply get_redirect_well_formed in H. lia. }
  split; [assumption | eapply get_no_redirect; eassumption].
Qed.

(** X9.  When a callback is booked.  A callback ends in the redirect only
    if: its URL has at most one '?'; it carries [data]; the decoded payload has
    no [error] key; the verification result is COMPLETE; the amounts agree or
    one of them is absent; the six required fields are there; the traveler
    id, when given, is a number and names a traveler; and the package id is a
    number and names a package.  And it does end in the redirect if all of
    this holds, the database refuses no insert, and the amount of the request
    is one the payment's column stores. *)
Theorem callback_books_when w request db :
  (is_redirect (fst (fst (get b64decode_utf8 py_int int_float w request db))) = true ->
   bookable b64decode_utf8 py_int int_float w request db)
  /\ (bookable b64decode_utf8 py_int int_float w request db ->
      db_faults w = no_faults ->
      storable (payment_amount (extract_params (request_params request))) ->
      is_redirect (fst (fst (get b64decode_utf8 py_int int_float w request db)))
      = true).
Proof.
  split.
  - destruct (get b64decode_utf8 py_int int_float w request db)
      as [[resp db'] trace] eqn:H.
    cbn [fst]. destruct resp; try discriminate. intros _.
    eapply get_bookable, H.
  - intros Hb Hf _. destruct (get_books _ _ _ Hf Hb) as (fp & db' & trace & ->).
    reflexivity.
Qed.

(** X10.  Who a booked ticket is for.  With a traveler id in the request,
    the traveler of that id, and no traveler is written; without one, the
    traveler with the least id among those that have the request's email or
    its phone number, whatever their name and address, and no traveler is
    written; when there is none, a new traveler with the four fields of the
    request, appended to the travelers. *)
Theorem booked_traveler w request db fp db' trace :
  get b64decode_utf8 py_int int_float w request db
  = (RedirectToFrontend fp, db', trace) ->
  let p := extract_params (request_params request) in
  exists t tk,
    tickets db' = (tickets db ++ [tk])%list
    /\ ticket_traveler tk = Models.traveler_id t
    /\ In t (travelers db')
    /\ lookup "traveler_name" fp = Some (name t)
    /\ ((truthy (traveler_id p) = true /\ travelers db' = travelers db
         /\ py_int (traveler_id p) = Some (Models.traveler_id t))
        \/ (truthy (traveler_id p) = false /\ travelers db' = travelers db
            /\ matches (traveler_email p) (traveler_phone p) t = true
            /\ forall u, In u (travelers db) ->
                         matches (traveler_email p) (traveler_phone p) u = true ->
                         (Models.traveler_id t <= Models.traveler_id u)%Z)
        \/ (truthy (traveler_id p) = false
            /\ travelers db' = (travelers db ++ [t])%list
            /\ (forall u, In u (travelers db) ->
                          matches (traveler_email p) (traveler_phone p) u = false)
            /\ name t = traveler_name p /\ email t = traveler_email p
            /\ phone_number t = traveler_phone p
            /\ address t = traveler_address p)).
Proof.
  intros H p. apply get_redirect in H as (vr & _ & _ & _ & Hb).
  apply create_booking_inversion in Hb
    as (t & db1 & pid & pk & d & amount & Ht & _ & _ & _ & _ & _ & _ & -> & ->).
  fold p in Ht. pose proof (resolve_traveler_in _ _ _ _ _ Ht) as [Hin _].
  exists t, (mkTicket (next_id (map ticket_id (tickets db))) (id pk)
                      (Models.traveler_id t)).
  cbn [tickets travelers ticket_traveler]. repeat split; try assumption.
  apply resolve_traveler_inversion in Ht
    as [(Hid & -> & tid & Htid & F) | [(Hid & -> & F) | (Hid & F & _ & Et & ->)]].
  - left. apply find_some in F as [_ F]. apply Z.eqb_eq in F. subst tid. auto.
  - right. left. apply first_traveler_some in F as (_ & Hm & Hle). auto.
  - right. right. cbn [travelers]. split; [assumption|]. split; [reflexivity|].
    split; [now apply first_traveler_none|].
    rewrite Et. cbn [name email phone_number address]. repeat split.
Qed.

(** X11.  The rows of a booking belong together: the ticket is for the
    package whose id the request gives, a package of the store; the payment
    pays that ticket and names the traveler and the package of the ticket;
    and the packages are left as they were. *)
Theorem booked_rows_belong_together w request db fp db' trace :
  get b64decode_utf8 py_int int_float w request db
  = (RedirectToFrontend fp, db', trace) ->
  exists tk pay pk,
    tickets db' = (tickets db ++ [tk])%list
    /\ payments db' = (payments db ++ [pay])%list
    /\ packages db' = packages db
    /\ In pk (packages db)
    /\ py_int (package_id (extract_params (request_params request))) = Some (id pk)
    /\ ticket_package tk = id pk
    /\ payment_ticket pay = ticket_id tk
    /\ payment_traveler pay = ticket_traveler tk
    /\ payment_package pay = ticket_package tk
    /\ payment_method pay = "esewa".
Proof.
  intros H. apply get_redirect in H as (vr & _ & _ & _ & Hb).
  apply create_booking_inversion in Hb
    as (t & db1 & pid & pk & d & amount & _ & Hpid & Hpk & _ & _ & _ & _ & -> & _).
  unfold get_package in Hpk. apply find_some in Hpk as [Hin Hid].
  apply Z.eqb_eq in Hid. subst pid.
  eexists _, _, pk. cbn [tickets payments packages].
  repeat split; assumption.
Qed.

(** X12.  The amount of a booking.  The request's [payment_amount] is
    never empty, and it is the amount handed to the payment, never the
    gateway's total: the redirect reports it as the request wrote it; and
    when the payload carries a non-empty total, both convert to the same whole
    number. *)
Theorem booked_amount w request db fp db' trace :
  get b64decode_utf8 py_int int_float w request db
  = (RedirectToFrontend fp, db', trace) ->
  let p := extract_params (request_params request) in
  truthy (payment_amount p) = true
  /\ lookup "payment_amount" fp = Some (payment_amount p)
  /\ forall total,
       lookup "total_amount" (callback_data b64decode_utf8 request) = Some total ->
       truthy total = true ->
       exists z, int_float (payment_amount p) = Some z /\ int_float total = Some z.
Proof.
  intros H p.
  pose proof (get_redirect_passed _ _ _ _ _ _ H) as (_ & _ & Hc).
  apply get_redirect in H as (vr & _ & _ & Hm & Hb).
  apply missing_nil in Hm as (_ & _ & _ & _ & _ & Ha). fold p in Ha, Hc.
  assert (Hp : truthy (payment_amount p) = true) by (unfold truthy; now rewrite Ha).
  apply create_booking_inversion in Hb
    as (t & db1 & pid & pk & d & amount & _ & _ & _ & _ & Hamt & _ & _ & _ & ->).
  fold p in Hamt. rewrite Hp in Hamt. injection Hamt as <-.
  split; [assumption|]. split; [reflexivity|].
  intros total Ht Htr. unfold check_amount in Hc. rewrite Ht, Hp, Htr in Hc.
  cbn [andb] in Hc.
  destruct (int_float (payment_amount p)) as [x|]; [|discriminate].
  destruct (int_float total) as [y|]; [|discriminate].
  destruct (Z.eqb_spec x y) as [->|]; [eauto | discriminate].
Qed.

(** X13.  The audit trail of a booking.  The payment records the
    transaction code, the status and the signature of the decoded payload (the
    status the callback claims, not the one the gateway confirmed), the time of
    the request, and as its raw response the decoded payload, the verification
    result and the request's parameters. *)
Theorem booked_audit_trail w request db fp db' trace :
  get b64decode_utf8 py_int int_float w request db
  = (RedirectToFrontend fp, db', trace) ->
  let dd := callback_data b64decode_utf8 request in
  exists pay vr,
    payments db' = (payments db ++ [pay])%list
    /\ verify w (request_params request)
              (callback_verify_payload b64decode_utf8 w request)
              (lookup "transaction_code" dd) (lookup "total_amount" dd)
       = (inr vr, trace)
    /\ esewa_transaction_code pay = lookup "transaction_code" dd
    /\ esewa_status pay = lookup "status" dd
    /\ esewa_signature pay = lookup "signature" dd
    /\ date pay = now w
    /\ esewa_raw_response pay = mkRawResponse dd vr (GET request).
Proof.
  intros H dd.
  pose proof (get_redirect_well_formed _ _ _ _ _ _ H) as Hq.
  apply get_redirect in H as (vr & Hv & _ & _ & Hb).
  apply create_booking_inversion in Hb
    as (t & db1 & pid & pk & d & amount & _ & _ & _ & Hd & _ & _ & _ & -> & _).
  rewrite (request_params_well_formed _ Hq) in Hd. injection Hd as <-.
  eexists _, vr. cbn [payments]. repeat split. exact Hv.
Qed.

Lemma ticket_linked_mono db db' tk :
  incl (travelers db) (travelers db') -> packages db' = packages db ->
  ticket_linked db tk -> ticket_linked db' tk.
Proof.
  intros Ht Hp [(t & Hin & E) (pk & Hpk & Ek)]. split.
  - exists t. auto.
  - exists pk. rewrite Hp. auto.
Qed.

Lemma payment_linked_mono db db' pay :
  incl (tickets db) (tickets db') ->
  payment_linked db pay -> payment_linked db' pay.
Proof.
  intros Ht (tk & Hin & E). exists tk. auto.
Qed.

(** One callback: what it appends, and that the links are kept. *)
Lemma get_step w request db resp db' trace :
  get b64decode_utf8 py_int int_float w request db = (resp, db', trace) ->
  exists ts tks pays,
    travelers db' = (travelers db ++ ts)%list
    /\ tickets db' = (tickets db ++ tks)%list
    /\ payments db' = (payments db ++ pays)%list
    /\ packages db' = packages db
    /\ List.length tks = (if is_redirect resp then 1 else 0)
    /\ List.length pays = (if is_redirect resp then 1 else 0)
    /\ List.length ts <= (if is_redirect resp then 1 else 0)
    /\ (linked db -> linked db').
Proof.
  intros H. destruct (is_redirect resp) eqn:Hr.
  2:{ apply get_no_redirect in H; [|assumption]. subst db'.
      exists [], [], []. rewrite !app_nil_r.
      do 7 (split; [auto|]). auto. }
  destruct resp; try discriminate.
  apply get_redirect in H as (vr & _ & _ & _ & Hb).
  apply create_booking_inversion in Hb
    as (t & db1 & pid & pk & d & amount & Ht & _ & Hpk & _ & _ & _ & _ & -> & _).
  apply resolve_traveler_in in Ht as [Hin Hts].
  unfold get_package in Hpk. apply find_some in Hpk as [Hpk Hid].
  apply Z.eqb_eq in Hid.
  set (tk := mkTicket _ _ _). set (pay := payment_row _ _ _ _ _ _ _ _ _ _).
  exists (if Nat.eqb (List.length (travelers db1)) (List.length (travelers db))
          then [] else [t]), [tk], [pay].
  cbn [travelers tickets payments packages].
  assert (Hts' : travelers db1
                 = (travelers db
                      ++ (if Nat.eqb (List.length (travelers db1))
                                     (List.length (travelers db))
                          then [] else [t]))%list
                 /\ incl (travelers db) (travelers db1)).
  { destruct Hts as [E|E]; rewrite E.
    - rewrite Nat.eqb_refl, app_nil_r. split; [reflexivity | apply incl_refl].
    - rewrite length_app. cbn [List.length].
      replace (Nat.eqb (List.length (travelers db) + 1) (List.length (travelers db)))
        with false by (symmetry; apply Nat.eqb_neq; lia).
      split; [reflexivity | apply incl_appl, incl_refl]. }
  destruct Hts' as [Hts' Hincl].
  repeat split; try reflexivity; try assumption.
  - destruct (Nat.eqb _ _); cbn; lia.
  - destruct H as [Htk _].
    apply Forall_app. split.
    + eapply Forall_impl; [|exact Htk]. intros x. now apply ticket_linked_mono.
    + constructor; [|constructor]. split.
      * exists t. split; [assumption | reflexivity].
      * exists pk. split; [assumption | reflexivity].
  - destruct H as [_ Hpay].
    apply Forall_app. split.
    + eapply Forall_impl; [|exact Hpay]. intros x. apply payment_linked_mono.
      cbn [tickets]. apply incl_appl, incl_refl.
    + constructor; [|constructor]. exists tk. cbn [tickets].
      split; [apply in_or_app; right; now left|]. repeat split.
Qed.

(** X14.  Every callback, whatever its outcome, keeps the store linked:
    if every ticket names a traveler and a package of the store, and every
    payment a ticket of the store with the same traveler and package, then so
    it is afterwards. *)
Theorem callback_preserves_links w request db resp db' trace :
  linked db ->
  get b64decode_utf8 py_int int_float w request db = (resp, db', trace) ->
  linked db'.
Proof.
  intros Hl H. apply get_step in H as (ts & tks & pays & _ & _ & _ & _ & _ & _ & _ & H).
  auto.
Qed.

(** X15.  Serving any sequence of callbacks only appends: the travelers,
    tickets and payments that were there stay where they were, the packages
    are untouched, and there is one new ticket and one new payment for each
    response that is the redirect, and at most as many new travelers. *)
Theorem serve_appends callbacks db responses db' :
  serve b64decode_utf8 py_int int_float callbacks db = (responses, db') ->
  exists ts tks pays,
    travelers db' = (travelers db ++ ts)%list
    /\ tickets db' = (tickets db ++ tks)%list
    /\ payments db' = (payments db ++ pays)%list
    /\ packages db' = packages db
    /\ List.length tks = redirects responses
    /\ List.length pays = redirects responses
    /\ List.length ts <= redirects responses
    /\ (linked db -> linked db').
Proof.
  revert db responses db'.
  induction callbacks as [|[w request] rest IH]; intros db responses db';
    cbn [serve].
  - intros [= <- <-]. exists [], [], []. rewrite !app_nil_r.
    do 7 (split; [auto|]). auto.
  - destruct (get b64decode_utf8 py_int int_float w request db)
      as [[resp db1] trace] eqn:Hg.
    destruct (serve b64decode_utf8 py_int int_float rest db1)
      as [resps db2] eqn:Hs.
    intros [= <- <-].
    apply get_step in Hg
      as (ts1 & tks1 & pays1 & Et1 & Ek1 & Ep1 & Eg1 & Lk1 & Lp1 & Lt1 & Hl1).
    apply IH in Hs
      as (ts2 & tks2 & pays2 & Et2 & Ek2 & Ep2 & Eg2 & Lk2 & Lp2 & Lt2 & Hl2).
    exists (ts1 ++ ts2)%list, (tks1 ++ tks2)%list, (pays1 ++ pays2)%list.
    rewrite Et2, Ek2, Ep2, Eg2, Et1, Ek1, Ep1, Eg1, !app_assoc, !length_app.
    unfold redirects in *. cbn [filter].
    destruct (is_redirect resp); cbn [List.length];
      do 7 (split; [first [reflexivity | lia]|]); auto.
Qed.

Lemma create_booking_world w w' q p dd vr :
  db_faults w = db_faults w' -> now w = now w' ->
  create_booking py_int w q p dd vr = create_booking py_int w' q p dd vr.
Proof.
  intros Hf Hn. unfold create_booking, resolve_traveler, payment_row.
  rewrite Hf, Hn. reflexivity.
Qed.

Lemma verify_world w w' q payload tc ta :
  (forall vp, remote w vp = remote w' vp) ->
  verify w q payload tc ta = verify w' q payload tc ta.
Proof.
  intros Hr. unfold verify. now rewrite Hr.
Qed.

Lemma verify_skipped w w' q payload payload' tc ta :
  skip_verification q = true ->
  verify w q payload tc ta = verify w' q payload' tc ta.
Proof.
  intros Hs. unfold verify. now rewrite Hs.
Qed.

Lemma get_world w w' request db :
  verify w (request_params request) (callback_verify_payload b64decode_utf8 w request)
         (lookup "transaction_code" (callback_data b64decode_utf8 request))
         (lookup "total_amount" (callback_data b64decode_utf8 request))
  = verify w' (request_params request)
           (callback_verify_payload b64decode_utf8 w' request)
           (lookup "transaction_code" (callback_data b64decode_utf8 request))
           (lookup "total_amount" (callback_data b64decode_utf8 request)) ->
  db_faults w = db_faults w' -> now w = now w' ->
  get b64decode_utf8 py_int int_float w request db
  = get b64decode_utf8 py_int int_float w' request db.
Proof.
  intros Hv Hf Hn. unfold get. cbv zeta.
  fold (callback_data b64decode_utf8 request).
  fold (callback_verify_payload b64decode_utf8 w request).
  fold (callback_verify_payload b64decode_utf8 w' request).
  rewrite Hv.
  destruct (negb (opt_truthy _)); [reflexivity|].
  destruct (lookup "error" _); [reflexivity|].
  destruct (verify w' _ _ _ _) as [[r|vr] tr]; [reflexivity|].
  now rewrite (create_booking_world w w') by assumption.
Qed.

(** X16.  With [skip_verification=true] among its parameters, a callback's
    outcome does not depend on the gateway nor on the configured credentials:
    two worlds with the same database behaviour and the same clock give the
    same response, the same store and the same (empty) trace. *)
Theorem skipped_verification_ignores_gateway w w' request db :
  skip_verification (request_params request) = true ->
  db_faults w = db_faults w' -> now w = now w' ->
  get b64decode_utf8 py_int int_float w request db
  = get b64decode_utf8 py_int int_float w' request db.
Proof.
  intros Hs Hf Hn. apply get_world; try assumption.
  now apply verify_skipped.
Qed.

(** X17.  The callback never reads the secret key: the signature the
    payload carries is forwarded to the gateway and recorded, but not checked.
    Two worlds that differ in the secret key only give the same outcome. *)
Theorem callback_ignores_secret_key w w' request db :
  EsewaUtils.merchant_id (esewa w) = EsewaUtils.merchant_id (esewa w') ->
  (forall payload, remote w payload = remote w' payload) ->
  db_faults w = db_faults w' -> now w = now w' ->
  get b64decode_utf8 py_int int_float w request db
  = get b64decode_utf8 py_int int_float w' request db.
Proof.
  intros Hm Hr Hf Hn. apply get_world; try assumption.
  unfold callback_verify_payload. rewrite Hm. now apply verify_world.
Qed.

End CallbackFacts.

(** ** The theorems on concrete callbacks *)

Lemma repaired_url_never_books_witness :
  is_redirect (fst (fst malformed_run)) = false
  /\ snd (fst malformed_run) = demo_store.
Proof.
  apply (repaired_url_never_books EsewaUtils.b64decode_utf8_strict int_of_str
           int_of_str test_world malformed_request demo_store
           (fst (fst malformed_run)) (snd (fst malformed_run)) (snd malformed_run)).
  - vm_compute. repeat constructor.
  - exact (run_eta malformed_run).
Defined.

Lemma callback_books_when_witness :
  is_redirect (fst (fst first_run)) = true.
Proof.
  apply (proj2 (callback_books_when EsewaUtils.b64decode_utf8_strict int_of_str
                  int_of_str test_world first_request demo_store)).
  - apply (proj1 (callback_books_when EsewaUtils.b64decode_utf8_strict int_of_str
                    int_of_str test_world first_request demo_store)).
    vm_compute. reflexivity.
  - reflexivity.
  - exists 1800%Z. split; reflexivity.
Defined.

(** The traveler of the request is already in the store under another name
    and address, with the same phone number: the ticket is for that one. *)
Lemma booked_traveler_witness :
  let p := extract_params (request_params first_request) in
  exists t tk,
    tickets (snd (fst reuse_run)) = (tickets store_with_same_phone ++ [tk])%list
    /\ ticket_traveler tk = Models.traveler_id t
    /\ In t (travelers (snd (fst reuse_run)))
    /\ lookup "traveler_name" (redirect_params (fst (fst reuse_run))) = Some (name t)
    /\ ((truthy (traveler_id p) = true
         /\ travelers (snd (fst reuse_run)) = travelers store_with_same_phone
         /\ int_of_str (traveler_id p) = Some (Models.traveler_id t))
        \/ (truthy (traveler_id p) = false
            /\ travelers (snd (fst reuse_run)) = travelers store_with_same_phone
            /\ matches (traveler_email p) (traveler_phone p) t = true
            /\ forall u, In u (travelers store_with_same_phone) ->
                         matches (traveler_email p) (traveler_phone p) u = true ->
                         (Models.traveler_id t <= Models.traveler_id u)%Z)
        \/ (truthy (traveler_id p) = false
            /\ travelers (snd (fst reuse_run))
               = (travelers store_with_same_phone ++ [t])%list
            /\ (forall u, In u (travelers store_with_same_phone) ->
                          matches (traveler_email p) (traveler_phone p) u = false)
            /\ name t = traveler_name p /\ email t = traveler_email p
            /\ phone_number t = traveler_phone p
            /\ address t = traveler_address p)).
Proof.
  apply (booked_traveler EsewaUtils.b64decode_utf8_strict int_of_str int_of_str
           test_world first_request store_with_same_phone
           (redirect_params (fst (fst reuse_run))) (snd (fst reuse_run))
           (snd reuse_run)).
  vm_compute. reflexivity.
Defined.

Lemma booked_rows_belong_together_witness :
  exists tk pay pk,
    tickets (snd (fst first_run)) = (tickets demo_store ++ [tk])%list
    /\ payments (snd (fst first_run)) = (payments demo_store ++ [pay])%list
    /\ packages (snd (fst first_run)) = packages demo_store
    /\ In pk (packages demo_store)
    /\ int_of_str (package_id (extract_params (request_params first_request)))
       = Some (id pk)
    /\ ticket_package tk = id pk
    /\ payment_ticket pay = ticket_id tk
    /\ payment_traveler pay = ticket_traveler tk
    /\ payment_package pay = ticket_package tk
    /\ payment_method pay = "esewa".
Proof.
  apply (booked_rows_belong_together EsewaUtils.b64decode_utf8_strict int_of_str
           int_of_str test_world first_request demo_store
           (redirect_params (fst (fst first_run))) (snd (fst first_run))
           (snd first_run)).
  vm_compute. reflexivity.
Defined.

Lemma booked_amount_witness :
  let p := extract_params (request_params first_request) in
  truthy (payment_amount p) = true
  /\ lookup "payment_amount" (redirect_params (fst (fst first_run)))
     = Some (payment_amount p)
  /\ forall total,
       lookup "total_amount"
         (callback_data EsewaUtils.b64decode_utf8_strict first_request)
       = Some total ->
       truthy total = true ->
       exists z, int_of_str (payment_amount p) = Some z
                 /\ int_of_str total = Some z.
Proof.
  apply (booked_amount EsewaUtils.b64decode_utf8_strict int_of_str int_of_str
           test_world first_request demo_store
           (redirect_params (fst (fst first_run))) (snd (fst first_run))
           (snd first_run)).
  vm_compute. reflexivity.
Defined.

Lemma booked_audit_trail_witness :
  let dd := callback_data EsewaUtils.b64decode_utf8_strict first_request in
  exists pay vr,
    payments (snd (fst first_run)) = (payments demo_store ++ [pay])%list
    /\ verify test_world (request_params first_request)
              (callback_verify_payload EsewaUtils.b64decode_utf8_strict
                 test_world first_request)
              (lookup "transaction_code" dd) (lookup "total_amount" dd)
       = (inr vr, snd first_run)
    /\ esewa_transaction_code pay = lookup "transaction_code" dd
    /\ esewa_status pay = lookup "status" dd
    /\ esewa_signature pay = lookup "signature" dd
    /\ date pay = now test_world
    /\ esewa_raw_response pay = mkRawResponse dd vr (GET first_request).
Proof.
  apply (booked_audit_trail EsewaUtils.b64decode_utf8_strict int_of_str int_of_str
           test_world first_request demo_store
           (redirect_params (fst (fst first_run))) (snd (fst first_run))
           (snd first_run)).
  vm_compute. reflexivity.
Defined.

Lemma callback_preserves_links_witness : linked (snd (fst first_run)).
Proof.
  apply (callback_preserves_links EsewaUtils.b64decode_utf8_strict int_of_str
           int_of_str test_world first_request demo_store
           (fst (fst first_run)) (snd (fst first_run)) (snd first_run)).
  - split; constructor.
  - exact (run_eta first_run).
Defined.

Lemma serve_appends_witness :
  exists ts tks pays,
    travelers (snd three_callbacks) = (travelers demo_store ++ ts)%list
    /\ tickets (snd three_callbacks) = (tickets demo_store ++ tks)%list
    /\ payments (snd three_callbacks) = (payments demo_store ++ pays)%list
    /\ packages (snd three_callbacks) = packages demo_store
    /\ List.length tks = redirects (fst three_callbacks)
    /\ List.length pays = redirects (fst three_callbacks)
    /\ List.length ts <= redirects (fst three_callbacks)
    /\ (linked demo_store -> linked (snd three_callbacks)).
Proof.
  apply (serve_appends EsewaUtils.b64decode_utf8_strict int_of_str int_of_str
           [(test_world, first_request); (pending_world, first_request);
            (test_world, first_request)]
           demo_store (fst three_callbacks) (snd three_callbacks)).
  exact (surjective_pairing three_callbacks).
Defined.

Lemma skipped_verification_ignores_gateway_witness :
  get_py live_world_gateway_down bypass_request demo_store
  = get_py test_world bypass_request demo_store.
Proof.
  apply (skipped_verification_ignores_gateway EsewaUtils.b64decode_utf8_strict
           int_of_str int_of_str live_world_gateway_down test_world
           bypass_request demo_store).
  - vm_compute. reflexivity.
  - reflexivity.
  - reflexivity.
Defined.

Lemma callback_ignores_secret_key_witness :
  get_py test_world first_request demo_store
  = get_py rekeyed_world first_request demo_store.
Proof.
  apply (callback_ignores_secret_key EsewaUtils.b64decode_utf8_strict
           int_of_str int_of_str test_world rekeyed_world first_request demo_store).
  - reflexivity.
  - intros payload. reflexivity.
  - reflexivity.
  - reflexivity.
Defined.

(** What the three callbacks leave: two bookings, one traveler. *)
Example three_callbacks_outcome :
  map is_redirect (fst three_callbacks) = [true; false; true]
  /\ List.length (tickets (snd three_callbacks)) = 2
  /\ List.length (payments (snd three_callbacks)) = 2
  /\ List.length (travelers (snd three_callbacks)) = 1.
Proof. vm_compute. repeat split. Qed.

End EsewaV2Callback.

(* ===================================================================== *)
(** * Initiating a payment: [initiate_esewa_payment] and
      [esewa_serializers.py]'s [EsewaPaymentRequestSerializer] *)
(* ===================================================================== *)

Module PaymentInitiation.
Import PyStr EsewaUtils.
Import NestedBookingSerializers (Decimal, mkDecimal, hundredths, int_float_decimal,
                                 BookingData, payment_amount, query_string,
                                 initiate_esewa_payment).

(** [success_url] and [failure_url] of [initiate_esewa_payment]. *)
Definition success_url (data : BookingData) (booking_reference : string) : string :=
  "http://localhost:8000/api/esewa/v2/success/?" ++ query_string data booking_reference.

Definition failure_url : string := "http://localhost:8000/api/esewa/v2/failure/".


(** [EsewaPaymentRequestSerializer.create_payment(self)] up to the payment
    data: the URLs are optional fields, and no transaction UUID is passed. *)
Definition create_payment (esewa : EsewaPayment) (uuid4 : string)
    (amount : Decimal) (product_code : string)
    (success_url failure_url : option string) : Result (dict string) :=
  let success_url :=
    match success_url with
    | Some u => u
    | None => "http://localhost:8000/api/system/esewa/success/"
    end in
  let failure_url :=
    match failure_url with
    | Some u => u
    | None => "http://localhost:8000/api/system/esewa/failure/"
    end in
  create_payment_request Decimal (fun d => Some (int_float_decimal d))
    esewa uuid4 amount product_code amount success_url failure_url None.

(** ** Facts *)

Lemma success_url_http data ref : startswith "http" (success_url data ref) = true.
Proof. reflexivity. Qed.

(** X18.  [initiate_esewa_payment] checks nothing about the amount: with a
    transaction UUID and a merchant id that are not blank it returns, for
    every intent, the request for the amount truncated to whole units (zero
    and negative amounts included), the total being the amount, the product
    code the merchant id and not the booking reference, and the success URL
    the callback's address followed by the encoded intent.  It fails only
    when the UUID or the merchant id is blank. *)
Theorem initiate_esewa_payment_returns esewa data ref tu :
  (blank tu = false -> blank (merchant_id esewa) = false ->
   initiate_esewa_payment esewa data ref tu
   = Return (built_request esewa tu (int_float_decimal (payment_amount data))
                           (success_url data ref) failure_url))
  /\ (forall e, initiate_esewa_payment esewa data ref tu = Raise e ->
                (blank tu = true \/ blank (merchant_id esewa) = true)
                /\ e = EmptyRequiredFields (EsewaRequestChecks.empty_fields esewa tu)).
Proof.
  unfold initiate_esewa_payment, create_payment_request_int.
  rewrite EsewaRequestChecks.create_payment_request_normal_form. cbv zeta.
  change (startswith "http"
            ("http://localhost:8000" ++ "/api/esewa/v2/success/?"
               ++ query_string data ref)) with true.
  change (startswith "http" ("http://localhost:8000" ++ "/api/esewa/v2/failure/"))
    with true.
  cbn [negb]. unfold EsewaRequestChecks.empty_fields. split.
  - intros -> ->. reflexivity.
  - intros e. destruct (blank tu); destruct (blank (merchant_id esewa));
      cbn [app]; intros [= <-]; auto.
Qed.


Lemma initiate_esewa_payment_returns_witness :
  initiate_esewa_payment default_esewa
    (NestedBookingSerializers.new_traveler_intent (mkDecimal (-250)))
    "BK80AEBE1D39" "241028"
  = Return (built_request default_esewa "241028"
              (int_float_decimal (mkDecimal (-250)))
              (success_url (NestedBookingSerializers.new_traveler_intent
                              (mkDecimal (-250))) "BK80AEBE1D39")
              failure_url).
Proof.
  apply (proj1 (initiate_esewa_payment_returns default_esewa
                  (NestedBookingSerializers.new_traveler_intent (mkDecimal (-250)))
                  "BK80AEBE1D39" "241028")); reflexivity.
Defined.


End PaymentInitiation.

(* ===================================================================== *)
(** * From the booking request to the booking: the serializer, the
      gateway's redirect, the callback *)
(* ===================================================================== *)

Module BookingFlow.
Import PyStr Models EsewaV2Views.
Import NestedBookingSerializers (BookingData, validate, has_traveler_id,
                                 initiate_esewa_payment, int_float_decimal,
                                 query_string, booking_params).

(** The request the gateway's redirect produces: the success URL of the
    payment form with the [data] parameter appended. *)
Definition gateway_callback (success_url data : string) : Request :=
  django_request (success_url ++ String "&" ("data=" ++ data)).

(** One value for each name, as [parse_qs] returns distinct names. *)
Definition single_valued (d : dict string) : dict (list string) :=
  map (fun kv => (fst kv, [snd kv])) d.

(** The intent of a new traveler, its payment form, and the callback of
    the gateway for it. *)
Definition flow_intent : BookingData :=
  NestedBookingSerializers.new_traveler_intent
    (NestedBookingSerializers.mkDecimal 180000).

Definition flow_form : dict string :=
  EsewaUtils.built_request EsewaUtils.default_esewa "241028" 1800
    (PaymentInitiation.success_url flow_intent "BK80AEBE1D39")
    PaymentInitiation.failure_url.

Definition flow_data : string :=
  Crypto.b64encode (Crypto.bytes_of_string (gateway_payload "COMPLETE")).

Definition flow_run : Response * Store * list Event :=
  get_py test_world
    (gateway_callback (PaymentInitiation.success_url flow_intent "BK80AEBE1D39")
                      flow_data)
    demo_store.

(** ** Facts *)

Lemma append_assoc (a b c : string) : (a ++ b) ++ c = a ++ (b ++ c).
Proof. induction a as [|x a IH]; cbn [append]; [reflexivity | now rewrite IH]. Qed.

Lemma parse_qs_with_data (params : dict string) data :
  NoDup (keys params ++ ["data"]) ->
  UrlQueryUtils.plain data = true -> count "&" data = 0 ->
  UrlLib.parse_qs (UrlLib.urlencode params ++ String "&" ("data=" ++ data))
  = single_valued (params ++ [("data", data)])%list.
Proof.
  intros Hn Hp Ha. unfold UrlLib.parse_qs.
  rewrite UrlQueryUtils.parse_qsl_app, UrlLib.parse_qsl_urlencode.
  change ("data=" ++ data) with ("data" ++ String "=" data).
  rewrite UrlQueryUtils.parse_qsl_pair by (assumption || reflexivity).
  rewrite (UrlQueryUtils.unquote_plus_plain data) by assumption.
  change (UrlLib.unquote_plus "data") with "data".
  rewrite (UrlQueryUtils.group_distinct (params ++ [("data", data)])%list []);
    [reflexivity|].
  cbn [keys map app]. unfold keys in *. now rewrite map_app.
Qed.

(** The callback for a success URL [base?query]: the URL is not repaired,
    and [request.GET] holds the parameters of the query, then [data]. *)
Lemma gateway_callback_params base (params : dict string) data :
  count UrlUtils.qmark base = 0 ->
  NoDup (keys params ++ ["data"]) ->
  UrlQueryUtils.plain data = true -> count "&" data = 0 ->
  count UrlUtils.qmark data = 0 ->
  let request :=
    gateway_callback (base ++ String "?" (UrlLib.urlencode params)) data in
  count UrlUtils.qmark (absolute_uri request) <= 1
  /\ request_params request
     = DjangoQueryDict (single_valued (params ++ [("data", data)])%list).
Proof.
  intros Hb Hn Hp Ha Hq request.
  assert (Huri : absolute_uri request
                 = base ++ String "?" (UrlLib.urlencode params
                                         ++ String "&" ("data=" ++ data))).
  { unfold request, gateway_callback, django_request. cbn [absolute_uri].
    now rewrite append_assoc. }
  assert (Hc : count UrlUtils.qmark (absolute_uri request) <= 1).
  { rewrite Huri, count_app. cbn [count]. rewrite count_app. cbn [count].
    destruct (UrlQueryUtils.count_q_urlencode params) as [-> _].
    unfold UrlUtils.qmark in *. cbn [Ascii.eqb Bool.eqb append count]. lia. }
  split; [assumption|].
  rewrite (EsewaV2Callback.request_params_well_formed _ Hc).
  f_equal. unfold request, gateway_callback, django_request. cbn [GET].
  rewrite append_assoc. cbn [append].
  rewrite split_once_first by assumption.
  now apply parse_qs_with_data.
Qed.

Section Flow.

Variable b64decode_utf8 : string -> string + string.

(** X20.  The whole flow for a new traveler.  When the serializer accepts
    the intent and returns a payment form, and the gateway redirects to the
    form's success URL with a [data] parameter whose payload carries no
    [error] key and echoes the form's total, then, the verification result
    being COMPLETE and the database refusing no insert, the callback ends in
    the redirect to the front end: it books one ticket for the package of the
    intent, for a traveler with the email or the phone number of the intent,
    and records one payment of the amount of the intent truncated to whole
    units. *)
Theorem initiated_booking_completes esewa w db data ref tu form url data_param :
  validate db data = inr data -> has_traveler_id data = false ->
  initiate_esewa_payment esewa data ref tu = EsewaUtils.Return form ->
  lookup "success_url" form = Some url ->
  falsy data_param = false -> UrlQueryUtils.plain data_param = true ->
  count "&" data_param = 0 -> count UrlUtils.qmark data_param = 0 ->
  lookup "error" (EsewaUtils.decode_payment_response b64decode_utf8 data_param)
  = None ->
  lookup "total_amount" (EsewaUtils.decode_payment_response b64decode_utf8 data_param)
  = lookup "total_amount" form ->
  verification_status b64decode_utf8 w (gateway_callback url data_param)
  = Some (JString "COMPLETE") ->
  db_faults w = no_faults ->
  exists fp db' trace t tk pay,
    get b64decode_utf8 int_of_str int_of_str w (gateway_callback url data_param) db
    = (RedirectToFrontend fp, db', trace)
    /\ tickets db' = (tickets db ++ [tk])%list
    /\ payments db' = (payments db ++ [pay])%list
    /\ ticket_package tk = NestedBookingSerializers.package_id data
    /\ In t (travelers db') /\ ticket_traveler tk = Models.traveler_id t
    /\ EsewaV2Callback.matches
         (NestedBookingSerializers.text_of_opt
            (NestedBookingSerializers.traveler_email data))
         (NestedBookingSerializers.text_of_opt
            (NestedBookingSerializers.traveler_phone data)) t = true
    /\ payment_ticket pay = ticket_id tk
    /\ Models.amount pay
       = str_of_int (int_float_decimal (NestedBookingSerializers.payment_amount data)).
Proof.
  intros Hv Hid Hform Hurl Hd Hplain Hamp Hq Herr Htotal Hstatus Hf.
  destruct (NestedBookingSerializers.valid_new_traveler _ _ Hv Hid)
    as (n & e & ph & a & Hn & He & Hph & Ha & Fn & Fe & Fph & Fa).
  pose proof (NestedBookingSerializers.booking_params_new _ _ ref _ _ _ _
                Hv Hid Hn He Hph Ha Fn Fe Fph Fa) as Hb.
  (* the form and its success URL *)
  unfold initiate_esewa_payment, EsewaUtils.create_payment_request_int in Hform.
  apply EsewaUtils.create_payment_request_returns in Hform as (amt & [= <-] & ->).
  cbn [EsewaUtils.built_request lookup String.eqb Ascii.eqb Bool.eqb] in Hurl, Htotal.
  injection Hurl as <-.
  change ("http://localhost:8000" ++ "/api/esewa/v2/success/?" ++ query_string data ref)
    with ("http://localhost:8000/api/esewa/v2/success/"
            ++ String "?" (query_string data ref)) in *.
  unfold query_string in *. rewrite Hb in *.
  set (params := [("booking_reference", ref);
                  ("package_id", str_of_int (NestedBookingSerializers.package_id data));
                  ("payment_amount",
                   str_of_int (int_float_decimal
                                 (NestedBookingSerializers.payment_amount data)));
                  ("traveler_name", n); ("traveler_email", e);
                  ("traveler_phone", ph); ("traveler_address", a)]) in *.
  set (request := gateway_callback _ data_param) in *.
  assert (Hcp : count UrlUtils.qmark (absolute_uri request) <= 1
                /\ request_params request
                   = DjangoQueryDict
                       (single_valued (params ++ [("data", data_param)])%list)).
  { exact (gateway_callback_params "http://localhost:8000/api/esewa/v2/success/"
             params data_param eq_refl
             ltac:(repeat constructor; cbn; intuition discriminate)
             Hplain Hamp Hq). }
  destruct Hcp as [Hc Hparams].
  (* the callback can be booked *)
  assert (Hpackage : exists pk,
             get_package (NestedBookingSerializers.package_id data) db = Some pk).
  { unfold validate in Hv.
    destruct (get_package (NestedBookingSerializers.package_id data) db) as [pk|];
      [eauto|].
    repeat destruct_head Hv; discriminate. }
  destruct Hpackage as [pk Hpk].
  assert (Hbook : EsewaV2Callback.bookable b64decode_utf8 int_of_str int_of_str
                    w request db).
  { unfold EsewaV2Callback.bookable, callback_data. rewrite Hparams.
    cbn [extract_params qget qget_or lookup single_valued params map app fst snd
         String.eqb Ascii.eqb Bool.eqb List.last encoded_data payment_amount
         str_of_opt opt_truthy].
    unfold truthy. rewrite Hd. cbn [negb].
    repeat split; try assumption.
    - unfold check_amount. rewrite Htotal. unfold truthy.
      rewrite !str_of_int_truthy. cbn [negb andb].
      rewrite !int_of_str_of_int, Z.eqb_refl. reflexivity.
    - unfold missing_booking_fields.
      cbn [extract_params qget qget_or lookup String.eqb Ascii.eqb Bool.eqb
           List.last map traveler_name traveler_email traveler_phone
           traveler_address package_id payment_amount].
      rewrite Fn, Fe, Fph, Fa, !str_of_int_truthy. reflexivity.
    - intros Ht. discriminate.
    - exists (NestedBookingSerializers.package_id data), pk.
      cbn [package_id]. split; [apply int_of_str_of_int | assumption]. }
  destruct (EsewaV2Callback.get_books _ _ _ _ _ _ Hf Hbook)
    as (fp & db' & trace & Hget).
  (* what was booked *)
  pose proof Hget as Hr.
  apply get_redirect in Hr as (vr & _ & _ & _ & Hcb).
  apply EsewaV2Callback.create_booking_inversion in Hcb
    as (t & db1 & pid & pk' & d & amount & Ht & Hpid & Hpk' & _ & Hamt & _ & _
        & Hdb & _).
  rewrite Hparams in Ht, Hpid, Hamt.
  cbn [extract_params qget qget_or lookup single_valued params map app fst snd
       String.eqb Ascii.eqb Bool.eqb List.last package_id payment_amount] in Hpid, Hamt.
  rewrite int_of_str_of_int in Hpid. injection Hpid as <-.
  unfold truthy in Hamt. rewrite str_of_int_truthy in Hamt. injection Hamt as <-.
  unfold get_package in Hpk'. apply find_some in Hpk' as [_ Hpid].
  apply Z.eqb_eq in Hpid.
  pose proof (EsewaV2Callback.resolve_traveler_in _ _ _ _ _ _ Ht) as [Hin _].
  assert (Hmatch : EsewaV2Callback.matches e ph t = true).
  { apply EsewaV2Callback.resolve_traveler_inversion in Ht
      as [(Htid & _) | [(_ & _ & F) | (_ & _ & _ & Et & _)]].
    - discriminate.
    - now apply EsewaV2Callback.first_traveler_some in F as (_ & Hm & _).
    - rewrite Et. unfold EsewaV2Callback.matches.
      cbn [email phone_number extract_params qget qget_or lookup single_valued
           params map app fst snd String.eqb Ascii.eqb Bool.eqb List.last
           traveler_email traveler_phone].
      now rewrite String.eqb_refl. }
  rewrite He, Hph. cbn [NestedBookingSerializers.text_of_opt].
  eexists fp, db', trace, t, _, _. split; [exact Hget|].
  rewrite Hdb. cbn [tickets payments travelers ticket_package ticket_traveler].
  repeat split; assumption.
Qed.

End Flow.

Lemma initiated_booking_completes_witness :
  exists fp db' trace t tk pay,
    get EsewaUtils.b64decode_utf8_strict int_of_str int_of_str test_world
        (gateway_callback (PaymentInitiation.success_url flow_intent "BK80AEBE1D39")
                          flow_data)
        demo_store
    = (RedirectToFrontend fp, db', trace)
    /\ tickets db' = (tickets demo_store ++ [tk])%list
    /\ payments db' = (payments demo_store ++ [pay])%list
    /\ ticket_package tk = NestedBookingSerializers.package_id flow_intent
    /\ In t (travelers db') /\ ticket_traveler tk = Models.traveler_id t
    /\ EsewaV2Callback.matches
         (NestedBookingSerializers.text_of_opt
            (NestedBookingSerializers.traveler_email flow_intent))
         (NestedBookingSerializers.text_of_opt
            (NestedBookingSerializers.traveler_phone flow_intent)) t = true
    /\ payment_ticket pay = ticket_id tk
    /\ Models.amount pay
       = str_of_int (int_float_decimal
                       (NestedBookingSerializers.payment_amount flow_intent)).
Proof.
  apply (initiated_booking_completes EsewaUtils.b64decode_utf8_strict
           EsewaUtils.default_esewa test_world demo_store flow_intent
           "BK80AEBE1D39" "241028" flow_form
           (PaymentInitiation.success_url flow_intent "BK80AEBE1D39") flow_data);
    vm_compute; reflexivity.
Defined.

End BookingFlow.
